(** * DYET learning portal: notes/quiz pipeline and activity log

    A shallow embedding of the route handlers of the portal
    ([api/notes], [api/student-activity-exam]) and of the client-side quiz
    scoring, together with the properties of the specification that concern
    them.

    Conventions of the embedding:
    - a JavaScript string is the list of its UTF-16 code units;
    - a value produced by [JSON.parse] is a [value]; a number keeps the exact
      decimal value of its literal, the JavaScript number being the IEEE
      double nearest to it;
    - code that can throw lives in the [result] monad, and a [try]/[catch]
      is a [match] on the outcome;
    - the database is an in-memory list of documents threaded through the
      handlers; outcomes of the external services (media host, generative
      API, text extraction) are read from an environment record. Loss of the
      database connection is outside the model. *)

From Stdlib Require Import ZArith NArith List Ascii String Bool Lia Permutation.
From Stdlib Require Import DecimalString.
From Stdlib Require DecimalNat.
From stdpp Require Import gmap list sorting.

Local Open Scope N_scope.

(** ** JavaScript strings *)

Definition jsstring := list N.

(** A literal of the development, one code unit per character. *)
Definition str (s : string) : jsstring :=
  List.map N_of_ascii (list_ascii_of_string s).

(** A literal in which the apostrophe stands for the double quote
    (code unit 34); used to write JSON texts. *)
Definition dq (s : string) : jsstring :=
  List.map (fun a => let c := N_of_ascii a in if c =? 39 then 34 else c)
           (list_ascii_of_string s).

Definition is_nil {A} (l : list A) : bool :=
  match l with [] => true | _ :: _ => false end.

(** ** Values and exceptions *)

#[local] Unset Elimination Schemes.
Inductive value : Type :=
| VUndefined
| VNull
| VBool (b : bool)
| VNum (neg : bool) (m : N) (e : Z)   (* (-1)^neg * m * 10^e *)
| VStr (s : jsstring)
| VArr (l : list value)
| VObj (fields : list (jsstring * value)).
#[local] Set Elimination Schemes.

Inductive exn : Type :=
| SyntaxError
| TypeError
| Error (msg : jsstring).

Inductive result (A : Type) : Type :=
| Ok (a : A)
| Throw (e : exn).
Arguments Ok {A} a.
Arguments Throw {A} e.

Definition bind {A B} (m : result A) (k : A -> result B) : result B :=
  match m with
  | Ok a => k a
  | Throw e => Throw e
  end.

Notation "x <- m ;; k" := (bind m (fun x => k))
  (at level 100, m at next level, right associativity).

(** [Array.prototype.filter] with a callback that may throw. *)
Fixpoint filterM {A} (p : A -> result bool) (l : list A) : result (list A) :=
  match l with
  | [] => Ok []
  | x :: r =>
      b <- p x ;;
      r' <- filterM p r ;;
      Ok (if b then x :: r' else r')
  end.

(** The literal [m * 10^e] rounds to the double zero when it is at most
    [2^-1075], half of the least positive double. *)
Definition num_is_zero (m : N) (e : Z) : bool :=
  (m =? 0) || ((e <? 0)%Z && (Z.of_N m * 2 ^ 1075 <=? 10 ^ (- e))%Z).

(** [ToBoolean]. *)
Definition truthy (v : value) : bool :=
  match v with
  | VUndefined | VNull => false
  | VBool b => b
  | VNum _ m e => negb (num_is_zero m e)
  | VStr s => negb (is_nil s)
  | VArr _ | VObj _ => true
  end.

(** [typeof v === "string"]. *)
Definition is_string (v : value) : bool :=
  match v with VStr _ => true | _ => false end.

(** [Array.isArray]. *)
Definition isArray (v : value) : bool :=
  match v with VArr _ => true | _ => false end.

(** [v.length] of an array. *)
Definition array_length (v : value) : nat :=
  match v with VArr l => length l | _ => 0%nat end.

Fixpoint obj_get (k : jsstring) (fields : list (jsstring * value)) : value :=
  match fields with
  | [] => VUndefined
  | (k', v) :: r => if decide (k = k') then v else obj_get k r
  end.

(** [CreateDataProperty]: a repeated key keeps its place and takes the
    later value. *)
Fixpoint obj_set (k : jsstring) (v : value) (fields : list (jsstring * value))
  : list (jsstring * value) :=
  match fields with
  | [] => [(k, v)]
  | (k', v') :: r =>
      if decide (k = k') then (k, v) :: r else (k', v') :: obj_set k v r
  end.

(** Property read [v.k], for the keys the program reads ([quiz],
    [question], [options], [answer]): no built-in prototype defines them, so
    only an object's own fields answer; reading a property of [null] or
    [undefined] throws. *)
Definition get (v : value) (k : jsstring) : result value :=
  match v with
  | VUndefined | VNull => Throw TypeError
  | VObj fields => Ok (obj_get k fields)
  | _ => Ok VUndefined
  end.

(** ** JSON.parse *)

Inductive parse_res (A : Type) : Type :=
| Parsed (a : A)
| SyntaxErr
| OutOfFuel.
Arguments Parsed {A} a.
Arguments SyntaxErr {A}.
Arguments OutOfFuel {A}.

Definition is_json_ws (c : N) : bool :=
  (c =? 32) || (c =? 9) || (c =? 10) || (c =? 13).

Fixpoint skip_ws (s : jsstring) : jsstring :=
  match s with
  | [] => []
  | c :: r => if is_json_ws c then skip_ws r else s
  end.

Definition is_digit (c : N) : bool := (48 <=? c) && (c <=? 57).

Definition hex_val (c : N) : option N :=
  if is_digit c then Some (c - 48)
  else if (65 <=? c) && (c <=? 70) then Some (c - 55)
  else if (97 <=? c) && (c <=? 102) then Some (c - 87)
  else None.

Definition hex4 (a b c d : N) : option N :=
  match hex_val a, hex_val b, hex_val c, hex_val d with
  | Some x, Some y, Some z, Some w => Some (((x * 16 + y) * 16 + z) * 16 + w)
  | _, _, _, _ => None
  end.

(** The one-character escapes: quote, backslash, slash, b, f, n, r, t. *)
Definition unescape (c : N) : option N :=
  if c =? 34 then Some 34
  else if c =? 92 then Some 92
  else if c =? 47 then Some 47
  else if c =? 98 then Some 8
  else if c =? 102 then Some 12
  else if c =? 110 then Some 10
  else if c =? 114 then Some 13
  else if c =? 116 then Some 9
  else None.

Definition cons_fst {A B} (a : A) (p : option (list A * B)) : option (list A * B) :=
  match p with
  | Some (t, rest) => Some (a :: t, rest)
  | None => None
  end.

(** The characters of a string literal after its opening quote, up to and
    including the closing quote. *)
Fixpoint parse_chars (s : jsstring) : option (jsstring * jsstring) :=
  match s with
  | [] => None
  | c :: r =>
      if c =? 34 then Some ([], r)
      else if c =? 92 then
        match r with
        | [] => None
        | e :: r1 =>
            if e =? 117 then
              match r1 with
              | a :: b :: c0 :: d :: r2 =>
                  match hex4 a b c0 d with
                  | Some u => cons_fst u (parse_chars r2)
                  | None => None
                  end
              | _ => None
              end
            else
              match unescape e with
              | Some u => cons_fst u (parse_chars r1)
              | None => None
              end
        end
      else if c <? 32 then None
      else cons_fst c (parse_chars r)
  end.

Fixpoint span_digits (s : jsstring) : jsstring * jsstring :=
  match s with
  | [] => ([], [])
  | c :: r =>
      if is_digit c then let '(ds, rest) := span_digits r in (c :: ds, rest)
      else ([], s)
  end.

Definition digits_val (ds : jsstring) : N :=
  fold_left (fun acc d => acc * 10 + (d - 48)) ds 0.

(** A number literal: an optional minus sign; an integer part, either the
    digit 0 alone or a digit string that does not start with 0; an optional
    fraction, a dot and at least one digit; an optional exponent, e or E,
    an optional sign and at least one digit. *)
Definition parse_number (s : jsstring) : option (value * jsstring) :=
  let '(neg, s1) :=
    match s with
    | c :: r => if c =? 45 then (true, r) else (false, s)
    | [] => (false, s)
    end in
  let '(ip, s2) := span_digits s1 in
  match ip with
  | [] => None
  | d :: ds =>
      if (d =? 48) && negb (is_nil ds) then None
      else
        let fr :=
          match s2 with
          | c :: r => if c =? 46 then Some (span_digits r) else None
          | [] => None
          end in
        match fr with
        | Some ([], _) => None
        | _ =>
            let '(fd, s3) := match fr with Some p => p | None => ([], s2) end in
            let m := digits_val (ip ++ fd) in
            let sh := Z.of_nat (length fd) in
            match s3 with
            | c :: r =>
                if (c =? 101) || (c =? 69) then
                  let '(eneg, r1) :=
                    match r with
                    | sg :: r' =>
                        if sg =? 45 then (true, r')
                        else if sg =? 43 then (false, r')
                        else (false, r)
                    | [] => (false, r)
                    end in
                  let '(ed, s4) := span_digits r1 in
                  match ed with
                  | [] => None
                  | _ :: _ =>
                      let ev := Z.of_N (digits_val ed) in
                      Some (VNum neg m ((if eneg then - ev else ev) - sh)%Z, s4)
                  end
                else Some (VNum neg m (- sh)%Z, s3)
            | [] => Some (VNum neg m (- sh)%Z, s3)
            end
        end
  end.

Definition starts_with (p s : jsstring) : bool :=
  bool_decide (take (length p) s = p).

Definition lift_opt {A} (o : option A) : parse_res A :=
  match o with
  | Some a => Parsed a
  | None => SyntaxErr
  end.

Fixpoint parse_value (fuel : nat) (s : jsstring) {struct fuel}
  : parse_res (value * jsstring) :=
  match fuel with
  | O => OutOfFuel
  | S f =>
      match skip_ws s with
      | [] => SyntaxErr
      | c :: r =>
          if c =? 123 then
            match skip_ws r with
            | [] => SyntaxErr
            | c' :: r' =>
                if c' =? 125 then Parsed (VObj [], r')
                else parse_members f [] r
            end
          else if c =? 91 then
            match skip_ws r with
            | [] => SyntaxErr
            | c' :: r' =>
                if c' =? 93 then Parsed (VArr [], r')
                else parse_elements f [] r
            end
          else if c =? 34 then
            match parse_chars r with
            | Some (t, rest) => Parsed (VStr t, rest)
            | None => SyntaxErr
            end
          else if starts_with (str "true") (c :: r) then
            Parsed (VBool true, drop 4 (c :: r))
          else if starts_with (str "false") (c :: r) then
            Parsed (VBool false, drop 5 (c :: r))
          else if starts_with (str "null") (c :: r) then
            Parsed (VNull, drop 4 (c :: r))
          else lift_opt (parse_number (c :: r))
      end
  end
with parse_elements (fuel : nat) (acc : list value) (s : jsstring) {struct fuel}
  : parse_res (value * jsstring) :=
  match fuel with
  | O => OutOfFuel
  | S f =>
      match parse_value f s with
      | Parsed (v, r) =>
          match skip_ws r with
          | [] => SyntaxErr
          | c :: r' =>
              if c =? 44 then parse_elements f (v :: acc) r'
              else if c =? 93 then Parsed (VArr (rev (v :: acc)), r')
              else SyntaxErr
          end
      | SyntaxErr => SyntaxErr
      | OutOfFuel => OutOfFuel
      end
  end
with parse_members (fuel : nat) (acc : list (jsstring * value)) (s : jsstring)
  {struct fuel} : parse_res (value * jsstring) :=
  match fuel with
  | O => OutOfFuel
  | S f =>
      match skip_ws s with
      | [] => SyntaxErr
      | c :: r =>
          if c =? 34 then
            match parse_chars r with
            | None => SyntaxErr
            | Some (k, r1) =>
                match skip_ws r1 with
                | [] => SyntaxErr
                | c1 :: r2 =>
                    if c1 =? 58 then
                      match parse_value f r2 with
                      | Parsed (v, r3) =>
                          match skip_ws r3 with
                          | [] => SyntaxErr
                          | c3 :: r4 =>
                              if c3 =? 44 then parse_members f (obj_set k v acc) r4
                              else if c3 =? 125 then
                                Parsed (VObj (obj_set k v acc), r4)
                              else SyntaxErr
                          end
                      | SyntaxErr => SyntaxErr
                      | OutOfFuel => OutOfFuel
                      end
                    else SyntaxErr
                end
            end
          else SyntaxErr
      end
  end.

(** [JSON.parse]: one value, surrounded by optional white space. Fuel
    [2 * length s + 1] always suffices ([parse_value_fuel] below), so the
    last case never arises. *)
Definition JSON_parse (s : jsstring) : result value :=
  match parse_value (2 * length s + 1) s with
  | Parsed (v, r) => if is_nil (skip_ws r) then Ok v else Throw SyntaxError
  | SyntaxErr => Throw SyntaxError
  | OutOfFuel => Throw SyntaxError
  end.

(** ** Quiz Sanitizer ([cleanQuizData], [parseQuizData]) *)

(** [s.replace(/```json/g, empty)]: every occurrence of the fence followed
    by [json] is removed, scanning left to right; what remains is not
    scanned again. The inner [match] drops the seven code units of the
    occurrence (its last branch is never taken). *)
Fixpoint strip_fence_json (s : jsstring) : jsstring :=
  match s with
  | [] => []
  | c :: r =>
      if starts_with (str "```json") s then
        match r with
        | _ :: _ :: _ :: _ :: _ :: _ :: r' => strip_fence_json r'
        | _ => []
        end
      else c :: strip_fence_json r
  end.

(** [s.replace(/```/g, empty)]: likewise for the bare fence. *)
Fixpoint strip_fence (s : jsstring) : jsstring :=
  match s with
  | [] => []
  | c :: r =>
      if starts_with (str "```") s then
        match r with
        | _ :: _ :: r' => strip_fence r'
        | _ => []
        end
      else c :: strip_fence r
  end.

(** White space and line terminators of ECMAScript, as [trim] removes
    them. *)
Definition is_js_space (c : N) : bool :=
  (c =? 9) || (c =? 10) || (c =? 11) || (c =? 12) || (c =? 13) || (c =? 32)
  || (c =? 160) || (c =? 5760) || ((8192 <=? c) && (c <=? 8202))
  || (c =? 8232) || (c =? 8233) || (c =? 8239) || (c =? 8287)
  || (c =? 12288) || (c =? 65279).

Fixpoint trim_start (s : jsstring) : jsstring :=
  match s with
  | [] => []
  | c :: r => if is_js_space c then trim_start r else s
  end.

Definition trim (s : jsstring) : jsstring :=
  rev (trim_start (rev (trim_start s))).

(** [s.indexOf(c)] scanning from position [i]; [-1] when absent. *)
Fixpoint indexOf_from (c : N) (s : jsstring) (i : Z) : Z :=
  match s with
  | [] => (-1)%Z
  | x :: r => if x =? c then i else indexOf_from c r (i + 1)%Z
  end.

Definition indexOf (c : N) (s : jsstring) : Z := indexOf_from c s 0.

(** [s.lastIndexOf(c)]: [last] is the latest position seen so far. *)
Fixpoint lastIndexOf_from (c : N) (s : jsstring) (i last : Z) : Z :=
  match s with
  | [] => last
  | x :: r => lastIndexOf_from c r (i + 1)%Z (if x =? c then i else last)
  end.

Definition lastIndexOf (c : N) (s : jsstring) : Z :=
  lastIndexOf_from c s 0 (-1).

(** [s.substring(a, b)] for [0 <= a <= b]. *)
Definition substring (s : jsstring) (a b : Z) : jsstring :=
  take (Z.to_nat (b - a)) (drop (Z.to_nat a) s).

Definition cleanQuizData (quizData : jsstring) : jsstring :=
  let cleaned := trim (strip_fence (strip_fence_json quizData)) in
  let jsonStartPos := indexOf 123 cleaned in
  let jsonEndPos := (lastIndexOf 125 cleaned + 1)%Z in
  if (0 <=? jsonStartPos)%Z && (jsonStartPos <? jsonEndPos)%Z
  then substring cleaned jsonStartPos jsonEndPos
  else cleaned.

(** The callback of the two quiz filters (in [parseQuizData] and in [PUT]):
    [item.question && typeof item.question === "string" && item.options &&
     Array.isArray(item.options) && item.options.length >= 2 &&
     item.answer && typeof item.answer === "string"],
    coerced to a boolean by [filter]. *)
Definition valid_quiz_item (item : value) : result bool :=
  q <- get item (str "question") ;;
  if negb (truthy q) then Ok false
  else if negb (is_string q) then Ok false
  else
    o <- get item (str "options") ;;
    if negb (truthy o) then Ok false
    else if negb (isArray o) then Ok false
    else if negb (2 <=? array_length o)%nat then Ok false
    else
      a <- get item (str "answer") ;;
      if negb (truthy a) then Ok false
      else Ok (is_string a).

(** The body of the [try] block of [parseQuizData]. *)
Definition parseQuizData_try (quizData : jsstring) : result (list value) :=
  let cleanedQuizData := cleanQuizData quizData in
  parsedData <- JSON_parse cleanedQuizData ;;
  if negb (truthy parsedData) then Ok []
  else
    quiz <- get parsedData (str "quiz") ;;
    if negb (truthy quiz) then Ok []
    else
      match quiz with
      | VArr items => filterM valid_quiz_item items
      | _ => Ok []
      end.

Definition parseQuizData (quizData : jsstring) : list value :=
  match parseQuizData_try quizData with
  | Ok quiz => quiz
  | Throw _ => []
  end.

(** ** Promises and external services *)

(** How an awaited call to an external service settles. *)
Inductive outcome (A : Type) : Type :=
| Resolved (a : A)
| Rejected.
Arguments Resolved {A} a.
Arguments Rejected {A}.

(** [await Promise.all(ps)]: the results in the order of [ps], or a
    rejection as soon as one of them rejects. *)
Fixpoint promise_all {A} (ps : list (outcome A)) : outcome (list A) :=
  match ps with
  | [] => Resolved []
  | p :: r =>
      match p, promise_all r with
      | Resolved a, Resolved l => Resolved (a :: l)
      | _, _ => Rejected
      end
  end.

(** [Promise.all] over callbacks that may throw. *)
Fixpoint all_results {A} (rs : list (result A)) : result (list A) :=
  match rs with
  | [] => Ok []
  | r :: rest =>
      a <- r ;;
      l <- all_results rest ;;
      Ok (a :: l)
  end.

(** [l.join(sep)] on strings. *)
Fixpoint join (sep : jsstring) (l : list jsstring) : jsstring :=
  match l with
  | [] => []
  | [x] => x
  | x :: r => x ++ sep ++ join sep r
  end.

(** Lines joined by a line feed (code unit 10). *)
Definition lines (l : list jsstring) : jsstring := join [10] l.

(** ** Content Generator ([generateContent]) *)

Inductive gen_type : Type := summary_mode | quiz_mode.   (* "summary" | "quiz" *)

(** The reply of the generative API, as far as the code reads it:
    [data.candidates[0].content.parts[0].text], every step optional. *)
Record Part := { part_text : option jsstring }.
Record Content := { content_parts : option (list Part) }.
Record Candidate := { candidate_content : option Content }.
Record GeminiData := { candidates : option (list Candidate) }.

Definition maxLength : nat := N.to_nat 90000.

(** [text.slice(a, b)] for [a <= b]. *)
Definition slice (text : jsstring) (a b : nat) : jsstring :=
  take (b - a) (drop a text).

(** [for (let i = 0; i < text.length; i += n) textChunks.push(text.slice(i, i + n))],
    at most [fuel] iterations. *)
Fixpoint chunk_loop (n fuel : nat) (text : jsstring) (i : nat) : list jsstring :=
  match fuel with
  | O => []
  | S f =>
      if (i <? length text)%nat
      then slice text i (i + n) :: chunk_loop n f text (i + n)
      else []
  end.

Definition textChunks (text : jsstring) : list jsstring :=
  chunk_loop maxLength (length text) text 0.

Definition quiz_example : jsstring :=
  lines [ dq "{";
          dq "  'quiz': [";
          dq "    {";
          dq "      'question': 'What is the capital of France?',";
          dq "      'options': ['Berlin', 'Madrid', 'Paris', 'Rome'],";
          dq "      'answer': 'Paris'";
          dq "    }";
          dq "  ]";
          dq "}" ].

Definition prompt (type : gen_type) (chunk : jsstring) : jsstring :=
  match type with
  | summary_mode =>
      str "Generate a concise summary of this content:" ++ [10; 10] ++ chunk
  | quiz_mode =>
      str "Generate a multiple-choice quiz from this content in JSON format like this:"
      ++ [10] ++ quiz_example ++ [10; 10] ++ chunk
  end.

(** [result?.candidates?.[0]?.content?.parts?.[0]?.text], or the empty
    string when a step of the chain is missing. *)
Definition response_text (data : option GeminiData) : jsstring :=
  default []
    (d ← data; cs ← candidates d; c ← head cs; ct ← candidate_content c;
     ps ← content_parts ct; p ← head ps; part_text p).

(** The value of the [catch] branch; the quiz is the text
    [JSON.stringify] prints for the placeholder object. *)
Definition fallback (type : gen_type) : jsstring :=
  match type with
  | summary_mode => str "Summary generation failed."
  | quiz_mode =>
      dq "{'quiz':[{'question':'What is the capital of France?','options':['Berlin','Madrid','Paris','Rome'],'answer':'Paris'}]}"
  end.

(** [post i p] is how the request for chunk number [i], with prompt [p],
    settles; a resolved request carries [response.data]. *)
Definition generateContent (post : nat -> jsstring -> outcome (option GeminiData))
    (text : jsstring) (type : gen_type) : jsstring :=
  let responses :=
    promise_all (imap (fun i chunk => post i (prompt type chunk)) (textChunks text)) in
  match responses with
  | Resolved rs => join (str " ") (List.map response_text rs)
  | Rejected => fallback type
  end.

(** ** HTTP responses *)

Record Response (P : Type) : Type :=
  { status : Z; message : jsstring; payload : option P }.
Arguments status {P} _.
Arguments message {P} _.
Arguments payload {P} _.

Definition respond_text {P} (st : Z) (msg : jsstring) : Response P :=
  {| status := st; message := msg; payload := None |}.

Definition respond {P} (st : Z) (msg : string) : Response P :=
  respond_text st (str msg).

Definition respond_with {P} (st : Z) (msg : string) (p : P) : Response P :=
  {| status := st; message := str msg; payload := Some p |}.

(** ** Request bodies *)

(** What a handler gets from [const { ... } = await req.json()]. The call
    throws when the body is not JSON, and no field can be read off the
    value [null]: both are [Unreadable]. Otherwise the fields are read, an
    absent one as [undefined]. *)
Inductive Json (B : Type) : Type :=
| Unreadable
| Fields (body : B).
Arguments Unreadable {B}.
Arguments Fields {B} body.

(** ** The StudentActivity model *)

Module StudentActivity.

Record QuizResult : Type :=
  { score : Z;
    totalQuestions : Z;
    answers : gmap jsstring jsstring }.

Record t : Type :=
  { userId : jsstring;
    userName : jsstring;
    exam : jsstring;
    subject : jsstring;
    chapterNumber : Z;
    activityType : jsstring;
    quizResult : option QuizResult;
    timestamp : Z }.

End StudentActivity.

(** ** The activity route ([api/student-activity-exam]) *)

Module ActivityRoute.

(** The JSON body of a [POST], typed as the clients build it. For a text
    field the empty string also stands for an absent field (both are
    falsy); [chapterNumber] and [quizResult] are [None] when absent or
    [null]. The fields have the types of the schema: a value that the
    schema cannot cast to the type of its field (a chapter number that is
    no number, say) passes the tests of the handler as a typed one does and
    makes [StudentActivity.create] reject, which is [created] in [POST]. *)
Record Body : Type :=
  { userId : jsstring;
    userName : jsstring;
    exam : jsstring;
    subject : jsstring;
    chapterNumber : option Z;
    activityType : jsstring;
    quizResult : option StudentActivity.QuizResult }.

Definition activity_types : list jsstring :=
  [str "notes_access"; str "quiz_submission"].

(** [now] is the value of [new Date()], and [created] is how
    [StudentActivity.create] settles: the store keeps the record, or
    refuses it and the [catch] of the handler answers. The six tests of
    the first [if] of the handler all lead to the same answer; the one on
    [chapterNumber] ([chapterNumber == null]) is made first here, to name
    the number. *)
Definition POST (created : outcome unit) (now : Z) (req : Json Body)
    (db : list StudentActivity.t)
  : Response StudentActivity.t * list StudentActivity.t :=
  match req with
  | Unreadable => (respond 500 "Error logging activity", db)
  | Fields body =>
      match chapterNumber body with
      | None => (respond 400 "Missing required fields", db)
      | Some n =>
          if is_nil (userId body) || is_nil (userName body) || is_nil (exam body)
             || is_nil (subject body) || is_nil (activityType body)
          then (respond 400 "Missing required fields", db)
          else if negb (bool_decide (activityType body ∈ activity_types))
          then (respond 400 "Invalid activity type", db)
          else
            let activity :=
              {| StudentActivity.userId := userId body;
                 StudentActivity.userName := userName body;
                 StudentActivity.exam := exam body;
                 StudentActivity.subject := subject body;
                 StudentActivity.chapterNumber := n;
                 StudentActivity.activityType := activityType body;
                 StudentActivity.quizResult :=
                   if bool_decide (activityType body = str "quiz_submission")
                   then quizResult body else None;
                 StudentActivity.timestamp := now |} in
            match created with
            | Resolved _ =>
                (respond_with 201 "Activity logged successfully" activity,
                 db ++ [activity])
            | Rejected => (respond 500 "Error logging activity", db)
            end
      end
  end.

(** Newest first. *)
Definition newer (a b : StudentActivity.t) : Prop :=
  (StudentActivity.timestamp b <= StudentActivity.timestamp a)%Z.

#[export] Instance newer_dec : RelDecision newer.
Proof. intros a b. unfold newer. apply _. Defined.

(** [StudentActivity.find(query).sort({ timestamp: -1 })] with
    [query = { userId }] or [{}]. *)
Definition find_sorted (query : option jsstring) (db : list StudentActivity.t)
  : list StudentActivity.t :=
  merge_sort newer
    (List.filter
       (fun a =>
          match query with
          | Some u => bool_decide (StudentActivity.userId a = u)
          | None => true
          end) db).

(** [userId] and [isAdminParam] are the query parameters
    ([searchParams.get]), [None] when missing. *)
Definition GET (userId isAdminParam : option jsstring) (db : list StudentActivity.t)
  : Response (list StudentActivity.t) :=
  let isAdmin := bool_decide (isAdminParam = Some (str "true")) in
  let hasUser := match userId with Some u => negb (is_nil u) | None => false end in
  if negb isAdmin && negb hasUser
  then respond 401 "Unauthorized: userId or admin access required"
  else
    let query := if hasUser && negb isAdmin then userId else None in
    {| status := 200; message := []; payload := Some (find_sorted query db) |}.

End ActivityRoute.

(** ** The Exam model *)

(** Modelled from the spec: the [Exam] schema ([api/(model)/Exam]) is not
    among the sources. The documents are the nested Exam, Subject and
    Chapter records of the specification, with the fields the handlers
    read and write. *)
Module Exam.

Record Chapter : Type :=
  { chapterNumber : Z;
    notesFileUrl : jsstring;
    publicId : jsstring;
    summary : jsstring;
    quiz : list value }.

Record Subject : Type :=
  { name : jsstring;
    chapters : list Chapter }.

Record t : Type :=
  { exam : jsstring;
    subjects : list Subject }.

End Exam.

(** The two collections of the database. The database is taken to be
    reachable: [connectToDatabase] and the reads ([findOne], [find])
    resolve. *)
Record DB : Type :=
  { exams : list Exam.t;
    activities : list StudentActivity.t }.

(** ** The notes route ([api/notes]) *)

Module NotesRoute.
Import Exam.

(** What [uploadToCloudinary] resolves to; an empty string stands for a
    missing field. *)
Record UploadResult : Type :=
  { url : jsstring;
    public_id : jsstring }.

(** Outcomes of the external calls of one request. The two indices are
    the subject and chapter positions of the form ([0], [0] for a
    request on a single chapter). *)
Record Env : Type :=
  { uploadToCloudinary : nat -> nat -> outcome (option UploadResult);
    deleteFromCloudinary : jsstring -> outcome unit;
    extractText : nat -> nat -> outcome jsstring;
    gemini : nat -> nat -> gen_type -> nat -> jsstring -> outcome (option GeminiData);
    deleteMany : outcome unit }.

(** [l.find(p)]: the first element that satisfies [p], with its
    position, so that it can be updated in place. *)
Definition findOne (e : jsstring) (db : list Exam.t) : option (nat * Exam.t) :=
  list_find (fun d => exam d = e) db.

Definition find_subject (n : jsstring) (l : list Subject) : option (nat * Subject) :=
  list_find (fun s => name s = n) l.

Definition find_chapter (n : Z) (l : list Chapter) : option (nat * Chapter) :=
  list_find (fun c => chapterNumber c = n) l.

(** *** POST: create an exam or extend an existing one *)

(** The [subjects] field of the form after [JSON.parse], typed as the
    upload page builds it. *)
Module Form.
Record Chapter : Type := { chapterNumber : Z }.
Record Subject : Type :=
  { name : option jsstring;
    chapters : option (list Chapter) }.
Inductive Subjects : Type :=
| Unparsable                      (* JSON.parse throws *)
| NotAnArray                      (* a falsy value or a non-array *)
| Array (l : list Subject).
End Form.

Record PostRequest : Type :=
  { post_exam : jsstring;           (* empty also when the field is absent *)
    post_subjects : Form.Subjects;
    post_file : nat -> nat -> bool  (* is [notes-file-i-j] present *) }.

Definition processChapter (env : Env) (req : PostRequest)
    (subjectIndex chapterIndex : nat) (chapter : Form.Chapter)
  : result (option Chapter) :=
  if negb (post_file req subjectIndex chapterIndex) then Ok None
  else
    uploadResult <-
      match uploadToCloudinary env subjectIndex chapterIndex with
      | Resolved r => Ok r
      | Rejected => Throw (Error (str "Cloudinary upload failed"))
      end ;;
    match uploadResult with
    | None => Throw (Error (str "Invalid upload result"))
    | Some r =>
        if is_nil (url r) || is_nil (public_id r)
        then Throw (Error (str "Invalid upload result"))
        else
          let pdfText :=
            match extractText env subjectIndex chapterIndex with
            | Resolved text => text
            | Rejected => str "Text extraction failed."
            end in
          let summary :=
            generateContent (gemini env subjectIndex chapterIndex summary_mode)
                            pdfText summary_mode in
          let quizData :=
            generateContent (gemini env subjectIndex chapterIndex quiz_mode)
                            pdfText quiz_mode in
          let quiz := parseQuizData quizData in
          Ok (Some {| chapterNumber := Form.chapterNumber chapter;
                      notesFileUrl := url r;
                      publicId := public_id r;
                      summary := summary;
                      quiz := quiz |})
    end.

(** [l.filter(x => x !== null)]. *)
Definition non_null {A} (l : list (option A)) : list A := omap id l.

Definition processSubject (env : Env) (req : PostRequest)
    (subjectIndex : nat) (subject : Form.Subject) : result (option Subject) :=
  match Form.name subject, Form.chapters subject with
  | Some n, Some chs =>
      if is_nil (trim n) || is_nil chs then Ok None
      else
        processedChapters <-
          all_results (imap (processChapter env req subjectIndex) chs) ;;
        let validChapters := non_null processedChapters in
        if is_nil validChapters then Ok None
        else Ok (Some {| name := trim n; chapters := validChapters |})
  | _, _ => Ok None
  end.

(** One step of [newSubject.chapters.forEach]. *)
Definition mergeChapter (existing : list Chapter) (newChapter : Chapter)
  : list Chapter :=
  match find_chapter (chapterNumber newChapter) existing with
  | None => existing ++ [newChapter]
  | Some (i, existingChapter) =>
      <[ i := {| chapterNumber := chapterNumber existingChapter;
                 notesFileUrl := notesFileUrl newChapter;
                 publicId := publicId newChapter;
                 summary := summary newChapter;
                 quiz := quiz newChapter |} ]> existing
  end.

(** One step of [validSubjects.forEach]. *)
Definition mergeSubject (existing : list Subject) (newSubject : Subject)
  : list Subject :=
  match find_subject (name newSubject) existing with
  | Some (i, existingSubject) =>
      <[ i := {| name := name existingSubject;
                 chapters := fold_left mergeChapter (chapters newSubject)
                                       (chapters existingSubject) |} ]> existing
  | None => existing ++ [newSubject]
  end.

Definition mergeSubjects (existingExam : Exam.t) (validSubjects : list Subject)
  : Exam.t :=
  {| exam := exam existingExam;
     subjects := fold_left mergeSubject validSubjects (subjects existingExam) |}.

Definition POST_try (env : Env) (req : PostRequest) (db : DB)
  : result (Response Exam.t * DB) :=
  match post_subjects req with
  | Form.Unparsable => Throw SyntaxError
  | Form.NotAnArray =>
      Ok (respond 400 "Missing required fields: exam or subjects", db)
  | Form.Array subjects =>
      if is_nil (post_exam req)
      then Ok (respond 400 "Missing required fields: exam or subjects", db)
      else
        processedSubjects <- all_results (imap (processSubject env req) subjects) ;;
        let validSubjects := non_null processedSubjects in
        if is_nil validSubjects
        then Ok (respond 400 "No valid subjects provided", db)
        else
          match findOne (post_exam req) (exams db) with
          | Some (k, existingExam) =>
              let saved := mergeSubjects existingExam validSubjects in
              Ok (respond_with 200 "Subjects and chapters added to existing exam!" saved,
                  {| exams := <[ k := saved ]> (exams db);
                     activities := activities db |})
          | None =>
              let newExam := {| exam := post_exam req; subjects := validSubjects |} in
              Ok (respond_with 201 "Exam added successfully!" newExam,
                  {| exams := exams db ++ [newExam];
                     activities := activities db |})
          end
  end.

Definition POST (env : Env) (req : PostRequest) (db : DB) : Response Exam.t * DB :=
  match POST_try env req db with
  | Ok r => r
  | Throw _ => (respond 500 "Error saving exam", db)
  end.

(** *** PUT: update a chapter *)

Record PutRequest : Type :=
  { put_exam : jsstring;            (* empty also when the field is absent *)
    put_subject : jsstring;
    put_chapterNumber : option Z;   (* parseInt of the field, None for NaN *)
    put_notesFile : bool;           (* is [notesFile] present *)
    put_quiz : jsstring             (* empty also when the field is absent *) }.

(** The outcome of the block "Update quiz if provided": the chapter to
    save, or the 400 response of its [catch]. *)
Definition update_quiz (quizString : jsstring) (chapter : Chapter)
  : Chapter + Response Chapter :=
  if is_nil quizString then inl chapter
  else
    match (quiz <- JSON_parse quizString ;;
           match quiz with
           | VArr items =>
               kept <- filterM valid_quiz_item items ;;
               Ok {| chapterNumber := chapterNumber chapter;
                     notesFileUrl := notesFileUrl chapter;
                     publicId := publicId chapter;
                     summary := summary chapter;
                     quiz := kept |}
           | _ => Ok chapter
           end) with
    | Ok chapter' => inl chapter'
    | Throw _ => inr (respond 400 "Invalid quiz data format")
    end.

(** The block "Handle notes file update". *)
Definition update_notes (env : Env) (req : PutRequest) (chapter : Chapter)
  : result Chapter :=
  if negb (put_notesFile req) then Ok chapter
  else
    (* the old file is deleted first; a rejection is logged and ignored *)
    let _ := if is_nil (publicId chapter) then Resolved tt
             else deleteFromCloudinary env (publicId chapter) in
    match uploadToCloudinary env 0 0 with
    | Rejected => Throw (Error (str "Cloudinary upload failed"))
    | Resolved None => Throw (Error (str "Invalid upload result from Cloudinary"))
    | Resolved (Some r) =>
        if is_nil (url r) || is_nil (public_id r)
        then Throw (Error (str "Invalid upload result from Cloudinary"))
        else
          Ok {| chapterNumber := chapterNumber chapter;
                notesFileUrl := url r;
                publicId := public_id r;
                summary :=
                  match extractText env 0 0 with
                  | Resolved pdfText =>
                      generateContent (gemini env 0 0 summary_mode) pdfText summary_mode
                  | Rejected => str "Summary generation failed."
                  end;
                quiz := quiz chapter |}
    end.

(** [examData.save()] after the chapter at positions [i], [j] of the
    document at position [k] was changed in place. *)
Definition save_chapter (k i j : nat) (examData : Exam.t) (subjectData : Subject)
    (chapter : Chapter) (db : DB) : DB :=
  {| exams :=
       <[ k := {| exam := exam examData;
                  subjects :=
                    <[ i := {| name := name subjectData;
                               chapters := <[ j := chapter ]> (chapters subjectData) |} ]>
                      (subjects examData) |} ]> (exams db);
     activities := activities db |}.

Definition PUT_try (env : Env) (req : PutRequest) (db : DB)
  : result (Response Chapter * DB) :=
  match put_chapterNumber req with
  | None =>
      Ok (respond 400 "Missing required fields: exam, subject, or chapterNumber", db)
  | Some chapterNumber =>
      if is_nil (put_exam req) || is_nil (put_subject req)
      then Ok (respond 400 "Missing required fields: exam, subject, or chapterNumber", db)
      else
        match findOne (put_exam req) (exams db) with
        | None => Ok (respond 404 "Exam not found", db)
        | Some (k, examData) =>
            match find_subject (put_subject req) (subjects examData) with
            | None => Ok (respond 404 "Subject not found", db)
            | Some (i, subjectData) =>
                match find_chapter chapterNumber (chapters subjectData) with
                | None => Ok (respond 404 "Chapter not found", db)
                | Some (j, chapter) =>
                    chapter1 <- update_notes env req chapter ;;
                    match update_quiz (put_quiz req) chapter1 with
                    | inr bad => Ok (bad, db)
                    | inl chapter2 =>
                        Ok (respond_with 200 "Chapter updated successfully" chapter2,
                            save_chapter k i j examData subjectData chapter2 db)
                    end
                end
            end
        end
  end.

Definition PUT (env : Env) (req : PutRequest) (db : DB) : Response Chapter * DB :=
  match PUT_try env req db with
  | Ok r => r
  | Throw _ => (respond 500 "Error updating chapter", db)
  end.

(** *** DELETE: remove a chapter *)

(** The [chapterNumber] of the JSON body: absent, [null] or a number. *)
Inductive BodyNumber : Type :=
| Absent
| Null
| Num (n : Z).

(** The JSON body, typed as the clients build it; a text field is empty
    also when it is absent. *)
Record DeleteRequest : Type :=
  { del_exam : jsstring;
    del_subject : jsstring;
    del_chapterNumber : BodyNumber }.

(** [Number(chapterNumber)], [None] for NaN: [isNaN(chapterNumber)] holds of
    [undefined] and not of [null], which counts as 0. *)
Definition Number (chapterNumber : BodyNumber) : option Z :=
  match chapterNumber with
  | Absent => None
  | Null => Some 0%Z
  | Num n => Some n
  end.

(** The decimal text of an integer, as a template literal prints a number
    (for magnitudes below 10^21). *)
Definition Number_toString (n : Z) : jsstring :=
  str (NilZero.string_of_int (Z.to_int n)).

(** [ExamStudentActivity.deleteMany({ exam, subject, chapterNumber })]. *)
Definition in_scope (e s : jsstring) (n : Z) (a : StudentActivity.t) : bool :=
  bool_decide (StudentActivity.exam a = e)
  && bool_decide (StudentActivity.subject a = s)
  && bool_decide (StudentActivity.chapterNumber a = n).

Definition delete_activities (e s : jsstring) (n : Z) (l : list StudentActivity.t)
  : list StudentActivity.t :=
  List.filter (fun a => negb (in_scope e s n a)) l.

(** The records that [deleteMany] leaves when it resolves. The filter
    carries [chapterNumber] as the body has it: [null] matches no record,
    every record having a number. *)
Definition after_deleteMany (e s : jsstring) (chapterNumber : BodyNumber)
    (l : list StudentActivity.t) : list StudentActivity.t :=
  match chapterNumber with
  | Num n => delete_activities e s n l
  | _ => l
  end.

(** The text of [chapterNumber] in a template literal. *)
Definition BodyNumber_text (chapterNumber : BodyNumber) : jsstring :=
  match chapterNumber with
  | Absent => str "undefined"
  | Null => str "null"
  | Num n => Number_toString n
  end.

(** [saved] is how [examData.save()] settles. It comes last, after the
    activity records were deleted: when it rejects, the [catch] of the
    handler answers, the chapter is still stored, and the records that
    [deleteMany] removed are gone. The test on [chapterNumber] is made
    first here, to name the number; the three tests of the first [if] lead
    to the same answer. *)
Definition DELETE (env : Env) (saved : outcome unit) (req : Json DeleteRequest)
    (db : DB) : Response unit * DB :=
  match req with
  | Unreadable => (respond 500 "Error deleting chapter", db)
  | Fields body =>
  match Number (del_chapterNumber body) with
  | None =>
      (respond 400 "Missing required fields: exam, subject, or chapterNumber", db)
  | Some chapterNumber =>
      if is_nil (del_exam body) || is_nil (del_subject body)
      then (respond 400 "Missing required fields: exam, subject, or chapterNumber", db)
      else
        match findOne (del_exam body) (exams db) with
        | None =>
    (respond_text 404 (str "Exam '" ++ del_exam body ++ str "' not found"), db)
        | Some (k, examData) =>
            match find_subject (del_subject body) (subjects examData) with
            | None =>
    (respond_text 404 (str "Subject '" ++ del_subject body ++ str "' not found"), db)
            | Some (i, subjectData) =>
                match find_chapter chapterNumber (chapters subjectData) with
                | None =>
    (respond_text 404
       (str "Chapter " ++ BodyNumber_text (del_chapterNumber body) ++ str " not found"),
     db)
                | Some (chapterIndex, chapter) =>
                    (* best effort: a rejection is logged and ignored *)
                    let _ := if is_nil (publicId chapter) then Resolved tt
                             else deleteFromCloudinary env (publicId chapter) in
                    (* subjectData.chapters.splice(chapterIndex, 1) *)
                    let remaining := delete chapterIndex (chapters subjectData) in
                    (* best effort: a rejection is logged and ignored *)
                    let activities' :=
                      match deleteMany env with
                      | Resolved _ =>
                          after_deleteMany (del_exam body) (del_subject body)
                                           (del_chapterNumber body) (activities db)
                      | Rejected => activities db
                      end in
                    match saved with
                    | Resolved _ =>
                        (respond 200 "Chapter deleted successfully",
                         {| exams :=
                              <[ k := {| exam := exam examData;
                                         subjects :=
                                           <[ i := {| name := name subjectData;
                                                      chapters := remaining |} ]>
                                             (subjects examData) |} ]> (exams db);
                            activities := activities' |})
                    | Rejected =>
                        (respond 500 "Error deleting chapter",
                         {| exams := exams db; activities := activities' |})
                    end
                end
            end
        end
  end
  end.

End NotesRoute.

(** ** The course page (client): quiz scoring *)

Module Courses.

Record Question : Type :=
  { question : jsstring;
    options : list jsstring;
    answer : jsstring }.

(** The component state that [handleSubmitQuiz] reads and writes. *)
Record State : Type :=
  { quiz : list Question;
    userAnswers : gmap jsstring jsstring;
    quizSubmitted : bool;
    quizScore : option (Z * Z) }.

(** [index.toString()] of an array index. *)
Definition toString (index : nat) : jsstring :=
  str (NilZero.string_of_uint (Nat.to_uint index)).

(** [l.reduce((acc, x, index) => f(acc, x, index), init)]; [index] is the
    position of the head of [l] in the array. *)
Fixpoint reduce_from {A B} (f : B -> A -> nat -> B) (l : list A) (index : nat) (acc : B)
  : B :=
  match l with
  | [] => acc
  | x :: r => reduce_from f r (S index) (f acc x index)
  end.

Definition reduce {A B} (f : B -> A -> nat -> B) (l : list A) (init : B) : B :=
  reduce_from f l 0 init.

(** [userAnswers[k] === a]: a missing key reads [undefined], which is
    not a string. *)
Definition answered (userAnswers : gmap jsstring jsstring) (k a : jsstring) : bool :=
  bool_decide (userAnswers !! k = Some a).

Definition score (st : State) : Z :=
  reduce (fun acc question index =>
            if answered (userAnswers st) (toString index) (answer question)
            then (acc + 1)%Z else acc)
         (quiz st) 0%Z.

(** The [quizResult] field of the body posted to the activity log. *)
Definition submitted_result (st : State) : StudentActivity.QuizResult :=
  {| StudentActivity.score := score st;
     StudentActivity.totalQuestions := Z.of_nat (length (quiz st));
     StudentActivity.answers := userAnswers st |}.

(** [handleSubmitQuiz]: the result posted, and the state afterwards;
    [response_ok] tells whether the log answered with a success status
    (otherwise the handler alerts and returns). *)
Definition handleSubmitQuiz (response_ok : bool) (st : State)
  : StudentActivity.QuizResult * State :=
  let score := score st in
  (submitted_result st,
   if response_ok
   then {| quiz := quiz st;
           userAnswers := userAnswers st;
           quizSubmitted := true;
           quizScore := Some (score, Z.of_nat (length (quiz st))) |}
   else st).

End Courses.

(** ** Shapes of quiz entries, for the statements *)

Definition nonempty_string (v : value) : bool :=
  match v with
  | VStr (_ :: _) => true
  | _ => false
  end.

(** The shape the filters check: an object whose [question] and [answer]
    are non-empty strings and whose [options] is an array of at least two
    elements. *)
Definition quiz_entry_shape (item : value) : bool :=
  match item with
  | VObj fields =>
      nonempty_string (obj_get (str "question") fields)
      && match obj_get (str "options") fields with
         | VArr opts => (2 <=? length opts)%nat
         | _ => false
         end
      && nonempty_string (obj_get (str "answer") fields)
  | _ => false
  end.

(** The shape of the specification: [options] is moreover a list of
    strings. *)
Definition quiz_entry_shape_strict (item : value) : bool :=
  quiz_entry_shape item
  && match item with
     | VObj fields =>
         match obj_get (str "options") fields with
         | VArr opts => forallb is_string opts
         | _ => false
         end
     | _ => false
     end.

(** The parsed value has a [quiz] field that is a list. *)
Definition has_quiz_list (v : value) : Prop :=
  exists fields items, v = VObj fields /\ obj_get (str "quiz") fields = VArr items.

(** A value whose properties can be read: neither [null] nor
    [undefined]. *)
Definition readable (v : value) : bool :=
  match v with
  | VUndefined | VNull => false
  | _ => true
  end.

(** ** Scenarios used by the examples *)

Module Scenario.
Import Exam NotesRoute.

(** Every external call fails. *)
Definition offline : Env :=
  {| uploadToCloudinary := fun _ _ => Rejected;
     deleteFromCloudinary := fun _ => Rejected;
     extractText := fun _ _ => Rejected;
     gemini := fun _ _ _ _ _ => Rejected;
     deleteMany := Rejected |}.

Definition question1 : value :=
  VObj [(str "question", VStr (str "Q1"));
        (str "options", VArr [VStr (str "a"); VStr (str "b")]);
        (str "answer", VStr (str "a"))].

Definition chapter1 : Chapter :=
  {| chapterNumber := 1;
     notesFileUrl := str "https://files.example/gate-physics-1.pdf";
     publicId := str "gate/physics-chapter-1";
     summary := str "Kinematics.";
     quiz := [question1] |}.

Definition chapter2 : Chapter :=
  {| chapterNumber := 2;
     notesFileUrl := str "https://files.example/gate-physics-2.pdf";
     publicId := str "gate/physics-chapter-2";
     summary := str "Dynamics.";
     quiz := [] |}.

Definition gate : Exam.t :=
  {| exam := str "GATE";
     subjects := [ {| name := str "Physics"; chapters := [chapter1; chapter2] |} ] |}.

Definition view (user : string) (n time : Z) : StudentActivity.t :=
  {| StudentActivity.userId := str user;
     StudentActivity.userName := str user;
     StudentActivity.exam := str "GATE";
     StudentActivity.subject := str "Physics";
     StudentActivity.chapterNumber := n;
     StudentActivity.activityType := str "notes_access";
     StudentActivity.quizResult := None;
     StudentActivity.timestamp := time |}.

Definition db : DB :=
  {| exams := [gate];
     activities := [view "u1" 1 10; view "u2" 2 20; view "u2" 1 30] |}.

(** A replacement quiz whose second entry is invalid. *)
Definition put_mixed_quiz : PutRequest :=
  {| put_exam := str "GATE";
     put_subject := str "Physics";
     put_chapterNumber := Some 2%Z;
     put_notesFile := false;
     put_quiz :=
       dq "[{'question':'Q1','options':['a','b'],'answer':'a'},{'question':'','options':[],'answer':''}]" |}.

Definition put_broken_quiz : PutRequest :=
  {| put_exam := str "GATE";
     put_subject := str "Physics";
     put_chapterNumber := Some 2%Z;
     put_notesFile := false;
     put_quiz := dq "[{'question':" |}.

End Scenario.

(** ** Scenarios of the activity log *)

Module LogScenario.

(** A quiz submission that carries no result. *)
Definition bare_submission : ActivityRoute.Body :=
  {| ActivityRoute.userId := str "u1";
     ActivityRoute.userName := str "Asha";
     ActivityRoute.exam := str "GATE";
     ActivityRoute.subject := str "Physics";
     ActivityRoute.chapterNumber := Some 1%Z;
     ActivityRoute.activityType := str "quiz_submission";
     ActivityRoute.quizResult := None |}.

Definition full_submission : ActivityRoute.Body :=
  {| ActivityRoute.userId := str "u1";
     ActivityRoute.userName := str "Asha";
     ActivityRoute.exam := str "GATE";
     ActivityRoute.subject := str "Physics";
     ActivityRoute.chapterNumber := Some 1%Z;
     ActivityRoute.activityType := str "quiz_submission";
     ActivityRoute.quizResult :=
       Some {| StudentActivity.score := 1;
               StudentActivity.totalQuestions := 2;
               StudentActivity.answers := ∅ |} |}.

End LogScenario.

(** ** Scenarios of the create-or-extend request *)

Module PostScenario.
Import Exam NotesRoute.

(** The media host stores every file; the other services fail, so that
    the generator falls back to its placeholders. *)
Definition uploads_only : Env :=
  {| uploadToCloudinary :=
       fun _ _ => Resolved (Some {| url := str "https://files.example/new.pdf";
                                    public_id := str "gate/new" |});
     deleteFromCloudinary := fun _ => Resolved tt;
     extractText := fun _ _ => Rejected;
     gemini := fun _ _ _ _ _ => Rejected;
     deleteMany := Resolved tt |}.


(** Nothing to keep: a blank name, no chapter, a chapter without file. *)
Definition nothing_valid : PostRequest :=
  {| post_exam := str "GATE";
     post_subjects :=
       Form.Array
         [ {| Form.name := Some (str "   ");
              Form.chapters := Some [ {| Form.chapterNumber := 1 |} ] |};
           {| Form.name := Some (str "Maths"); Form.chapters := Some [] |};
           {| Form.name := Some (str "Biology");
              Form.chapters := Some [ {| Form.chapterNumber := 1 |} ] |} ];
     post_file := fun _ _ => false |}.

Definition new_chapter (n : Z) : Chapter :=
  {| chapterNumber := n;
     notesFileUrl := str "https://files.example/new.pdf";
     publicId := str "gate/new";
     summary := str "Summary generation failed.";
     quiz :=
       [ VObj [(str "question", VStr (str "What is the capital of France?"));
               (str "options",
                VArr [VStr (str "Berlin"); VStr (str "Madrid");
                      VStr (str "Paris"); VStr (str "Rome")]);
               (str "answer", VStr (str "Paris"))] ] |}.

End PostScenario.

(** ** Statement helpers for the handlers *)

Module Located.
Import Exam NotesRoute.

(** The three lookups of [PUT] and [DELETE] in sequence: positions and
    values of the exam, the subject and the chapter. *)
Definition locate (e s : jsstring) (n : Z) (docs : list Exam.t)
  : option (nat * Exam.t * (nat * Subject) * (nat * Chapter)) :=
  match findOne e docs with
  | None => None
  | Some (k, examData) =>
      match find_subject s (subjects examData) with
      | None => None
      | Some (i, subjectData) =>
          match find_chapter n (chapters subjectData) with
          | None => None
          | Some (j, chapter) => Some (k, examData, (i, subjectData), (j, chapter))
          end
      end
  end.

(** A subject of the form that [POST] skips: its name is missing or
    blank, it has no chapter, or none of its chapters has a file. *)
Definition skipped (req : PostRequest) (i : nat) (s : Form.Subject) : Prop :=
  match Form.name s, Form.chapters s with
  | Some n, Some chs =>
      trim n = [] \/ chs = []
      \/ forall j, (j < length chs)%nat -> post_file req i j = false
  | _, _ => True
  end.

End Located.

(** ** Statement helpers for the generator and the score *)

(** The text a settled chunk request contributes. *)
Definition reply_text (o : outcome (option GeminiData)) : jsstring :=
  match o with
  | Resolved data => response_text data
  | Rejected => []
  end.

(** A reply of the generative API without candidates. *)
Definition no_candidates : option GeminiData := Some {| candidates := None |}.

Definition reply_with (text : string) : option GeminiData :=
  Some {| candidates :=
            Some [ {| candidate_content :=
                        Some {| content_parts :=
                                  Some [ {| part_text := Some (str text) |} ] |} |} ] |}.

(** A text of two chunks, and a service whose reply to the second chunk
    has no candidates. *)
Definition two_chunks : jsstring := repeat 97 (N.to_nat 90001).

Definition first_reply_only (i : nat) (p : jsstring) : outcome (option GeminiData) :=
  match i with
  | O => Resolved (reply_with "Inertia.")
  | S _ => Resolved no_candidates
  end.

(** The placeholder question of the quiz fallback. *)
Definition placeholder_question : value :=
  VObj [(str "question", VStr (str "What is the capital of France?"));
        (str "options",
         VArr [VStr (str "Berlin"); VStr (str "Madrid");
               VStr (str "Paris"); VStr (str "Rome")]);
        (str "answer", VStr (str "Paris"))].

(** The indices of the questions answered correctly: those [i] for which
    the answer recorded under the key [i] is the answer of question [i]. *)
Definition correct_indices (st : Courses.State) : list nat :=
  List.filter
    (fun i =>
       match Courses.quiz st !! i with
       | Some q => Courses.answered (Courses.userAnswers st) (Courses.toString i)
                                    (Courses.answer q)
       | None => false
       end)
    (seq 0 (length (Courses.quiz st))).

(** Two questions, answers Paris and Madrid; the student answered Paris
    and Berlin. *)
Definition capitals : Courses.State :=
  {| Courses.quiz :=
       [ {| Courses.question := str "Capital of France?";
            Courses.options := [str "Paris"; str "Rome"];
            Courses.answer := str "Paris" |};
         {| Courses.question := str "Capital of Spain?";
            Courses.options := [str "Berlin"; str "Madrid"];
            Courses.answer := str "Madrid" |} ];
     Courses.userAnswers := <[ str "0" := str "Paris" ]> (<[ str "1" := str "Berlin" ]> ∅);
     Courses.quizSubmitted := false;
     Courses.quizScore := None |}.

(** ** The notes route, continued: GET *)

Module NotesRead.
Import Exam NotesRoute.

(** The query parameters. A text parameter is empty also when it is
    absent. [get_chapterNumber] is [None] when the parameter is absent or
    empty; otherwise it carries [Number(chapterNumber)], which is [None]
    when that is not an integer (NaN included: it equals no chapter
    number). *)
Record GetRequest : Type :=
  { get_exam : jsstring;
    get_subject : jsstring;
    get_chapterNumber : option (option Z);
    get_quizOnly : jsstring }.

(** An element of [quizzes]; the identifier of the document ([examId]) is
    not modelled. *)
Record QuizListing : Type :=
  { listing_exam : jsstring;
    listing_subjectName : jsstring;
    listing_chapterNumber : Z;
    listing_quiz : list value;
    listing_summary : jsstring }.

(** The three shapes of the answer. In [Filtered], a pair [(s, chs)]
    stands for the object [{...s, chapters: chs}]. *)
Inductive GetPayload : Type :=
| Quizzes (quizzes : list QuizListing)
| Filtered (exams : list (Exam.t * list (Subject * list Chapter)))
| Exams (exams : list Exam.t).

(** [chapterNumber ? chapters.filter(c => c.chapterNumber === Number(chapterNumber))
                    : chapters]. *)
Definition select_chapters (chapterNumber : option (option Z)) (l : list Chapter)
  : list Chapter :=
  match chapterNumber with
  | None => l
  | Some wanted =>
      List.filter (fun c => bool_decide (Some (Exam.chapterNumber c) = wanted)) l
  end.

(** [Exam.find(query)] with [query.exam] set when the parameter is
    truthy. *)
Definition find_exams (e : jsstring) (docs : list Exam.t) : list Exam.t :=
  if is_nil e then docs
  else List.filter (fun d => bool_decide (exam d = e)) docs.

(** The body of the loop [for (const exam of exams)] of the quiz
    listing. *)
Definition quizzes_of (req : GetRequest) (d : Exam.t) : list QuizListing :=
  match find_subject (get_subject req) (subjects d) with
  | None => []
  | Some (_, matchedSubject) =>
      List.map
        (fun chapter =>
           {| listing_exam := exam d;
              listing_subjectName := name matchedSubject;
              listing_chapterNumber := Exam.chapterNumber chapter;
              listing_quiz := quiz chapter;
              listing_summary := summary chapter |})
        (List.filter (fun chapter => negb (is_nil (quiz chapter)))
           (select_chapters (get_chapterNumber req) (chapters matchedSubject)))
  end.

Definition GET (req : GetRequest) (db : DB) : Response GetPayload :=
  let quizOnly := bool_decide (get_quizOnly req = str "true") in
  let exams := find_exams (get_exam req) (exams db) in
  if quizOnly && negb (is_nil (get_subject req)) then
    {| status := 200; message := [];
       payload := Some (Quizzes (flat_map (quizzes_of req) exams)) |}
  else if negb (is_nil (get_subject req)) then
    {| status := 200; message := [];
       payload :=
         Some (Filtered
                 (List.map
                    (fun d =>
                       (d,
                        List.map
                          (fun s => (s, select_chapters (get_chapterNumber req) (chapters s)))
                          (List.filter (fun s => bool_decide (name s = get_subject req))
                                       (subjects d))))
                    exams)) |}
  else {| status := 200; message := []; payload := Some (Exams exams) |}.

End NotesRead.

(** ** The data model's keys *)

Module Keys.
Import Exam.

(** The keys of a subject list: each name with its chapter numbers, in
    order. *)
Definition subject_keys (l : list Subject) : list (jsstring * list Z) :=
  List.map (fun s => (name s, List.map chapterNumber (chapters s))) l.

(** The keys of the exam collection. *)
Definition skeleton (docs : list Exam.t) : list (jsstring * list (jsstring * list Z)) :=
  List.map (fun d => (exam d, subject_keys (subjects d))) docs.

(** Chapter numbers are unique within the subject. *)
Definition unique_chapters (s : Subject) : Prop :=
  NoDup (List.map chapterNumber (chapters s)).

(** Subject names are unique and every subject has unique chapter
    numbers. *)
Definition well_keyed (l : list Subject) : Prop :=
  NoDup (List.map name l) /\ Forall unique_chapters l.

End Keys.

(** ** The exam page (client) *)

Module ExamPage.

Definition hex_digit := hex_val.

(** The longest prefix of digits of the radix, read as a number;
    [None] when the prefix is empty. *)
Fixpoint digits_prefix (radix : N) (s : jsstring) (acc : option N) : option N :=
  match s with
  | [] => acc
  | c :: r =>
      match hex_digit c with
      | Some d =>
          if d <? radix
          then digits_prefix radix r (Some (default 0 acc * radix + d))
          else acc
      | None => acc
      end
  end.

(** [parseInt(s)] without a radix: leading white space is skipped, then an
    optional sign, then [0x] or [0X] selects radix 16; [None] stands for
    NaN. The value is the integer that the digits denote. The JavaScript
    number is the double nearest to it: the same integer up to the
    magnitude 2^53, a rounded one beyond, and Infinity, which the page
    sends as [null], beyond the range of the doubles. What is said of the
    number sent is therefore said for the text of a chapter's own number
    or for a safe integer. *)
Definition parseInt (s : jsstring) : option Z :=
  let s1 := trim_start s in
  let '(negative, s2) :=
    match s1 with
    | c :: r => if c =? 45 then (true, r) else if c =? 43 then (false, r) else (false, s1)
    | [] => (false, s1)
    end in
  let '(radix, s3) :=
    match s2 with
    | z :: x :: r =>
        if (z =? 48) && ((x =? 120) || (x =? 88)) then (16, r) else (10, s2)
    | _ => (10, s2)
    end in
  match digits_prefix radix s3 None with
  | None => None
  | Some n => Some (if negative then (- Z.of_N n)%Z else Z.of_N n)
  end.

(** The component state the two logging functions read and write;
    [userId] is [user?.id || null] and [fullName] is [user?.fullName]. *)
Record State : Type :=
  { userId : option jsstring;
    fullName : option jsstring;
    selectedExam : jsstring;
    selectedSubject : jsstring;
    selectedChapter : jsstring;
    quiz : list Courses.Question;
    userAnswers : gmap jsstring jsstring;
    quizSubmitted : bool;
    quizScore : option (Z * Z) }.

(** [user?.fullName || "Unknown User"]. *)
Definition userName (st : State) : jsstring :=
  match fullName st with
  | Some (c :: n) => c :: n
  | _ => str "Unknown User"
  end.

(** The guard [!userId || !selectedExam || !selectedSubject || !selectedChapter]
    followed by [parseInt(selectedChapter)]: the user and the chapter
    number when the function goes on. *)
Definition selection (st : State) : option (jsstring * Z) :=
  match userId st with
  | Some (c :: u) =>
      if is_nil (selectedExam st) || is_nil (selectedSubject st)
         || is_nil (selectedChapter st)
      then None
      else
        match parseInt (selectedChapter st) with
        | Some chapterNumber => Some (c :: u, chapterNumber)
        | None => None
        end
  | _ => None
  end.

(** [logNotesAccess]: the body posted to the activity log, if any. *)
Definition logNotesAccess (st : State) : option ActivityRoute.Body :=
  match selection st with
  | None => None
  | Some (u, chapterNumber) =>
      Some {| ActivityRoute.userId := u;
              ActivityRoute.userName := userName st;
              ActivityRoute.exam := selectedExam st;
              ActivityRoute.subject := selectedSubject st;
              ActivityRoute.chapterNumber := Some chapterNumber;
              ActivityRoute.activityType := str "notes_access";
              ActivityRoute.quizResult := None |}
  end.

Definition score (st : State) : Z :=
  Courses.reduce
    (fun acc question index =>
       if Courses.answered (userAnswers st) (Courses.toString index)
                           (Courses.answer question)
       then (acc + 1)%Z else acc)
    (quiz st) 0%Z.

(** [handleSubmitQuiz]: the body posted, if any. *)
Definition submission (st : State) : option ActivityRoute.Body :=
  match selection st with
  | None => None
  | Some (u, chapterNumber) =>
      Some {| ActivityRoute.userId := u;
              ActivityRoute.userName := userName st;
              ActivityRoute.exam := selectedExam st;
              ActivityRoute.subject := selectedSubject st;
              ActivityRoute.chapterNumber := Some chapterNumber;
              ActivityRoute.activityType := str "quiz_submission";
              ActivityRoute.quizResult :=
                Some {| StudentActivity.score := score st;
                        StudentActivity.totalQuestions := Z.of_nat (length (quiz st));
                        StudentActivity.answers := userAnswers st |} |}
  end.

(** [handleSubmitQuiz]: the state afterwards; [response_ok] tells whether
    the log answered with a success status. Nothing changes when no
    request was sent or when the request failed. *)
Definition handleSubmitQuiz (response_ok : bool) (st : State) : State :=
  match submission st with
  | None => st
  | Some _ =>
      if response_ok
      then {| userId := userId st;
              fullName := fullName st;
              selectedExam := selectedExam st;
              selectedSubject := selectedSubject st;
              selectedChapter := selectedChapter st;
              quiz := quiz st;
              userAnswers := userAnswers st;
              quizSubmitted := true;
              quizScore := Some (score st, Z.of_nat (length (quiz st))) |}
      else st
  end.

(** [Array.from(new Map(allSubjects.map(s => [s.name, s])).values())]:
    [Map_set] is [Map.prototype.set] on the entries in insertion order. *)
Fixpoint Map_set {V} (k : jsstring) (v : V) (entries : list (jsstring * V))
  : list (jsstring * V) :=
  match entries with
  | [] => [(k, v)]
  | (k', v') :: r =>
      if decide (k = k') then (k, v) :: r else (k', v') :: Map_set k v r
  end.

Definition uniqueSubjects (allSubjects : list Exam.Subject) : list Exam.Subject :=
  List.map snd
    (fold_left (fun entries s => Map_set (Exam.name s) s entries) allSubjects []).

End ExamPage.

(** ** The course page, continued *)

Module CoursesEdit.
Import Courses.

(** [handleAnswerChange]: [{ ...prev, [questionIndex]: answer }]. *)
Definition handleAnswerChange (questionIndex answer : jsstring) (st : State) : State :=
  {| quiz := quiz st;
     userAnswers := <[ questionIndex := answer ]> (userAnswers st);
     quizSubmitted := quizSubmitted st;
     quizScore := quizScore st |}.

(** Question [i] is answered correctly. *)
Definition correct (st : State) (i : nat) : bool :=
  match quiz st !! i with
  | Some q => answered (userAnswers st) (toString i) (answer q)
  | None => false
  end.

End CoursesEdit.

(** ** Scenarios of the further properties *)

Module MoreScenario.
Import Exam NotesRoute.

(** A new exam with one subject and one chapter. *)
Definition create_jee : PostRequest :=
  {| post_exam := str "JEE";
     post_subjects :=
       Form.Array
         [ {| Form.name := Some (str "Maths");
              Form.chapters := Some [ {| Form.chapterNumber := 1 |} ] |} ];
     post_file := fun _ _ => true |}.


End MoreScenario.

Module ReadScenario.

Definition physics_quizzes : NotesRead.GetRequest :=
  {| NotesRead.get_exam := str "GATE";
     NotesRead.get_subject := str "Physics";
     NotesRead.get_chapterNumber := None;
     NotesRead.get_quizOnly := str "true" |}.

Definition delete_chapter1 : NotesRoute.DeleteRequest :=
  {| NotesRoute.del_exam := str "GATE";
     NotesRoute.del_subject := str "Physics";
     NotesRoute.del_chapterNumber := NotesRoute.Num 1 |}.


End ReadScenario.

Module PageScenario.

(** A signed-in student who has chosen chapter 2 of GATE Physics and
    answered the two questions of [capitals]. *)
Definition ready : ExamPage.State :=
  {| ExamPage.userId := Some (str "u1");
     ExamPage.fullName := None;
     ExamPage.selectedExam := str "GATE";
     ExamPage.selectedSubject := str "Physics";
     ExamPage.selectedChapter := str "2";
     ExamPage.quiz := Courses.quiz capitals;
     ExamPage.userAnswers := Courses.userAnswers capitals;
     ExamPage.quizSubmitted := false;
     ExamPage.quizScore := None |}.

End PageScenario.

(** [s] is the last subject of [l] whose name is [k]. *)
Definition last_of_name (l : list Exam.Subject) (k : jsstring) (s : Exam.Subject) : Prop :=
  exists l1 l2,
    l = l1 ++ s :: l2 /\ Exam.name s = k /\ ~ In k (List.map Exam.name l2).

(** The chapter numbers of the form chapters of subject [i] that come with
    a file, in the order of the form. *)
Definition numbers_with_file (req : NotesRoute.PostRequest) (i : nat)
    (chs : list NotesRoute.Form.Chapter) : list Z :=
  NotesRoute.non_null
    (imap (fun j ch => if NotesRoute.post_file req i j
                       then Some (NotesRoute.Form.chapterNumber ch) else None) chs).

(** A chapter as [POST] builds it: a file reference and quiz entries of
    the checked shape. *)
Definition built_chapter (c : Exam.Chapter) : Prop :=
  Exam.notesFileUrl c <> [] /\ Exam.publicId c <> []
  /\ Forall (fun q => quiz_entry_shape q = true) (Exam.quiz c).

(** No white space at either end. *)
Definition trimmed (s : jsstring) : Prop :=
  match s with
  | [] => True
  | c :: r => is_js_space c = false /\ is_js_space (List.last r c) = false
  end.

(** ** Statement helpers for the requests on one chapter *)

Module Target.
Import Exam.

(** [x] is the first element of [l] whose key is [b]; [l1] and [l2] are
    the elements before and after it. *)
Definition first_with {A B} (key : A -> B) (b : B) (l l1 : list A) (x : A)
    (l2 : list A) : Prop :=
  l = l1 ++ x :: l2 /\ key x = b /\ Forall (fun y => key y <> b) l1.

(** The stored exams without the chapter between [chs1] and [chs2], in
    the subject [sub] between [subs1] and [subs2], in the document [d]
    between [docs1] and [docs2]. *)
Definition without_chapter (docs1 : list Exam.t) (d : Exam.t) (docs2 : list Exam.t)
    (subs1 : list Subject) (sub : Subject) (subs2 : list Subject)
    (chs1 chs2 : list Chapter) : list Exam.t :=
  docs1
  ++ {| exam := exam d;
        subjects := subs1 ++ {| name := name sub; chapters := chs1 ++ chs2 |} :: subs2 |}
  :: docs2.

(** No chapter is identified by [(e, s, n)]: no exam is named [e], or the
    first exam named [e] has no subject named [s], or the first subject
    named [s] of that exam has no chapter numbered [n]. *)
Definition absent (e s : jsstring) (n : Z) (docs : list Exam.t) : Prop :=
  Forall (fun d => exam d <> e) docs
  \/ exists docs1 d docs2,
       first_with exam e docs docs1 d docs2
       /\ (Forall (fun sub => name sub <> s) (subjects d)
           \/ exists subs1 sub subs2,
                first_with name s (subjects d) subs1 sub subs2
                /\ Forall (fun c => chapterNumber c <> n) (chapters sub)).

(** The records of the activity log with the scope [(e, s, n)]. *)
Definition scoped (e s : jsstring) (n : Z) (a : StudentActivity.t) : Prop :=
  StudentActivity.exam a = e /\ StudentActivity.subject a = s
  /\ StudentActivity.chapterNumber a = n.

End Target.

(** ** Statement helpers for the activity log *)

(** The body has the fields that [POST] requires, and its kind is one of
    the two. *)
Definition complete (body : ActivityRoute.Body) : Prop :=
  ActivityRoute.userId body <> [] /\ ActivityRoute.userName body <> []
  /\ ActivityRoute.exam body <> [] /\ ActivityRoute.subject body <> []
  /\ ActivityRoute.chapterNumber body <> None
  /\ (ActivityRoute.activityType body = str "notes_access"
      \/ ActivityRoute.activityType body = str "quiz_submission").

(** [Number.MAX_SAFE_INTEGER]: up to this magnitude every integer is a
    JavaScript number, and [parseInt] returns the integer it reads. *)
Definition MAX_SAFE_INTEGER : Z := 2 ^ 53 - 1.

(** The chosen chapter, when it reads as a number, reads as a safe
    integer. *)
Definition safe_chapter (st : ExamPage.State) : Prop :=
  forall z, ExamPage.parseInt (ExamPage.selectedChapter st) = Some z ->
            (Z.abs z <= MAX_SAFE_INTEGER)%Z.

(** * Properties *)

(** *** Fuel of the parser *)

Lemma skip_ws_length (s : jsstring) : (length (skip_ws s) <= length s)%nat.
Proof.
  induction s as [|c r IH]; simpl; [lia|].
  destruct (is_json_ws c); simpl; lia.
Qed.

Lemma cons_fst_length {A} (a : A) (p : option (list A * jsstring)) t rest (n : nat) :
  cons_fst a p = Some (t, rest) ->
  (forall t' rest', p = Some (t', rest') -> (length rest' < n)%nat) ->
  (length rest < n)%nat.
Proof.
  destruct p as [[t' rest']|]; simpl; [|discriminate].
  intros [= <- <-] H. eapply H; reflexivity.
Qed.

Lemma parse_chars_length (s t rest : jsstring) :
  parse_chars s = Some (t, rest) -> (length rest < length s)%nat.
Proof.
  remember (length s) as n eqn:Hn.
  revert s t rest Hn.
  induction n as [n IH] using lt_wf_ind; intros s t rest Hn.
  destruct s as [|c r]; simpl; [discriminate|].
  destruct (c =? 34); [intros [= <- <-]; simpl in Hn; lia|].
  destruct (c =? 92).
  - destruct r as [|e r1]; [discriminate|].
    destruct (e =? 117).
    + destruct r1 as [|a [|b [|c0 [|d r2]]]]; try discriminate.
      destruct (hex4 a b c0 d); [|discriminate].
      intros H. eapply cons_fst_length; [exact H|].
      intros t' rest' H'. simpl in Hn.
      specialize (IH (length r2) ltac:(lia) r2 t' rest' eq_refl H'). lia.
    + destruct (unescape e); [|discriminate].
      intros H. eapply cons_fst_length; [exact H|].
      intros t' rest' H'. simpl in Hn.
      specialize (IH (length r1) ltac:(lia) r1 t' rest' eq_refl H'). lia.
  - destruct (c <? 32); [discriminate|].
    intros H. eapply cons_fst_length; [exact H|].
    intros t' rest' H'. simpl in Hn.
    specialize (IH (length r) ltac:(lia) r t' rest' eq_refl H'). lia.
Qed.

Lemma span_digits_length (s : jsstring) :
  (length (fst (span_digits s)) + length (snd (span_digits s)) = length s)%nat.
Proof.
  induction s as [|c r IH]; simpl; [reflexivity|].
  destruct (is_digit c); simpl; [|reflexivity].
  destruct (span_digits r) as [ds rest]; simpl in *. lia.
Qed.

Lemma parse_number_length (s : jsstring) v rest :
  parse_number s = Some (v, rest) -> (length rest < length s)%nat.
Proof.
  unfold parse_number.
  set (p1 := match s with
             | [] => (false, s)
             | c :: r => if c =? 45 then (true, r) else (false, s)
             end).
  assert (H1 : (length (snd p1) <= length s)%nat).
  { subst p1. destruct s as [|c r]; simpl; [lia|]. destruct (c =? 45); simpl; lia. }
  destruct p1 as [neg s1]. simpl in H1.
  pose proof (span_digits_length s1) as H2.
  destruct (span_digits s1) as [ip s2]. simpl in H2.
  destruct ip as [|d ds]; [discriminate|]. simpl in H2.
  destruct ((d =? 48) && negb (is_nil ds)); [discriminate|].
  set (fr := match s2 with
             | [] => None
             | c :: r => if c =? 46 then Some (span_digits r) else None
             end).
  assert (H3 : match fr with
               | Some (fd, s3) => (length s3 <= length s2)%nat
               | None => True
               end).
  { subst fr. destruct s2 as [|c r]; [exact I|].
    destruct (c =? 46); [|exact I].
    pose proof (span_digits_length r) as H.
    destruct (span_digits r) as [fd s3]. simpl in *. lia. }
  assert (H4 : forall fd s3, (length s3 <= length s2)%nat ->
     match s3 with
     | [] => Some (VNum neg (digits_val ((d :: ds) ++ fd)) (- Z.of_nat (length fd))%Z, s3)
     | c :: r =>
         if (c =? 101) || (c =? 69)
         then
          let '(eneg, r1) :=
            match r with
            | [] => (false, r)
            | sg :: r' =>
                if sg =? 45 then (true, r') else if sg =? 43 then (false, r') else (false, r)
            end in
          let '(ed, s4) := span_digits r1 in
          match ed with
          | [] => None
          | _ :: _ =>
              let ev := Z.of_N (digits_val ed) in
              Some (VNum neg (digits_val ((d :: ds) ++ fd))
                      ((if eneg then (- ev)%Z else ev) - Z.of_nat (length fd))%Z, s4)
          end
         else Some (VNum neg (digits_val ((d :: ds) ++ fd)) (- Z.of_nat (length fd))%Z, s3)
     end = Some (v, rest) -> (length rest < length s)%nat).
  { intros fd s3 Hs3. destruct s3 as [|c r]; [intros [= <- <-]; simpl in *; lia|].
    destruct ((c =? 101) || (c =? 69)); [|intros [= <- <-]; simpl in *; lia].
    set (p2 := match r with
               | [] => (false, r)
               | sg :: r' =>
                   if sg =? 45 then (true, r') else if sg =? 43 then (false, r') else (false, r)
               end).
    assert (H5 : (length (snd p2) <= length r)%nat).
    { subst p2. destruct r as [|sg r']; simpl; [lia|].
      destruct (sg =? 45); simpl; [lia|]. destruct (sg =? 43); simpl; lia. }
    destruct p2 as [eneg r1]. simpl in H5.
    pose proof (span_digits_length r1) as H6.
    destruct (span_digits r1) as [ed s4]. simpl in H6.
    destruct ed; [discriminate|]. intros [= <- <-]. simpl in *. lia. }
  destruct fr as [[fd s3]|].
  - destruct fd; [discriminate|]. apply H4. exact H3.
  - apply H4. lia.
Qed.

Lemma parse_fuel (f : nat) :
  (forall s, (2 * length s < f)%nat ->
     match parse_value f s with
     | Parsed (_, r) => (length r < length s)%nat
     | SyntaxErr => True
     | OutOfFuel => False
     end) /\
  (forall acc s, (2 * length s + 1 < f)%nat ->
     match parse_elements f acc s with
     | Parsed (_, r) => (length r < length s)%nat
     | SyntaxErr => True
     | OutOfFuel => False
     end) /\
  (forall acc s, (2 * length s + 1 < f)%nat ->
     match parse_members f acc s with
     | Parsed (_, r) => (length r < length s)%nat
     | SyntaxErr => True
     | OutOfFuel => False
     end).
Proof.
  induction f as [|f (IHv & IHe & IHm)]; [repeat split; intros; lia|].
  split; [|split].
  - intros s Hf. simpl.
    pose proof (skip_ws_length s) as Hs.
    destruct (skip_ws s) as [|c r]; [exact I|]. simpl in Hs.
    destruct (c =? 123).
    { pose proof (skip_ws_length r) as Hr.
      destruct (skip_ws r) as [|c' r']; [exact I|]. simpl in Hr.
      destruct (c' =? 125); [lia|].
      specialize (IHm [] r ltac:(lia)).
      destruct (parse_members f [] r) as [[v r0]| |]; [lia|exact I|exact IHm]. }
    destruct (c =? 91).
    { pose proof (skip_ws_length r) as Hr.
      destruct (skip_ws r) as [|c' r']; [exact I|]. simpl in Hr.
      destruct (c' =? 93); [lia|].
      specialize (IHe [] r ltac:(lia)).
      destruct (parse_elements f [] r) as [[v r0]| |]; [lia|exact I|exact IHe]. }
    destruct (c =? 34).
    { destruct (parse_chars r) as [[t rest]|] eqn:Hc; [|exact I].
      apply parse_chars_length in Hc. lia. }
    destruct (starts_with (str "true") (c :: r)).
    { rewrite length_drop. simpl in *. lia. }
    destruct (starts_with (str "false") (c :: r)).
    { rewrite length_drop. simpl in *. lia. }
    destruct (starts_with (str "null") (c :: r)).
    { rewrite length_drop. simpl in *. lia. }
    destruct (parse_number (c :: r)) as [[v rest]|] eqn:Hn; simpl; [|exact I].
    apply parse_number_length in Hn. simpl in Hn. lia.
  - intros acc s Hf. simpl.
    specialize (IHv s ltac:(lia)).
    destruct (parse_value f s) as [[v r]| |]; [|exact I|exact IHv].
    pose proof (skip_ws_length r) as Hr.
    destruct (skip_ws r) as [|c r']; [exact I|]. simpl in Hr.
    destruct (c =? 44).
    { specialize (IHe (v :: acc) r' ltac:(lia)).
      destruct (parse_elements f (v :: acc) r') as [[v' r0]| |]; [lia|exact I|exact IHe]. }
    destruct (c =? 93); [lia|exact I].
  - intros acc s Hf. simpl.
    pose proof (skip_ws_length s) as Hs.
    destruct (skip_ws s) as [|c r]; [exact I|]. simpl in Hs.
    destruct (c =? 34); [|exact I].
    destruct (parse_chars r) as [[k r1]|] eqn:Hc; [|exact I].
    apply parse_chars_length in Hc.
    pose proof (skip_ws_length r1) as Hr1.
    destruct (skip_ws r1) as [|c1 r2]; [exact I|]. simpl in Hr1.
    destruct (c1 =? 58); [|exact I].
    specialize (IHv r2 ltac:(lia)).
    destruct (parse_value f r2) as [[v r3]| |]; [|exact I|exact IHv].
    pose proof (skip_ws_length r3) as Hr3.
    destruct (skip_ws r3) as [|c3 r4]; [exact I|]. simpl in Hr3.
    destruct (c3 =? 44).
    { specialize (IHm (obj_set k v acc) r4 ltac:(lia)).
      destruct (parse_members f (obj_set k v acc) r4) as [[v' r0]| |];
        [lia|exact I|exact IHm]. }
    destruct (c3 =? 125); [lia|exact I].
Qed.

(** The fuel [JSON_parse] gives the parser is never exhausted: a rejection
    by [JSON_parse] is a syntax error of the text. *)
Lemma parse_value_fuel (s : jsstring) :
  parse_value (2 * length s + 1) s <> OutOfFuel.
Proof.
  destruct (parse_fuel (2 * length s + 1)) as (Hv & _ & _).
  specialize (Hv s ltac:(lia)). intros E. rewrite E in Hv. exact Hv.
Qed.


(** *** The parser on sample texts *)

Example JSON_parse_object :
  JSON_parse (dq " { 'a' : [1, -2.50e-3, true, null], 'b' : 'x\u0041\n', 'a' : {} } ")
  = Ok (VObj [(str "a", VObj []);
              (str "b", VStr [120; 65; 10])]).
Proof. vm_compute. reflexivity. Qed.

Example JSON_parse_numbers :
  JSON_parse (dq "[0, -0, 10, 1.5, 2E+3, 4e-2]")
  = Ok (VArr [VNum false 0 0; VNum true 0 0; VNum false 10 0;
              VNum false 15 (-1); VNum false 2 3; VNum false 4 (-2)]).
Proof. vm_compute. reflexivity. Qed.

Example JSON_parse_rejects :
  List.map JSON_parse
    [dq ""; dq "{'a':1,}"; dq "[1 2]"; dq "01"; dq "1."; dq "{a:1}"; dq "'abc";
     dq "[1] x"; dq "nul"; dq "+1"; dq "'\x'"]
  = repeat (Throw SyntaxError) 11.
Proof. vm_compute. reflexivity. Qed.

(** Only a literal of value zero, or so small that it rounds to zero, is
    falsy. *)
Example truthy_numbers :
  List.map truthy [VNum false 0 0; VNum true 0 (-3); VNum false 1 (-400);
                   VNum false 2 (-324); VNum false 3 (-324); VNum false 1 400]
  = [false; false; false; false; true; true].
Proof. vm_compute. reflexivity. Qed.

(** ** The Quiz Sanitizer *)

Example cleanQuizData_fenced :
  cleanQuizData (lines [str "Here is the quiz:"; str "```json"; dq "{'quiz': []}";
                        str "```"; str "Good luck }"])
  = lines [dq "{'quiz': []}"; str ""; str "Good luck }"].
Proof. vm_compute. reflexivity. Qed.

Example cleanQuizData_no_brace :
  cleanQuizData (str "  ```json [1, 2] ```  ") = str "[1, 2]".
Proof. vm_compute. reflexivity. Qed.

Example parseQuizData_keeps_valid_entries :
  parseQuizData
    (lines [str "```json";
            dq "{'quiz': [{'question':'Q1','options':['a','b'],'answer':'a'},";
            dq "          {'question':'Q2','options':['a'],'answer':'a'},";
            dq "          {'question':'','options':['a','b'],'answer':'a'},";
            dq "          {'question':'Q4','options':['a','b'],'answer':7},";
            dq "          'Q5', 6, [], {}]}";
            str "```"])
  = [Scenario.question1].
Proof. vm_compute. reflexivity. Qed.

(** A [null] entry makes the filter throw, and the whole quiz is lost. *)
Example parseQuizData_null_entry :
  parseQuizData (dq "{'quiz': [{'question':'Q1','options':['a','b'],'answer':'a'}, null]}")
  = [].
Proof. vm_compute. reflexivity. Qed.

Lemma filterM_In {A} (p : A -> result bool) (l kept : list A) (x : A) :
  filterM p l = Ok kept -> In x kept -> In x l /\ p x = Ok true.
Proof.
  revert kept. induction l as [|y r IH]; intros kept; simpl.
  - intros [= <-] [].
  - destruct (p y) as [b|e] eqn:Hy; simpl; [|discriminate].
    destruct (filterM p r) as [r'|e] eqn:Hr; simpl; [|discriminate].
    intros [= <-] Hin. destruct b.
    + destruct Hin as [<-|Hin]; [auto|].
      destruct (IH r' eq_refl Hin). auto.
    + destruct (IH r' eq_refl Hin). auto.
Qed.

Lemma filterM_total {A} (p : A -> result bool) (q : A -> bool) (l : list A) :
  Forall (fun x => p x = Ok (q x)) l -> filterM p l = Ok (List.filter q l).
Proof.
  induction 1 as [|x r Hx _ IH]; simpl; [reflexivity|].
  rewrite Hx, IH. simpl. destruct (q x); reflexivity.
Qed.

(** On a value that is neither [null] nor [undefined] the callback of the
    filters does not throw, and computes [quiz_entry_shape]. *)
Lemma valid_quiz_item_shape (item : value) :
  readable item = true -> valid_quiz_item item = Ok (quiz_entry_shape item).
Proof.
  intros Hr. destruct item as [| | b | neg m e | s | l | fields];
    try discriminate; try reflexivity.
  unfold valid_quiz_item, quiz_entry_shape, get, bind.
  destruct (obj_get (str "question") fields) as [| | [] | nq mq eq | [|cq sq] | |];
    simpl; try reflexivity.
  { destruct (num_is_zero mq eq); reflexivity. }
  destruct (obj_get (str "options") fields) as [| | [] | no mo eo | [|co so] | opts |];
    simpl; try reflexivity.
  { destruct (num_is_zero mo eo); reflexivity. }
  destruct opts as [|o1 [|o2 opts]]; simpl; try reflexivity.
  destruct (obj_get (str "answer") fields) as [| | [] | na ma ea | [|ca sa] | |];
    simpl; try reflexivity.
  destruct (num_is_zero ma ea); reflexivity.
Qed.

(** When the callback answers [true] the item has the checked shape. *)
Lemma valid_quiz_item_true (item : value) :
  valid_quiz_item item = Ok true -> quiz_entry_shape item = true.
Proof.
  destruct (readable item) eqn:Hr.
  - rewrite (valid_quiz_item_shape item Hr). congruence.
  - destruct item; discriminate.
Qed.

Lemma parseQuizData_try_In (quizData : jsstring) (kept : list value) (item : value) :
  parseQuizData_try quizData = Ok kept -> In item kept ->
  valid_quiz_item item = Ok true.
Proof.
  unfold parseQuizData_try, bind.
  destruct (JSON_parse (cleanQuizData quizData)) as [parsedData|e]; [|discriminate].
  destruct (negb (truthy parsedData)); [intros [= <-] []|].
  destruct (get parsedData (str "quiz")) as [quiz|e]; [|discriminate].
  destruct (negb (truthy quiz)); [intros [= <-] []|].
  destruct quiz; try (intros [= <-] []).
  intros Hf Hin. eapply filterM_In; eassumption.
Qed.

(** C3 (as amended): every entry that [parseQuizData] returns is an object
    with a non-empty string [question], a non-empty string [answer] and an
    [options] array of at least two elements; the elements of [options]
    are not inspected. *)
Theorem parseQuizData_entries_shape (quizData : jsstring) (item : value) :
  In item (parseQuizData quizData) -> quiz_entry_shape item = true.
Proof.
  unfold parseQuizData.
  destruct (parseQuizData_try quizData) as [kept|e] eqn:Ht; [|intros []].
  intros Hin. apply valid_quiz_item_true.
  eapply parseQuizData_try_In; eassumption.
Qed.

Lemma parseQuizData_entries_shape_witness :
  let item := VObj [(str "question", VStr (str "q"));
                    (str "options", VArr [VStr (str "a"); VStr (str "b")]);
                    (str "answer", VStr (str "a"))] in
  In item (parseQuizData (dq "{'quiz':[{'question':'q','options':['a','b'],'answer':'a'}]}"))
  /\ quiz_entry_shape item = true.
Proof.
  assert (H : In (VObj [(str "question", VStr (str "q"));
                        (str "options", VArr [VStr (str "a"); VStr (str "b")]);
                        (str "answer", VStr (str "a"))])
                 (parseQuizData (dq "{'quiz':[{'question':'q','options':['a','b'],'answer':'a'}]}"))).
  { vm_compute. left. reflexivity. }
  split; [exact H|].
  exact (parseQuizData_entries_shape _ _ H).
Defined.

(** C3 (as stated) fails: an entry whose options are numbers survives the
    sanitizer. *)
Lemma parseQuizData_options_not_strings :
  exists item,
    In item (parseQuizData (dq "{'quiz':[{'question':'q','options':[1,2],'answer':'a'}]}"))
    /\ quiz_entry_shape_strict item = false.
Proof.
  exists (VObj [(str "question", VStr (str "q"));
                (str "options", VArr [VNum false 1 0; VNum false 2 0]);
                (str "answer", VStr (str "a"))]).
  split; [vm_compute; left; reflexivity | vm_compute; reflexivity].
Qed.

(** C8: when the cleaned text is not valid JSON, or the parsed value has no
    [quiz] field that is a list, or anything inside the [try] block throws,
    [parseQuizData] returns the empty list; being a total function, it never
    throws. *)
Theorem parseQuizData_robust (quizData : jsstring) :
  (exists e, JSON_parse (cleanQuizData quizData) = Throw e)
  \/ (exists v, JSON_parse (cleanQuizData quizData) = Ok v /\ ~ has_quiz_list v)
  \/ (exists e, parseQuizData_try quizData = Throw e) ->
  parseQuizData quizData = [].
Proof.
  unfold parseQuizData.
  intros [[e He] | [[v [Hv Hq]] | [e He]]].
  - unfold parseQuizData_try. rewrite He. reflexivity.
  - unfold parseQuizData_try. rewrite Hv. simpl.
    destruct (negb (truthy v)); [reflexivity|].
    destruct v as [| | b | neg m e | s | l | fields]; try reflexivity.
    simpl. destruct (obj_get (str "quiz") fields) as [| | b | neg m e | s | items |] eqn:Hg;
      try reflexivity.
    + destruct (negb (truthy (VBool b))); reflexivity.
    + destruct (negb (truthy (VNum neg m e))); reflexivity.
    + destruct (negb (truthy (VStr s))); reflexivity.
    + exfalso. apply Hq. exists fields, items. auto.
  - rewrite He. reflexivity.
Qed.

Lemma parseQuizData_robust_witness :
  parseQuizData (str "Sorry, I cannot produce a quiz for this text.") = [].
Proof.
  apply parseQuizData_robust. left. exists SyntaxError.
  vm_compute. reflexivity.
Defined.

(** ** Updating a chapter (PUT) *)

Lemma is_nil_false {A} (l : list A) : l <> [] -> is_nil l = false.
Proof. destruct l; [congruence | reflexivity]. Qed.

Lemma forallb_readable_shape (items : list value) :
  forallb readable items = true ->
  filterM valid_quiz_item items = Ok (List.filter quiz_entry_shape items).
Proof.
  intros H. apply filterM_total.
  rewrite forallb_forall in H. apply List.Forall_forall.
  intros x Hx. apply valid_quiz_item_shape. auto.
Qed.




(** ** The activity log *)

(** C2 (as amended): a request answered by 201 appends exactly one record,
    and that record has a quiz result if and only if its kind is
    [quiz_submission] and the request carried a result; a [notes_access]
    record never has one. Any other answer stores nothing. This holds of
    every request, readable or not, and whether the store keeps or refuses
    the record. *)
Theorem POST_activity_quizResult (created : outcome unit) (now : Z)
    (req : Json ActivityRoute.Body) (db : list StudentActivity.t) :
  (status (fst (ActivityRoute.POST created now req db)) = 201%Z ->
   exists body a,
     req = Fields body
     /\ snd (ActivityRoute.POST created now req db) = db ++ [a]
     /\ StudentActivity.activityType a = ActivityRoute.activityType body
     /\ (is_Some (StudentActivity.quizResult a) <->
         StudentActivity.activityType a = str "quiz_submission"
         /\ is_Some (ActivityRoute.quizResult body))
     /\ (StudentActivity.activityType a = str "notes_access" ->
         StudentActivity.quizResult a = None))
  /\ (status (fst (ActivityRoute.POST created now req db)) <> 201%Z ->
      snd (ActivityRoute.POST created now req db) = db).
Proof.
  unfold ActivityRoute.POST.
  destruct req as [|body]; [split; [discriminate|reflexivity]|].
  destruct (ActivityRoute.chapterNumber body) as [n|]; [|split; [discriminate|reflexivity]].
  destruct (is_nil (ActivityRoute.userId body) || is_nil (ActivityRoute.userName body)
            || is_nil (ActivityRoute.exam body) || is_nil (ActivityRoute.subject body)
            || is_nil (ActivityRoute.activityType body));
    [split; [discriminate|reflexivity]|].
  destruct (negb (bool_decide (ActivityRoute.activityType body ∈ ActivityRoute.activity_types)));
    [split; [discriminate|reflexivity]|].
  destruct created as [u|]; [|split; [discriminate|reflexivity]].
  split; [|simpl; congruence].
  intros _. exists body. eexists. split; [reflexivity|]. split; [reflexivity|]. simpl.
  split; [reflexivity|].
  case_bool_decide as Hk.
  - split; [tauto|]. rewrite Hk. discriminate.
  - split; [|reflexivity]. split.
    + intros [x Hx]. discriminate.
    + tauto.
Qed.

Lemma POST_activity_quizResult_witness :
  exists body a,
    Fields LogScenario.full_submission = Fields body
    /\ snd (ActivityRoute.POST (Resolved tt) 100 (Fields LogScenario.full_submission) [])
       = [] ++ [a]
    /\ StudentActivity.activityType a = ActivityRoute.activityType body
    /\ (is_Some (StudentActivity.quizResult a) <->
        StudentActivity.activityType a = str "quiz_submission"
        /\ is_Some (ActivityRoute.quizResult body))
    /\ (StudentActivity.activityType a = str "notes_access" ->
        StudentActivity.quizResult a = None).
Proof.
  apply (proj1 (POST_activity_quizResult (Resolved tt) 100
                  (Fields LogScenario.full_submission) [])).
  reflexivity.
Defined.

(** C2 (as stated) fails: a quiz submission that carries no result is
    accepted and stored without one. *)
Lemma POST_activity_submission_without_result :
  status (fst (ActivityRoute.POST (Resolved tt) 100 (Fields LogScenario.bare_submission) []))
  = 201%Z
  /\ exists a,
       snd (ActivityRoute.POST (Resolved tt) 100 (Fields LogScenario.bare_submission) [])
       = [a]
       /\ StudentActivity.activityType a = str "quiz_submission"
       /\ StudentActivity.quizResult a = None.
Proof.
  split; [reflexivity|].
  eexists. split; [reflexivity|]. split; reflexivity.
Qed.

#[local] Instance newer_total : Total ActivityRoute.newer.
Proof. intros a b. unfold ActivityRoute.newer. lia. Qed.

#[local] Instance newer_trans : Transitive ActivityRoute.newer.
Proof. intros a b c. unfold ActivityRoute.newer. lia. Qed.

Lemma find_sorted_spec (query : option jsstring) (db : list StudentActivity.t) :
  Permutation (ActivityRoute.find_sorted query db)
    (List.filter (fun a => match query with
                           | Some u => bool_decide (StudentActivity.userId a = u)
                           | None => true
                           end) db)
  /\ StronglySorted ActivityRoute.newer (ActivityRoute.find_sorted query db).
Proof.
  unfold ActivityRoute.find_sorted. split.
  - apply merge_sort_Permutation.
  - apply StronglySorted_merge_sort; apply _.
Qed.

Lemma filter_true {A} (l : list A) : List.filter (fun _ => true) l = l.
Proof. induction l as [|x r IH]; simpl; [reflexivity | now rewrite IH]. Qed.

(** C6: without the admin flag and without a user identifier the query is
    answered by 401; with the admin flag it answers 200 with all the
    stored records, whatever [userId] is; otherwise it answers 200 with
    exactly the records of that user. The records come newest first. *)
Theorem GET_activity_authorization (userId isAdminParam : option jsstring)
    (db : list StudentActivity.t) :
  (isAdminParam <> Some (str "true") ->
   userId = None \/ userId = Some [] ->
   ActivityRoute.GET userId isAdminParam db
   = respond 401 "Unauthorized: userId or admin access required")
  /\ (isAdminParam = Some (str "true") ->
      exists l,
        ActivityRoute.GET userId isAdminParam db
        = {| status := 200; message := []; payload := Some l |}
        /\ Permutation l db
        /\ StronglySorted ActivityRoute.newer l)
  /\ (isAdminParam <> Some (str "true") ->
      forall u, userId = Some u -> u <> [] ->
      exists l,
        ActivityRoute.GET userId isAdminParam db
        = {| status := 200; message := []; payload := Some l |}
        /\ Permutation l
             (List.filter (fun a => bool_decide (StudentActivity.userId a = u)) db)
        /\ StronglySorted ActivityRoute.newer l).
Proof.
  unfold ActivityRoute.GET. split; [|split].
  - intros Hadmin Huser. rewrite bool_decide_eq_false_2 by exact Hadmin.
    destruct Huser as [-> | ->]; reflexivity.
  - intros Hadmin. rewrite bool_decide_eq_true_2 by exact Hadmin. simpl.
    rewrite andb_false_r.
    eexists. split; [reflexivity|].
    destruct (find_sorted_spec None db) as [Hp Hs].
    rewrite filter_true in Hp. auto.
  - intros Hadmin u -> Hu. rewrite bool_decide_eq_false_2 by exact Hadmin.
    rewrite (is_nil_false _ Hu). simpl.
    eexists. split; [reflexivity|].
    apply (find_sorted_spec (Some u) db).
Qed.

Lemma GET_activity_authorization_witness :
  ActivityRoute.GET None (Some (str "false")) (activities Scenario.db)
  = respond 401 "Unauthorized: userId or admin access required".
Proof.
  apply (proj1 (GET_activity_authorization None (Some (str "false"))
                  (activities Scenario.db))).
  - discriminate.
  - left. reflexivity.
Defined.

(** ** Creating and extending an exam (POST) *)

Section Merge.
Import Exam NotesRoute.






End Merge.



Lemma is_nil_true {A} (l : list A) : l = [] -> is_nil l = true.
Proof. intros ->. reflexivity. Qed.

(** Callbacks that all answer [null] leave nothing after the filter. *)
Lemma all_results_none {A B} (f : nat -> A -> result (option B)) (l : list A) :
  (forall j x, l !! j = Some x -> f j x = Ok None) ->
  exists ps, all_results (imap f l) = Ok ps /\ NotesRoute.non_null ps = [].
Proof.
  revert f. induction l as [|x r IH]; intros f H; simpl.
  - exists []. split; reflexivity.
  - rewrite (H 0%nat x eq_refl). simpl.
    destruct (IH (f ∘ S)) as (ps & Hps & Hnn).
    { intros j y Hj. apply (H (S j) y). exact Hj. }
    rewrite Hps. simpl. exists (None :: ps). split; [reflexivity|exact Hnn].
Qed.

Lemma processSubject_skipped (env : NotesRoute.Env) (req : NotesRoute.PostRequest)
    (i : nat) (s : NotesRoute.Form.Subject) :
  Located.skipped req i s -> NotesRoute.processSubject env req i s = Ok None.
Proof.
  unfold Located.skipped, NotesRoute.processSubject.
  destruct (NotesRoute.Form.name s) as [n|]; [|reflexivity].
  destruct (NotesRoute.Form.chapters s) as [chs|]; [|reflexivity].
  intros [Hn | [Hc | Hf]].
  - rewrite (is_nil_true _ Hn). reflexivity.
  - rewrite (is_nil_true _ Hc), orb_true_r. reflexivity.
  - destruct (is_nil (trim n) || is_nil chs); [reflexivity|].
    destruct (all_results_none (NotesRoute.processChapter env req i) chs) as (ps & Hps & Hnn).
    { intros j x Hj. unfold NotesRoute.processChapter.
      rewrite (Hf j) by (eapply lookup_lt_Some; eassumption). reflexivity. }
    rewrite Hps. simpl. rewrite Hnn. reflexivity.
Qed.

(** C10: when the form carries a list of subjects and every one of them is
    skipped (blank or missing name, no chapter, or no chapter with a file),
    the answer is 400 and the database is left as it was: no document is
    created or changed. *)
Theorem POST_no_valid_subject (env : NotesRoute.Env) (req : NotesRoute.PostRequest)
    (db : DB) (l : list NotesRoute.Form.Subject) :
  NotesRoute.post_subjects req = NotesRoute.Form.Array l ->
  (forall i s, l !! i = Some s -> Located.skipped req i s) ->
  status (fst (NotesRoute.POST env req db)) = 400%Z
  /\ snd (NotesRoute.POST env req db) = db.
Proof.
  intros Hl Hskip. unfold NotesRoute.POST, NotesRoute.POST_try. rewrite Hl.
  destruct (is_nil (NotesRoute.post_exam req)); [split; reflexivity|].
  destruct (all_results_none (NotesRoute.processSubject env req) l) as (ps & Hps & Hnn).
  { intros i s Hi. apply processSubject_skipped. eauto. }
  rewrite Hps. simpl. rewrite Hnn. simpl. split; reflexivity.
Qed.

Lemma POST_no_valid_subject_witness :
  status (fst (NotesRoute.POST PostScenario.uploads_only PostScenario.nothing_valid
                 Scenario.db)) = 400%Z
  /\ snd (NotesRoute.POST PostScenario.uploads_only PostScenario.nothing_valid
            Scenario.db) = Scenario.db.
Proof.
  apply (POST_no_valid_subject PostScenario.uploads_only PostScenario.nothing_valid
           Scenario.db _ eq_refl).
  intros [|[|[|i]]] s Hs; simpl in Hs; inversion Hs; subst; simpl.
  - left. reflexivity.
  - right. left. reflexivity.
  - right. right. reflexivity.
Defined.

(** ** Deleting a chapter (DELETE) *)

Lemma delete_activities_In (e s : jsstring) (n : Z) (l : list StudentActivity.t)
    (a : StudentActivity.t) :
  In a (NotesRoute.delete_activities e s n l) <->
  In a l /\ ~ (StudentActivity.exam a = e /\ StudentActivity.subject a = s
               /\ StudentActivity.chapterNumber a = n).
Proof.
  unfold NotesRoute.delete_activities, NotesRoute.in_scope.
  rewrite filter_In. split.
  - intros [Hin Hs]. split; [exact Hin|]. intros (He & Hsub & Hn).
    rewrite !bool_decide_eq_true_2 in Hs by assumption. discriminate.
  - intros [Hin Hs]. split; [exact Hin|].
    repeat case_bool_decide; simpl; try reflexivity. tauto.
Qed.

Lemma list_find_first {A} (P : A -> Prop) `{!forall x, Decision (P x)}
    (l1 : list A) (x : A) (l2 : list A) :
  P x -> Forall (fun y => ~ P y) l1 ->
  list_find P (l1 ++ x :: l2) = Some (length l1, x).
Proof.
  intros Hx Hl1. apply list_find_Some. split; [|split; [exact Hx|]].
  - apply list_lookup_middle. reflexivity.
  - intros j y Hy Hlt. rewrite lookup_app_l in Hy by exact Hlt.
    exact (Forall_lookup_1 _ _ _ _ Hl1 Hy).
Qed.

Lemma insert_middle {A} (l1 l2 : list A) (x y : A) :
  <[ length l1 := y ]> (l1 ++ x :: l2) = l1 ++ y :: l2.
Proof.
  rewrite <- (Nat.add_0_r (length l1)) at 1. rewrite insert_app_r. reflexivity.
Qed.

Lemma first_with_find {A B} `{EqDecision B} (key : A -> B) (b : B)
    (l l1 : list A) (x : A) (l2 : list A) :
  Target.first_with key b l l1 x l2 ->
  list_find (fun y => key y = b) l = Some (length l1, x).
Proof. intros (-> & Hx & Hl1). apply list_find_first; assumption. Qed.

Lemma absent_locate (e s : jsstring) (n : Z) (docs : list Exam.t) :
  Target.absent e s n docs -> Located.locate e s n docs = None.
Proof.
  unfold Located.locate, NotesRoute.findOne, NotesRoute.find_subject,
    NotesRoute.find_chapter.
  intros [Hd | (docs1 & d & docs2 & Hfd & Hrest)].
  - rewrite (proj2 (list_find_None _ _) Hd). reflexivity.
  - rewrite (first_with_find _ _ _ _ _ _ Hfd).
    destruct Hrest as [Hs | (subs1 & sub & subs2 & Hfs & Hc)].
    + rewrite (proj2 (list_find_None _ _) Hs). reflexivity.
    + rewrite (first_with_find _ _ _ _ _ _ Hfs).
      rewrite (proj2 (list_find_None _ _) Hc). reflexivity.
Qed.

Lemma located_first (e s : jsstring) (n : Z) (docs docs1 : list Exam.t) (d : Exam.t)
    (docs2 : list Exam.t) (subs1 : list Exam.Subject) (sub : Exam.Subject)
    (subs2 : list Exam.Subject) (chs1 : list Exam.Chapter) (c : Exam.Chapter)
    (chs2 : list Exam.Chapter) :
  Target.first_with Exam.exam e docs docs1 d docs2 ->
  Target.first_with Exam.name s (Exam.subjects d) subs1 sub subs2 ->
  Target.first_with Exam.chapterNumber n (Exam.chapters sub) chs1 c chs2 ->
  Located.locate e s n docs
  = Some (length docs1, d, (length subs1, sub), (length chs1, c)).
Proof.
  intros Hd Hs Hc.
  unfold Located.locate, NotesRoute.findOne, NotesRoute.find_subject,
    NotesRoute.find_chapter.
  rewrite (first_with_find _ _ _ _ _ _ Hd), (first_with_find _ _ _ _ _ _ Hs),
    (first_with_find _ _ _ _ _ _ Hc).
  reflexivity.
Qed.

(** What [DELETE] does once the three lookups have succeeded. *)
Lemma DELETE_located (env : NotesRoute.Env) (saved : outcome unit)
    (req : NotesRoute.DeleteRequest) (db : DB) (n : Z) (k i j : nat)
    (d : Exam.t) (sub : Exam.Subject) (c : Exam.Chapter) :
  NotesRoute.Number (NotesRoute.del_chapterNumber req) = Some n ->
  NotesRoute.del_exam req <> [] ->
  NotesRoute.del_subject req <> [] ->
  Located.locate (NotesRoute.del_exam req) (NotesRoute.del_subject req) n (exams db)
  = Some (k, d, (i, sub), (j, c)) ->
  let activities' :=
    match NotesRoute.deleteMany env with
    | Resolved _ =>
        NotesRoute.after_deleteMany (NotesRoute.del_exam req) (NotesRoute.del_subject req)
          (NotesRoute.del_chapterNumber req) (activities db)
    | Rejected => activities db
    end in
  NotesRoute.DELETE env saved (Fields req) db
  = match saved with
    | Resolved _ =>
        (respond 200 "Chapter deleted successfully",
         {| exams :=
              <[ k := {| Exam.exam := Exam.exam d;
                         Exam.subjects :=
                           <[ i := {| Exam.name := Exam.name sub;
                                      Exam.chapters := delete j (Exam.chapters sub) |} ]>
                             (Exam.subjects d) |} ]> (exams db);
            activities := activities' |})
    | Rejected =>
        (respond 500 "Error deleting chapter",
         {| exams := exams db; activities := activities' |})
    end.
Proof.
  intros Hn He Hs Hloc. unfold Located.locate in Hloc. unfold NotesRoute.DELETE.
  rewrite Hn, (is_nil_false _ He), (is_nil_false _ Hs). simpl.
  destruct (NotesRoute.findOne (NotesRoute.del_exam req) (exams db)) as [[k0 d0]|];
    [|discriminate].
  destruct (NotesRoute.find_subject (NotesRoute.del_subject req) (Exam.subjects d0))
    as [[i0 s0]|]; [|discriminate].
  destruct (NotesRoute.find_chapter n (Exam.chapters s0)) as [[j0 c0]|]; [|discriminate].
  injection Hloc as -> -> -> -> -> ->. reflexivity.
Qed.

(** What [DELETE] does when a lookup fails. *)
Lemma DELETE_not_located (env : NotesRoute.Env) (saved : outcome unit)
    (req : NotesRoute.DeleteRequest) (db : DB) (n : Z) :
  NotesRoute.Number (NotesRoute.del_chapterNumber req) = Some n ->
  NotesRoute.del_exam req <> [] ->
  NotesRoute.del_subject req <> [] ->
  Located.locate (NotesRoute.del_exam req) (NotesRoute.del_subject req) n (exams db)
  = None ->
  status (fst (NotesRoute.DELETE env saved (Fields req) db)) = 404%Z
  /\ snd (NotesRoute.DELETE env saved (Fields req) db) = db.
Proof.
  intros Hn He Hs Hloc. unfold Located.locate in Hloc. unfold NotesRoute.DELETE.
  rewrite Hn, (is_nil_false _ He), (is_nil_false _ Hs). simpl.
  destruct (NotesRoute.findOne (NotesRoute.del_exam req) (exams db)) as [[k0 d0]|];
    [|split; reflexivity].
  destruct (NotesRoute.find_subject (NotesRoute.del_subject req) (Exam.subjects d0))
    as [[i0 s0]|]; [|split; reflexivity].
  destruct (NotesRoute.find_chapter n (Exam.chapters s0)) as [[j0 c0]|];
    [discriminate | split; reflexivity].
Qed.

(** C7 (as amended): for a request that carries an exam name [e], a
    subject name [s] and a chapter number [n]. When the first exam named
    [e] has a subject named [s] whose chapters include the number [n],
    and the save succeeds, the answer is 200 and the stored exams are
    those of before without the first chapter numbered [n] of the first
    subject named [s] of that exam, and nothing else is changed, whatever
    the outcomes of the deletion of the file and of the deletion of the
    activity records. The activity records with the scope [(e, s, n)]
    are removed, and only they, when their deletion succeeds; when it
    fails the log is left as it was, matching records included. When no
    chapter is identified (no exam named [e], no subject named [s] in the
    first such exam, or no chapter numbered [n] in its first such
    subject) the answer is 404 and the database is left as it was. *)
Theorem DELETE_chapter (env : NotesRoute.Env) (saved : outcome unit)
    (req : NotesRoute.DeleteRequest) (db : DB) (n : Z) :
  NotesRoute.del_chapterNumber req = NotesRoute.Num n ->
  NotesRoute.del_exam req <> [] ->
  NotesRoute.del_subject req <> [] ->
  (forall docs1 d docs2 subs1 sub subs2 chs1 c chs2,
     Target.first_with Exam.exam (NotesRoute.del_exam req) (exams db) docs1 d docs2 ->
     Target.first_with Exam.name (NotesRoute.del_subject req) (Exam.subjects d)
       subs1 sub subs2 ->
     Target.first_with Exam.chapterNumber n (Exam.chapters sub) chs1 c chs2 ->
     saved = Resolved tt ->
     status (fst (NotesRoute.DELETE env saved (Fields req) db)) = 200%Z
     /\ exams (snd (NotesRoute.DELETE env saved (Fields req) db))
        = Target.without_chapter docs1 d docs2 subs1 sub subs2 chs1 chs2
     /\ (NotesRoute.deleteMany env = Rejected ->
         activities (snd (NotesRoute.DELETE env saved (Fields req) db)) = activities db)
     /\ (NotesRoute.deleteMany env <> Rejected ->
         forall a,
           In a (activities (snd (NotesRoute.DELETE env saved (Fields req) db))) <->
           In a (activities db)
           /\ ~ Target.scoped (NotesRoute.del_exam req) (NotesRoute.del_subject req) n a))
  /\ (Target.absent (NotesRoute.del_exam req) (NotesRoute.del_subject req) n (exams db) ->
      status (fst (NotesRoute.DELETE env saved (Fields req) db)) = 404%Z
      /\ snd (NotesRoute.DELETE env saved (Fields req) db) = db).
Proof.
  intros Hn He Hs.
  assert (Hnum : NotesRoute.Number (NotesRoute.del_chapterNumber req) = Some n)
    by (rewrite Hn; reflexivity).
  split.
  - intros docs1 d docs2 subs1 sub subs2 chs1 c chs2 Hfd Hfs Hfc ->.
    rewrite (DELETE_located env (Resolved tt) req db n _ _ _ _ _ _ Hnum He Hs
               (located_first _ _ _ _ _ _ _ _ _ _ _ _ _ Hfd Hfs Hfc)).
    destruct Hfd as (Hdocs & _ & _), Hfs as (Hsubs & _ & _), Hfc as (Hchs & _ & _).
    simpl. split; [reflexivity|]. split.
    { rewrite Hdocs, Hsubs, Hchs. unfold Target.without_chapter.
      rewrite delete_middle, !insert_middle. reflexivity. }
    split.
    + intros ->. reflexivity.
    + intros Hd a. destruct (NotesRoute.deleteMany env); [|congruence].
      rewrite Hn. simpl. apply delete_activities_In.
  - intros Habs.
    exact (DELETE_not_located env saved req db n Hnum He Hs (absent_locate _ _ _ _ Habs)).
Qed.

(** Chapter 1 of Physics is removed although both clean-up steps fail. *)
Lemma DELETE_chapter_witness :
  status (fst (NotesRoute.DELETE Scenario.offline (Resolved tt)
                 (Fields ReadScenario.delete_chapter1) Scenario.db)) = 200%Z
  /\ exams (snd (NotesRoute.DELETE Scenario.offline (Resolved tt)
                   (Fields ReadScenario.delete_chapter1) Scenario.db))
     = [ {| Exam.exam := str "GATE";
            Exam.subjects := [ {| Exam.name := str "Physics";
                                  Exam.chapters := [Scenario.chapter2] |} ] |} ].
Proof.
  destruct (proj1 (DELETE_chapter Scenario.offline (Resolved tt)
                     ReadScenario.delete_chapter1 Scenario.db 1%Z
                     eq_refl ltac:(discriminate) ltac:(discriminate))
              [] Scenario.gate []
              [] {| Exam.name := str "Physics";
                    Exam.chapters := [Scenario.chapter1; Scenario.chapter2] |} []
              [] Scenario.chapter1 [Scenario.chapter2])
    as (H200 & Hexams & _).
  - split; [reflexivity|]. split; [reflexivity|constructor].
  - split; [reflexivity|]. split; [reflexivity|constructor].
  - split; [reflexivity|]. split; [reflexivity|constructor].
  - reflexivity.
  - split; [exact H200 | exact Hexams].
Defined.

(** C7 (as stated) fails: when the deletion of the activity records is
    rejected, the chapter is removed and the answer is 200, but the two
    records of that exam, subject and chapter number are still in the
    log. *)
Lemma DELETE_keeps_records_when_cleanup_fails :
  NotesRoute.deleteMany Scenario.offline = Rejected
  /\ status (fst (NotesRoute.DELETE Scenario.offline (Resolved tt)
                    (Fields ReadScenario.delete_chapter1) Scenario.db)) = 200%Z
  /\ exams (snd (NotesRoute.DELETE Scenario.offline (Resolved tt)
                   (Fields ReadScenario.delete_chapter1) Scenario.db))
     = [ {| Exam.exam := str "GATE";
            Exam.subjects := [ {| Exam.name := str "Physics";
                                  Exam.chapters := [Scenario.chapter2] |} ] |} ]
  /\ activities (snd (NotesRoute.DELETE Scenario.offline (Resolved tt)
                        (Fields ReadScenario.delete_chapter1) Scenario.db))
     = [Scenario.view "u1" 1 10; Scenario.view "u2" 2 20; Scenario.view "u2" 1 30]
  /\ Target.scoped (str "GATE") (str "Physics") 1 (Scenario.view "u1" 1 10)
  /\ Target.scoped (str "GATE") (str "Physics") 1 (Scenario.view "u2" 1 30).
Proof.
  split; [reflexivity|]. split; [reflexivity|]. split; [reflexivity|].
  split; [reflexivity|]. split; repeat split.
Qed.

(** ** The Content Generator *)

Lemma maxLength_pos : (0 < maxLength)%nat.
Proof. unfold maxLength. lia. Qed.

Lemma chunk_loop_concat (n fuel : nat) (text : jsstring) (i : nat) :
  (0 < n)%nat -> (length text - i <= fuel)%nat ->
  concat (chunk_loop n fuel text i) = drop i text.
Proof.
  intros Hn. revert i. induction fuel as [|f IH]; intros i Hf; simpl.
  - symmetry. apply drop_ge. lia.
  - destruct (Nat.ltb_spec i (length text)) as [Hi|Hi].
    + simpl. rewrite IH by lia. unfold slice.
      replace (i + n - i)%nat with n by lia.
      rewrite <- (drop_drop text n i). apply take_drop.
    + symmetry. apply drop_ge. lia.
Qed.

Lemma chunk_loop_lookup (n fuel : nat) (text : jsstring) (i k : nat) :
  (0 < n)%nat -> (length text - i <= fuel)%nat ->
  chunk_loop n fuel text i !! k
  = if (i + k * n <? length text)%nat
    then Some (slice text (i + k * n) (i + k * n + n))
    else None.
Proof.
  intros Hn. revert i k. induction fuel as [|f IH]; intros i k Hf; simpl.
  - destruct (Nat.ltb_spec (i + k * n) (length text)); [lia|reflexivity].
  - destruct (Nat.ltb_spec i (length text)) as [Hi|Hi].
    + destruct k as [|k]; simpl.
      * rewrite Nat.add_0_r.
        destruct (Nat.ltb_spec i (length text)); [reflexivity|lia].
      * rewrite IH by lia.
        replace (i + n + k * n)%nat with (i + (n + k * n))%nat by lia.
        reflexivity.
    + destruct (Nat.ltb_spec (i + k * n) (length text)); [lia|reflexivity].
Qed.

Lemma promise_all_resolved {A} (l : list (outcome A)) :
  Forall (fun p => p <> Rejected) l ->
  exists rs, promise_all l = Resolved rs /\ l = List.map Resolved rs.
Proof.
  induction 1 as [|p r Hp _ (rs & Hrs & ->)]; simpl.
  - exists []. split; reflexivity.
  - destruct p as [a|]; [|congruence]. rewrite Hrs.
    exists (a :: rs). split; reflexivity.
Qed.

Lemma promise_all_rejected {A} (l : list (outcome A)) :
  In Rejected l -> promise_all l = Rejected.
Proof.
  induction l as [|p r IH]; simpl; [intros []|].
  intros [-> | Hin]; [reflexivity|].
  rewrite (IH Hin). destruct p; reflexivity.
Qed.

Lemma map_imap {A B C} (g : B -> C) (f : nat -> A -> B) (l : list A) :
  List.map g (imap f l) = imap (fun i x => g (f i x)) l.
Proof.
  revert f. induction l as [|x r IH]; intros f; simpl; [reflexivity|].
  f_equal. apply IH.
Qed.

Lemma generateContent_resolved (post : nat -> jsstring -> outcome (option GeminiData))
    (text : jsstring) (type : gen_type) :
  (forall k c, textChunks text !! k = Some c -> post k (prompt type c) <> Rejected) ->
  generateContent post text type
  = join (str " ")
         (imap (fun k c => reply_text (post k (prompt type c))) (textChunks text)).
Proof.
  intros H. unfold generateContent.
  destruct (promise_all_resolved
              (imap (fun i chunk => post i (prompt type chunk)) (textChunks text)))
    as (rs & Hrs & Himap).
  { apply Forall_lookup. intros k p. rewrite list_lookup_imap.
    destruct (textChunks text !! k) as [c|] eqn:Hc; simpl; [|discriminate].
    intros [= <-]. eauto. }
  rewrite Hrs. f_equal.
  rewrite <- (map_imap reply_text (fun i chunk => post i (prompt type chunk))).
  rewrite Himap. rewrite List.map_map. reflexivity.
Qed.

Lemma generateContent_rejected (post : nat -> jsstring -> outcome (option GeminiData))
    (text : jsstring) (type : gen_type) :
  (exists k c, textChunks text !! k = Some c /\ post k (prompt type c) = Rejected) ->
  generateContent post text type = fallback type.
Proof.
  intros (k & c & Hc & Hp). unfold generateContent.
  rewrite promise_all_rejected; [reflexivity|].
  apply list_elem_of_In, list_elem_of_lookup. exists k.
  rewrite list_lookup_imap, Hc. simpl. congruence.
Qed.

(** C5 (as amended): the text is cut into consecutive chunks of
    [maxLength] code units (the last one may be shorter) that together
    give back the text; when every chunk request resolves, the result is
    the texts of the replies joined by a space in the order of the chunks,
    a reply that carries no text counting as the empty string; when a
    chunk request is rejected, the result is the fallback of the mode, a
    fixed sentence for a summary and the JSON text of a quiz of one fixed
    question for a quiz. *)
Theorem generateContent_chunks_and_fallback
    (post : nat -> jsstring -> outcome (option GeminiData))
    (text : jsstring) (type : gen_type) :
  concat (textChunks text) = text
  /\ (forall k,
        textChunks text !! k
        = if (k * maxLength <? length text)%nat
          then Some (slice text (k * maxLength) (k * maxLength + maxLength))
          else None)
  /\ ((forall k c, textChunks text !! k = Some c -> post k (prompt type c) <> Rejected) ->
      generateContent post text type
      = join (str " ")
             (imap (fun k c => reply_text (post k (prompt type c))) (textChunks text)))
  /\ ((exists k c, textChunks text !! k = Some c /\ post k (prompt type c) = Rejected) ->
      generateContent post text type = fallback type)
  /\ fallback summary_mode = str "Summary generation failed."
  /\ parseQuizData (fallback quiz_mode) = [placeholder_question].
Proof.
  split; [|split; [|split; [|split; [|split]]]].
  - unfold textChunks. rewrite chunk_loop_concat; [reflexivity|apply maxLength_pos|lia].
  - intros k. unfold textChunks.
    rewrite chunk_loop_lookup; [reflexivity|apply maxLength_pos|lia].
  - apply generateContent_resolved.
  - apply generateContent_rejected.
  - reflexivity.
  - vm_compute. reflexivity.
Qed.

Lemma generateContent_chunks_and_fallback_witness :
  generateContent (fun _ _ => Rejected) (str "Newton's laws") quiz_mode
  = fallback quiz_mode.
Proof.
  apply (generateContent_chunks_and_fallback
           (fun _ _ => Rejected) (str "Newton's laws") quiz_mode).
  exists 0%nat, (str "Newton's laws"). split; [vm_compute; reflexivity|reflexivity].
Defined.

(** C5 (as stated) fails: a reply without candidates is not treated as a
    failure. On a text of one chunk the call returns the empty text and not
    the fallback; on a text of two chunks whose second reply has no
    candidates it returns the text of the first reply and a space, a
    partial result. *)
Lemma generateContent_reply_without_text :
  generateContent (fun _ _ => Resolved no_candidates) (str "Newton's laws") summary_mode = []
  /\ fallback summary_mode <> []
  /\ length (textChunks two_chunks) = 2%nat
  /\ generateContent first_reply_only two_chunks summary_mode = str "Inertia. "
  /\ fallback summary_mode <> str "Inertia. ".
Proof.
  split; [vm_compute; reflexivity|].
  split; [discriminate|].
  split; [vm_compute; reflexivity|].
  split; [vm_compute; reflexivity | discriminate].
Qed.

(** ** Scoring a quiz *)

Lemma reduce_from_score (ua : gmap jsstring jsstring) (l : list Courses.Question)
    (idx : nat) (acc : Z) :
  Courses.reduce_from
    (fun acc question index =>
       if Courses.answered ua (Courses.toString index) (Courses.answer question)
       then (acc + 1)%Z else acc) l idx acc
  = (acc + Z.of_nat (length (List.filter
       (fun i =>
          match l !! (i - idx)%nat with
          | Some q => Courses.answered ua (Courses.toString i) (Courses.answer q)
          | None => false
          end) (seq idx (length l)))))%Z.
Proof.
  revert idx acc. induction l as [|q r IH]; intros idx acc; simpl.
  - lia.
  - rewrite IH. rewrite Nat.sub_diag. simpl.
    rewrite (filter_ext_in
               (fun i => match (q :: r) !! (i - idx)%nat with
                         | Some q0 => Courses.answered ua (Courses.toString i) (Courses.answer q0)
                         | None => false
                         end)
               (fun i => match r !! (i - S idx)%nat with
                         | Some q0 => Courses.answered ua (Courses.toString i) (Courses.answer q0)
                         | None => false
                         end)).
    + destruct (Courses.answered ua (Courses.toString idx) (Courses.answer q)); simpl; lia.
    + intros i Hi. apply in_seq in Hi.
      replace (i - idx)%nat with (S (i - S idx)) by lia. reflexivity.
Qed.

(** C9: the score posted is the number of indices [i] of the quiz whose
    recorded answer (under the key [i] written in decimal) is the answer of
    question [i], and the total posted is the number of questions; with
    answers Paris and Berlin against Paris and Madrid the score is 1 out
    of 2. *)
Theorem handleSubmitQuiz_score :
  (forall (ok : bool) (st : Courses.State),
     StudentActivity.score (fst (Courses.handleSubmitQuiz ok st))
     = Z.of_nat (length (correct_indices st))
     /\ StudentActivity.totalQuestions (fst (Courses.handleSubmitQuiz ok st))
        = Z.of_nat (length (Courses.quiz st))
     /\ StudentActivity.answers (fst (Courses.handleSubmitQuiz ok st))
        = Courses.userAnswers st)
  /\ StudentActivity.score (fst (Courses.handleSubmitQuiz true capitals)) = 1%Z
  /\ StudentActivity.totalQuestions (fst (Courses.handleSubmitQuiz true capitals)) = 2%Z
  /\ Courses.quizScore (snd (Courses.handleSubmitQuiz true capitals)) = Some (1%Z, 2%Z).
Proof.
  split; [|split; [|split]]; try (vm_compute; reflexivity).
  intros ok st. simpl. split; [|split; reflexivity].
  unfold Courses.score, Courses.reduce, correct_indices.
  rewrite reduce_from_score, Z.add_0_l.
  do 2 f_equal. apply filter_ext. intros i. rewrite Nat.sub_0_r. reflexivity.
Qed.

(** * Further properties *)

(** ** The Quiz Sanitizer, continued *)

Lemma indexOf_from_absent (c : N) (s : jsstring) (i : Z) :
  ~ In c s -> indexOf_from c s i = (-1)%Z.
Proof.
  revert i. induction s as [|x r IH]; intros i H; simpl; [reflexivity|].
  destruct (N.eqb_spec x c) as [->|_]; [exfalso; apply H; left; reflexivity|].
  apply IH. intros Hin. apply H. right. exact Hin.
Qed.

Lemma indexOf_from_first (c : N) (pre rest : jsstring) (i : Z) :
  ~ In c pre -> indexOf_from c (pre ++ c :: rest) i = (i + Z.of_nat (length pre))%Z.
Proof.
  revert i. induction pre as [|x r IH]; intros i H; simpl.
  - rewrite N.eqb_refl. lia.
  - destruct (N.eqb_spec x c) as [->|_]; [exfalso; apply H; left; reflexivity|].
    rewrite IH by (intros Hin; apply H; right; exact Hin). lia.
Qed.

Lemma lastIndexOf_from_absent (c : N) (s : jsstring) (i last : Z) :
  ~ In c s -> lastIndexOf_from c s i last = last.
Proof.
  revert i last. induction s as [|x r IH]; intros i last H; simpl; [reflexivity|].
  destruct (N.eqb_spec x c) as [->|_]; [exfalso; apply H; left; reflexivity|].
  apply IH. intros Hin. apply H. right. exact Hin.
Qed.

Lemma lastIndexOf_from_last (c : N) (l post : jsstring) (i last : Z) :
  ~ In c post ->
  lastIndexOf_from c (l ++ c :: post) i last = (i + Z.of_nat (length l))%Z.
Proof.
  revert i last. induction l as [|x r IH]; intros i last H; simpl.
  - rewrite N.eqb_refl. rewrite lastIndexOf_from_absent by exact H. lia.
  - rewrite IH by exact H. lia.
Qed.

(** X1: when the text left after removing the fences and trimming has an
    opening brace and, somewhere after the first one, a closing brace,
    [cleanQuizData] keeps exactly the span from the first opening brace to
    the last closing brace; when it has no opening brace it is returned as
    it is. *)
Theorem cleanQuizData_brace_span (quizData pre mid post : jsstring) :
  (trim (strip_fence (strip_fence_json quizData)) = pre ++ [123] ++ mid ++ [125] ++ post ->
   ~ In 123 pre -> ~ In 125 post ->
   cleanQuizData quizData = [123] ++ mid ++ [125])
  /\ (~ In 123 (trim (strip_fence (strip_fence_json quizData))) ->
      cleanQuizData quizData = trim (strip_fence (strip_fence_json quizData))).
Proof.
  unfold cleanQuizData. split.
  - intros Heq Hpre Hpost. simpl in Heq. rewrite Heq. unfold indexOf, lastIndexOf.
    rewrite indexOf_from_first by exact Hpre.
    replace (pre ++ 123 :: mid ++ 125 :: post)
      with ((pre ++ 123 :: mid) ++ 125 :: post)
      by (rewrite <- app_assoc; reflexivity).
    rewrite lastIndexOf_from_last by exact Hpost.
    rewrite length_app. simpl length.
    replace ((0 <=? 0 + Z.of_nat (length pre))%Z) with true
      by (symmetry; apply Z.leb_le; lia).
    replace ((0 + Z.of_nat (length pre)
              <? 0 + Z.of_nat (length pre + S (length mid)) + 1)%Z) with true
      by (symmetry; apply Z.ltb_lt; lia).
    simpl andb. cbv iota. unfold substring.
    replace (Z.to_nat (0 + Z.of_nat (length pre))) with (length pre) by lia.
    replace (Z.to_nat (0 + Z.of_nat (length pre + S (length mid)) + 1
                       - (0 + Z.of_nat (length pre))))
      with (length (123 :: mid ++ [125])).
    2:{ simpl. rewrite length_app. simpl. lia. }
    rewrite <- app_assoc. rewrite drop_app_length.
    replace ((123 :: mid) ++ 125 :: post) with ((123 :: mid ++ [125]) ++ post)
      by (simpl; rewrite <- app_assoc; reflexivity).
    apply take_app_length.
  - intros H. unfold indexOf. rewrite indexOf_from_absent by exact H. reflexivity.
Qed.

Lemma cleanQuizData_brace_span_witness :
  cleanQuizData (str "Sure! ```json {} ``` Enjoy.") = [123] ++ [] ++ [125].
Proof.
  apply (proj1 (cleanQuizData_brace_span (str "Sure! ```json {} ``` Enjoy.")
                  (str "Sure!  ") [] (str "  Enjoy."))).
  - vm_compute. reflexivity.
  - vm_compute. intuition discriminate.
  - vm_compute. intuition discriminate.
Defined.

Lemma filterM_throws {A} (p : A -> result bool) (l : list A) (x : A) (e : exn) :
  In x l -> p x = Throw e -> exists e', filterM p l = Throw e'.
Proof.
  induction l as [|y r IH]; simpl; [intros []|].
  intros [-> | Hin] Hx.
  - rewrite Hx. simpl. eauto.
  - destruct (p y) as [b|e0]; simpl; [|eauto].
    destruct (IH Hin Hx) as [e' ->]. simpl. eauto.
Qed.

(** X2: when the cleaned text parses to an object whose [quiz] is an array
    without [null] entries, [parseQuizData] returns exactly the entries of
    the checked shape, in their order; when the array has a [null] entry,
    it returns the empty list, the valid entries included. *)
Theorem parseQuizData_filter (quizData : jsstring) (fields : list (jsstring * value))
    (items : list value) :
  JSON_parse (cleanQuizData quizData) = Ok (VObj fields) ->
  obj_get (str "quiz") fields = VArr items ->
  (forallb readable items = true ->
   parseQuizData quizData = List.filter quiz_entry_shape items)
  /\ (In VNull items -> parseQuizData quizData = []).
Proof.
  intros Hp Hq. unfold parseQuizData, parseQuizData_try.
  rewrite Hp. simpl. rewrite Hq. simpl. split.
  - intros Hr. rewrite (forallb_readable_shape items Hr). reflexivity.
  - intros Hin.
    destruct (filterM_throws valid_quiz_item items VNull TypeError Hin eq_refl) as [e ->].
    reflexivity.
Qed.

Lemma parseQuizData_filter_witness :
  parseQuizData (dq "{'quiz':[{'question':'Q1','options':['a','b'],'answer':'a'}, 7]}")
  = List.filter quiz_entry_shape [Scenario.question1; VNum false 7 0].
Proof.
  apply (proj1 (parseQuizData_filter
                  (dq "{'quiz':[{'question':'Q1','options':['a','b'],'answer':'a'}, 7]}")
                  [(str "quiz", VArr [Scenario.question1; VNum false 7 0])]
                  [Scenario.question1; VNum false 7 0]
                  ltac:(vm_compute; reflexivity) eq_refl)).
  reflexivity.
Defined.

(** ** The Content Generator, continued *)

Lemma slice_length (text : jsstring) (a n : nat) :
  length (slice text a (a + n)) = Nat.min n (length text - a).
Proof.
  unfold slice. rewrite length_take, length_drop.
  replace (a + n - a)%nat with n by lia. reflexivity.
Qed.

Lemma chunk_count (n len k : nat) :
  (0 < n)%nat -> (k < (len + n - 1) / n)%nat <-> (k * n < len)%nat.
Proof.
  intros Hn. split; intros H.
  - assert (Hk : (S k <= (len + n - 1) / n)%nat) by lia.
    pose proof (Nat.Div0.mul_div_le (len + n - 1) n) as Hd. nia.
  - assert (Hq : (S k <= (len + n - 1) / n)%nat); [|lia].
    apply Nat.div_le_lower_bound; [lia|]. nia.
Qed.

(** X3: the text is cut into [ceil(length / 90000)] chunks, each of at
    least one and at most 90000 code units; so one request is made per
    started block of 90000 code units, and for the empty text no request is
    made and the result is the empty string, whatever the service would
    answer. *)
Theorem textChunks_count_and_size
    (post : nat -> jsstring -> outcome (option GeminiData))
    (text : jsstring) (type : gen_type) :
  length (textChunks text) = ((length text + maxLength - 1) / maxLength)%nat
  /\ Forall (fun c => (0 < length c <= maxLength)%nat) (textChunks text)
  /\ (text = [] -> generateContent post text type = []).
Proof.
  pose proof maxLength_pos as Hm.
  assert (Hl : forall k, textChunks text !! k
                         = if (k * maxLength <? length text)%nat
                           then Some (slice text (k * maxLength) (k * maxLength + maxLength))
                           else None).
  { intros k. unfold textChunks. rewrite chunk_loop_lookup by lia. reflexivity. }
  split; [|split].
  - set (n := ((length text + maxLength - 1) / maxLength)%nat).
    assert (Hn : textChunks text !! n = None).
    { rewrite Hl. destruct (Nat.ltb_spec (n * maxLength) (length text)) as [H|H];
        [|reflexivity].
      apply (chunk_count maxLength (length text) n Hm) in H. lia. }
    apply lookup_ge_None in Hn.
    destruct n as [|n'] eqn:En; [lia|].
    assert (Hs : is_Some (textChunks text !! n')).
    { rewrite Hl. destruct (Nat.ltb_spec (n' * maxLength) (length text)) as [H|H];
        [eauto|].
      assert (n' < (length text + maxLength - 1) / maxLength)%nat as H' by (fold n; lia).
      apply (chunk_count maxLength (length text) n' Hm) in H'. lia. }
    apply lookup_lt_is_Some in Hs. lia.
  - apply Forall_lookup. intros k c. rewrite Hl.
    destruct (Nat.ltb_spec (k * maxLength) (length text)) as [H|H]; [|discriminate].
    intros [= <-]. rewrite slice_length. lia.
  - intros ->. reflexivity.
Qed.

Lemma textChunks_count_and_size_witness :
  generateContent (fun _ _ => Rejected) [] summary_mode = [].
Proof.
  apply (proj2 (proj2 (textChunks_count_and_size (fun _ _ => Rejected) [] summary_mode))).
  reflexivity.
Defined.

(** ** Creating and extending an exam, continued *)




Section MergeKeys.
Import Exam NotesRoute Keys.

Lemma map_list_insert {A B} (f : A -> B) (l : list A) (i : nat) (x : A) :
  List.map f (<[i := x]> l) = <[i := f x]> (List.map f l).
Proof. revert i. induction l as [|y r IH]; intros [|i]; simpl; f_equal; auto. Qed.

Lemma map_list_lookup {A B} (f : A -> B) (l : list A) (i : nat) (x : A) :
  l !! i = Some x -> List.map f l !! i = Some (f x).
Proof.
  revert i. induction l as [|y r IH]; intros [|i]; simpl; try discriminate.
  - intros [= ->]. reflexivity.
  - apply IH.
Qed.

Lemma lookup_In {A} (l : list A) (i : nat) (x : A) : l !! i = Some x -> In x l.
Proof. intros H. apply list_elem_of_In. eapply list_elem_of_lookup_2. exact H. Qed.

Lemma mergeChapter_numbers (l : list Chapter) (c : Chapter) :
  (In (chapterNumber c) (List.map chapterNumber l)
   /\ List.map chapterNumber (mergeChapter l c) = List.map chapterNumber l)
  \/ (~ In (chapterNumber c) (List.map chapterNumber l)
      /\ List.map chapterNumber (mergeChapter l c)
         = List.map chapterNumber l ++ [chapterNumber c]).
Proof.
  unfold mergeChapter, find_chapter.
  destruct (list_find (fun c0 => chapterNumber c0 = chapterNumber c) l) as [[i e]|] eqn:H.
  - left. apply list_find_Some in H as (Hi & He & _). split.
    + apply in_map_iff. exists e. split; [exact He|]. eapply lookup_In; exact Hi.
    + rewrite map_list_insert. simpl. apply list_insert_id.
      apply map_list_lookup. exact Hi.
  - right. apply list_find_None in H. split.
    + intros Hin. apply in_map_iff in Hin as (x & Hx & Hin).
      rewrite List.Forall_forall in H. exact (H x Hin Hx).
    + rewrite map_app. reflexivity.
Qed.

Lemma NoDup_snoc {A} (l : list A) (x : A) : NoDup l -> ~ In x l -> NoDup (l ++ [x]).
Proof.
  intros Hl Hx. apply NoDup_app. split; [exact Hl|]. split.
  - intros y Hy Hy'. apply list_elem_of_In in Hy. apply list_elem_of_In in Hy'.
    destruct Hy' as [<-|[]]. exact (Hx Hy).
  - apply NoDup_singleton.
Qed.

Lemma fold_mergeChapter_prefix (news l : list Chapter) :
  List.map chapterNumber l `prefix_of`
  List.map chapterNumber (fold_left mergeChapter news l).
Proof.
  revert l. induction news as [|c r IH]; intros l; simpl; [reflexivity|].
  etransitivity; [|apply IH].
  destruct (mergeChapter_numbers l c) as [[_ ->] | [_ ->]];
    [reflexivity | apply prefix_app_r; reflexivity].
Qed.

Lemma fold_mergeChapter_NoDup (news l : list Chapter) :
  NoDup (List.map chapterNumber l) ->
  NoDup (List.map chapterNumber (fold_left mergeChapter news l)).
Proof.
  revert l. induction news as [|c r IH]; intros l Hl; simpl; [exact Hl|].
  apply IH. destruct (mergeChapter_numbers l c) as [[_ ->] | [Hn ->]];
    [exact Hl | apply NoDup_snoc; assumption].
Qed.

Lemma mergeSubject_names (l : list Subject) (s : Subject) :
  (In (name s) (List.map name l)
   /\ List.map name (mergeSubject l s) = List.map name l)
  \/ (~ In (name s) (List.map name l)
      /\ List.map name (mergeSubject l s) = List.map name l ++ [name s]).
Proof.
  unfold mergeSubject, find_subject.
  destruct (list_find (fun s0 => name s0 = name s) l) as [[i e]|] eqn:H.
  - left. apply list_find_Some in H as (Hi & He & _). split.
    + apply in_map_iff. exists e. split; [exact He|]. eapply lookup_In; exact Hi.
    + rewrite map_list_insert. simpl. apply list_insert_id.
      apply map_list_lookup. exact Hi.
  - right. apply list_find_None in H. split.
    + intros Hin. apply in_map_iff in Hin as (x & Hx & Hin).
      rewrite List.Forall_forall in H. exact (H x Hin Hx).
    + rewrite map_app. reflexivity.
Qed.

Lemma mergeSubject_well_keyed (l : list Subject) (s : Subject) :
  well_keyed l -> unique_chapters s -> well_keyed (mergeSubject l s).
Proof.
  intros [Hn Hc] Hs. split.
  - destruct (mergeSubject_names l s) as [[_ ->] | [Hnew ->]];
      [exact Hn | apply NoDup_snoc; assumption].
  - unfold mergeSubject, find_subject.
    destruct (list_find (fun s0 => name s0 = name s) l) as [[i e]|] eqn:H.
    + apply list_find_Some in H as (Hi & _ & _).
      apply Forall_insert; [exact Hc|].
      unfold unique_chapters. simpl. apply fold_mergeChapter_NoDup.
      exact (Forall_lookup_1 _ _ _ _ Hc Hi).
    + apply Forall_app. split; [exact Hc|]. constructor; [exact Hs|constructor].
Qed.

Lemma mergeSubject_keeps (l : list Subject) (new s : Subject) (i : nat) :
  l !! i = Some s ->
  exists s', mergeSubject l new !! i = Some s'
             /\ name s' = name s
             /\ List.map chapterNumber (chapters s)
                `prefix_of` List.map chapterNumber (chapters s').
Proof.
  intros Hi. unfold mergeSubject, find_subject.
  destruct (list_find (fun s0 => name s0 = name new) l) as [[i0 e]|] eqn:H.
  - apply list_find_Some in H as (Hi0 & _ & _).
    destruct (decide (i0 = i)) as [->|Hne].
    + rewrite Hi in Hi0. injection Hi0 as <-.
      eexists. split.
      * apply list_lookup_insert_eq. eapply lookup_lt_Some; exact Hi.
      * simpl. split; [reflexivity|]. apply fold_mergeChapter_prefix.
    + exists s. rewrite list_lookup_insert_ne by exact Hne.
      split; [exact Hi|]. split; reflexivity.
  - exists s. split; [apply lookup_app_l_Some; exact Hi|]. split; reflexivity.
Qed.

End MergeKeys.

Lemma fold_mergeSubject_names (incoming existing : list Exam.Subject) :
  List.map Exam.name existing
  `prefix_of` List.map Exam.name (fold_left NotesRoute.mergeSubject incoming existing).
Proof.
  revert existing. induction incoming as [|new r IH]; intros existing; simpl;
    [reflexivity|].
  etransitivity; [|apply IH].
  destruct (mergeSubject_names existing new) as [[_ ->] | [_ ->]];
    [reflexivity | apply prefix_app_r; reflexivity].
Qed.

(** X4: whatever the request and the external services do, [POST] answers
    200, 201, 400 or 500 and never touches the activity log. It adds at
    most one exam document and removes none: every stored document is
    still at its position, under its name, and the names of its subjects
    are still the first subject names of the document there. The only
    document that can differ from what it was is the first one named as
    the request says, and only under the answer 200. The database is
    exactly as it was unless the answer is 200 or 201. *)
Theorem POST_status_and_atomicity (env : NotesRoute.Env) (req : NotesRoute.PostRequest)
    (db : DB) :
  In (status (fst (NotesRoute.POST env req db))) [200; 201; 400; 500]%Z
  /\ activities (snd (NotesRoute.POST env req db)) = activities db
  /\ (length (exams db) <= length (exams (snd (NotesRoute.POST env req db)))
      <= S (length (exams db)))%nat
  /\ (forall i d,
        exams db !! i = Some d ->
        exists d',
          exams (snd (NotesRoute.POST env req db)) !! i = Some d'
          /\ Exam.exam d' = Exam.exam d
          /\ List.map Exam.name (Exam.subjects d)
             `prefix_of` List.map Exam.name (Exam.subjects d')
          /\ (d' = d
              \/ (status (fst (NotesRoute.POST env req db)) = 200%Z
                  /\ Exam.exam d = NotesRoute.post_exam req
                  /\ Forall (fun x => Exam.exam x <> NotesRoute.post_exam req)
                            (take i (exams db)))))
  /\ (status (fst (NotesRoute.POST env req db)) <> 200%Z ->
      status (fst (NotesRoute.POST env req db)) <> 201%Z ->
      snd (NotesRoute.POST env req db) = db).
Proof.
  assert (Hsame : forall (p : Response Exam.t * DB),
            snd p = db ->
            In (status (fst p)) [200; 201; 400; 500]%Z ->
            In (status (fst p)) [200; 201; 400; 500]%Z
            /\ activities (snd p) = activities db
            /\ (length (exams db) <= length (exams (snd p)) <= S (length (exams db)))%nat
            /\ (forall i d,
                  exams db !! i = Some d ->
                  exists d',
                    exams (snd p) !! i = Some d'
                    /\ Exam.exam d' = Exam.exam d
                    /\ List.map Exam.name (Exam.subjects d)
                       `prefix_of` List.map Exam.name (Exam.subjects d')
                    /\ (d' = d
                        \/ (status (fst p) = 200%Z
                            /\ Exam.exam d = NotesRoute.post_exam req
                            /\ Forall (fun x => Exam.exam x <> NotesRoute.post_exam req)
                                      (take i (exams db)))))
            /\ (status (fst p) <> 200%Z -> status (fst p) <> 201%Z -> snd p = db)).
  { intros p -> Hr. split; [exact Hr|]. split; [reflexivity|]. split; [lia|].
    split; [|reflexivity].
    intros i d Hd. exists d. split; [exact Hd|]. split; [reflexivity|].
    split; [reflexivity | left; reflexivity]. }
  unfold NotesRoute.POST, NotesRoute.POST_try.
  destruct (NotesRoute.post_subjects req) as [| |l];
    try (apply Hsame; [reflexivity | simpl; tauto]).
  destruct (is_nil (NotesRoute.post_exam req));
    [apply Hsame; [reflexivity | simpl; tauto]|].
  destruct (all_results (imap (NotesRoute.processSubject env req) l)) as [processed|e];
    [|apply Hsame; [reflexivity | simpl; tauto]].
  simpl bind.
  destruct (is_nil (NotesRoute.non_null processed));
    [apply Hsame; [reflexivity | simpl; tauto]|].
  destruct (NotesRoute.findOne (NotesRoute.post_exam req) (exams db))
    as [[k existingExam]|] eqn:Hfind; simpl.
  - unfold NotesRoute.findOne in Hfind.
    apply list_find_Some in Hfind as (Hk & Hname & Hfirst).
    split; [tauto|]. split; [reflexivity|].
    split; [rewrite length_insert; lia|].
    split; [|congruence].
    intros i d Hd. destruct (decide (i = k)) as [->|Hne].
    + rewrite Hk in Hd. injection Hd as <-.
      eexists. split; [apply list_lookup_insert_eq; eapply lookup_lt_Some; exact Hk|].
      simpl. split; [reflexivity|]. split; [apply fold_mergeSubject_names|].
      right. split; [reflexivity|]. split; [exact Hname|].
      apply Forall_lookup. intros j y Hy.
      apply lookup_take_Some in Hy as [Hy Hlt]. exact (Hfirst j y Hy Hlt).
    + exists d. rewrite list_lookup_insert_ne by congruence.
      split; [exact Hd|]. split; [reflexivity|]. split; [reflexivity|left; reflexivity].
  - split; [tauto|]. split; [reflexivity|].
    split; [rewrite length_app; simpl; lia|].
    split; [|congruence].
    intros i d Hd. exists d. split; [apply lookup_app_l_Some; exact Hd|].
    split; [reflexivity|]. split; [reflexivity|left; reflexivity].
Qed.

(** X6: extending an exam keeps the keys of the data model unique. The
    subject names of the merged list are unique whenever those of the
    existing list are; and when, moreover, every existing and every
    incoming subject has unique chapter numbers, so has every merged
    subject. *)
Theorem merge_keeps_keys_unique (existing incoming : list Exam.Subject) :
  (NoDup (List.map Exam.name existing) ->
   NoDup (List.map Exam.name (fold_left NotesRoute.mergeSubject incoming existing)))
  /\ (Keys.well_keyed existing ->
      Forall Keys.unique_chapters incoming ->
      Keys.well_keyed (fold_left NotesRoute.mergeSubject incoming existing)).
Proof.
  split.
  - revert existing. induction incoming as [|s r IH]; intros existing Hn; simpl;
      [exact Hn|].
    apply IH. destruct (mergeSubject_names existing s) as [[_ ->] | [Hnew ->]];
      [exact Hn | apply NoDup_snoc; assumption].
  - intros Hk Hin. revert existing Hk.
    induction Hin as [|s r Hs _ IH]; intros existing Hk; simpl; [exact Hk|].
    apply IH. apply mergeSubject_well_keyed; assumption.
Qed.

Lemma merge_keeps_keys_unique_witness :
  Keys.well_keyed
    (fold_left NotesRoute.mergeSubject
       [ {| Exam.name := str "Physics"; Exam.chapters := [PostScenario.new_chapter 2] |};
         {| Exam.name := str "Chemistry"; Exam.chapters := [PostScenario.new_chapter 1] |};
         {| Exam.name := str "Chemistry"; Exam.chapters := [PostScenario.new_chapter 1] |} ]
       (Exam.subjects Scenario.gate)).
Proof.
  apply (proj2 (merge_keeps_keys_unique (Exam.subjects Scenario.gate) _)).
  - unfold Keys.well_keyed, Keys.unique_chapters.
    split; apply (bool_decide_unpack _); vm_compute; exact I.
  - unfold Keys.unique_chapters.
    apply (bool_decide_unpack _); vm_compute; exact I.
Defined.

(** X7: extending an exam never removes or moves a subject or a chapter:
    the existing subject names are the first names of the merged list, and
    each existing subject is still at its position, under its name, with
    its chapter numbers as the first chapter numbers of the merged
    subject. *)
Theorem merge_never_removes (existing incoming : list Exam.Subject) :
  List.map Exam.name existing
  `prefix_of` List.map Exam.name (fold_left NotesRoute.mergeSubject incoming existing)
  /\ forall i s,
       existing !! i = Some s ->
       exists s',
         fold_left NotesRoute.mergeSubject incoming existing !! i = Some s'
         /\ Exam.name s' = Exam.name s
         /\ List.map Exam.chapterNumber (Exam.chapters s)
            `prefix_of` List.map Exam.chapterNumber (Exam.chapters s').
Proof.
  split.
  - revert existing. induction incoming as [|new r IH]; intros existing; simpl;
      [reflexivity|].
    etransitivity; [|apply IH].
    destruct (mergeSubject_names existing new) as [[_ ->] | [_ ->]];
      [reflexivity | apply prefix_app_r; reflexivity].
  - revert existing. induction incoming as [|new r IH]; intros existing i s Hi; simpl.
    + exists s. split; [exact Hi|]. split; reflexivity.
    + destruct (mergeSubject_keeps existing new s i Hi) as (s1 & H1 & Hn1 & Hp1).
      destruct (IH _ i s1 H1) as (s2 & H2 & Hn2 & Hp2).
      exists s2. split; [exact H2|]. split; [congruence|].
      etransitivity; eassumption.
Qed.

Lemma merge_never_removes_witness :
  exists s',
    fold_left NotesRoute.mergeSubject
      [ {| Exam.name := str "Physics"; Exam.chapters := [PostScenario.new_chapter 3] |} ]
      (Exam.subjects Scenario.gate) !! 0%nat = Some s'
    /\ Exam.name s' = str "Physics"
    /\ List.map Exam.chapterNumber [Scenario.chapter1; Scenario.chapter2]
       `prefix_of` List.map Exam.chapterNumber (Exam.chapters s').
Proof.
  apply (proj2 (merge_never_removes (Exam.subjects Scenario.gate)
                  [ {| Exam.name := str "Physics";
                       Exam.chapters := [PostScenario.new_chapter 3] |} ])
               0%nat
               {| Exam.name := str "Physics";
                  Exam.chapters := [Scenario.chapter1; Scenario.chapter2] |}).
  reflexivity.
Defined.

Lemma parseQuizData_all_shaped (quizData : jsstring) :
  Forall (fun q => quiz_entry_shape q = true) (parseQuizData quizData).
Proof.
  apply List.Forall_forall. intros item. unfold parseQuizData.
  destruct (parseQuizData_try quizData) as [kept|e] eqn:Ht; [|intros []].
  intros Hin. apply valid_quiz_item_true.
  eapply parseQuizData_try_In; eassumption.
Qed.

Lemma textChunks_head (text : jsstring) :
  text <> [] -> exists c, textChunks text !! 0%nat = Some c.
Proof.
  intros Ht. unfold textChunks.
  rewrite chunk_loop_lookup; [|apply maxLength_pos|lia].
  destruct text as [|x r]; [congruence|]. simpl. eauto.
Qed.

(** X8: the outcome of processing one chapter of the form depends on the
    upload only. Without a file the chapter is skipped; when the upload
    resolves with a URL and an identifier the chapter is built, whatever
    text extraction and the generative service do, with the number of the
    form, the file reference of the upload and quiz entries that all have
    the checked shape; when the upload rejects or resolves without a URL
    or identifier, processing throws. *)
Theorem processChapter_outcome (env : NotesRoute.Env) (req : NotesRoute.PostRequest)
    (i j : nat) (chapter : NotesRoute.Form.Chapter) :
  (NotesRoute.post_file req i j = false ->
   NotesRoute.processChapter env req i j chapter = Ok None)
  /\ (NotesRoute.post_file req i j = true ->
      forall r,
        NotesRoute.uploadToCloudinary env i j = Resolved (Some r) ->
        NotesRoute.url r <> [] -> NotesRoute.public_id r <> [] ->
        exists c,
          NotesRoute.processChapter env req i j chapter = Ok (Some c)
          /\ Exam.chapterNumber c = NotesRoute.Form.chapterNumber chapter
          /\ Exam.notesFileUrl c = NotesRoute.url r
          /\ Exam.publicId c = NotesRoute.public_id r
          /\ Forall (fun q => quiz_entry_shape q = true) (Exam.quiz c))
  /\ (NotesRoute.post_file req i j = true ->
      NotesRoute.uploadToCloudinary env i j = Rejected
      \/ NotesRoute.uploadToCloudinary env i j = Resolved None
      \/ (exists r, NotesRoute.uploadToCloudinary env i j = Resolved (Some r)
                    /\ (NotesRoute.url r = [] \/ NotesRoute.public_id r = [])) ->
      exists e, NotesRoute.processChapter env req i j chapter = Throw e).
Proof.
  unfold NotesRoute.processChapter. split; [|split].
  - intros ->. reflexivity.
  - intros -> r -> Hu Hp. simpl.
    rewrite (is_nil_false _ Hu), (is_nil_false _ Hp). simpl.
    eexists. split; [reflexivity|]. simpl.
    repeat split. apply parseQuizData_all_shaped.
  - intros -> [-> | [-> | (r & -> & [Hr | Hr])]]; simpl; eauto.
    + rewrite (is_nil_true _ Hr). simpl. eauto.
    + rewrite (is_nil_true _ Hr), orb_true_r. eauto.
Qed.

Lemma processChapter_outcome_witness :
  exists c,
    NotesRoute.processChapter PostScenario.uploads_only MoreScenario.create_jee 0 0
      {| NotesRoute.Form.chapterNumber := 1 |} = Ok (Some c)
    /\ Exam.chapterNumber c = 1%Z
    /\ Exam.notesFileUrl c = str "https://files.example/new.pdf"
    /\ Exam.publicId c = str "gate/new"
    /\ Forall (fun q => quiz_entry_shape q = true) (Exam.quiz c).
Proof.
  apply (proj1 (proj2 (processChapter_outcome PostScenario.uploads_only
                         MoreScenario.create_jee 0 0
                         {| NotesRoute.Form.chapterNumber := 1 |}))
           eq_refl
           {| NotesRoute.url := str "https://files.example/new.pdf";
              NotesRoute.public_id := str "gate/new" |} eq_refl);
    discriminate.
Defined.

(** X9: when the generative service rejects every request, a chapter whose
    upload succeeded is still built. If the text handed to the generator is
    not empty (in particular when text extraction failed and the
    placeholder sentence is used), its summary is the fallback sentence and
    its quiz is the one placeholder question; if the extracted text is
    empty, no request is made, the summary is empty and the quiz is
    empty. *)
Theorem processChapter_service_down (env : NotesRoute.Env) (req : NotesRoute.PostRequest)
    (i j : nat) (chapter : NotesRoute.Form.Chapter) (r : NotesRoute.UploadResult) :
  NotesRoute.post_file req i j = true ->
  NotesRoute.uploadToCloudinary env i j = Resolved (Some r) ->
  NotesRoute.url r <> [] -> NotesRoute.public_id r <> [] ->
  (forall type k p, NotesRoute.gemini env i j type k p = Rejected) ->
  let built (s : jsstring) (q : list value) :=
    Ok (Some {| Exam.chapterNumber := NotesRoute.Form.chapterNumber chapter;
                Exam.notesFileUrl := NotesRoute.url r;
                Exam.publicId := NotesRoute.public_id r;
                Exam.summary := s;
                Exam.quiz := q |}) in
  (NotesRoute.extractText env i j <> Resolved [] ->
   NotesRoute.processChapter env req i j chapter
   = built (str "Summary generation failed.") [placeholder_question])
  /\ (NotesRoute.extractText env i j = Resolved [] ->
      NotesRoute.processChapter env req i j chapter = built [] []).
Proof.
  intros Hf Hu Hurl Hpid Hdown built. unfold NotesRoute.processChapter.
  rewrite Hf, Hu. simpl. rewrite (is_nil_false _ Hurl), (is_nil_false _ Hpid). simpl.
  split.
  - intros Htext.
    set (pdfText := match NotesRoute.extractText env i j with
                    | Resolved text => text
                    | Rejected => str "Text extraction failed."
                    end).
    assert (Hne : pdfText <> []).
    { subst pdfText. destruct (NotesRoute.extractText env i j) as [text|];
        [intros ->; apply Htext; reflexivity | discriminate]. }
    destruct (textChunks_head pdfText Hne) as [c Hc].
    rewrite !generateContent_rejected
      by (exists 0%nat, c; split; [exact Hc | apply Hdown]).
    unfold built. do 3 f_equal.
  - intros ->. reflexivity.
Qed.

Lemma processChapter_service_down_witness :
  NotesRoute.processChapter PostScenario.uploads_only MoreScenario.create_jee 0 0
    {| NotesRoute.Form.chapterNumber := 1 |}
  = Ok (Some (PostScenario.new_chapter 1)).
Proof.
  apply (proj1 (processChapter_service_down PostScenario.uploads_only
                  MoreScenario.create_jee 0 0 {| NotesRoute.Form.chapterNumber := 1 |}
                  {| NotesRoute.url := str "https://files.example/new.pdf";
                     NotesRoute.public_id := str "gate/new" |}
                  eq_refl eq_refl ltac:(discriminate) ltac:(discriminate)
                  (fun _ _ _ => eq_refl))).
  discriminate.
Defined.

Lemma all_results_throws {A B} (f : nat -> A -> result B) (l : list A) (i : nat) (x : A)
    (e : exn) :
  l !! i = Some x -> f i x = Throw e -> exists e', all_results (imap f l) = Throw e'.
Proof.
  revert f i. induction l as [|y r IH]; intros f [|i]; simpl; try discriminate.
  - intros [= ->] ->. simpl. eauto.
  - intros Hi Hx. destruct (f 0%nat y) as [b|e0]; simpl; [|eauto].
    destruct (IH (f ∘ S) i Hi Hx) as [e' ->]. simpl. eauto.
Qed.

(** X10: when the upload of one chapter's file fails, in a subject that is
    not skipped, the whole request is answered by 500 and nothing is
    stored, also for the chapters and subjects whose upload succeeded. *)
Theorem POST_upload_failure (env : NotesRoute.Env) (req : NotesRoute.PostRequest)
    (db : DB) (l : list NotesRoute.Form.Subject) (i j : nat)
    (s : NotesRoute.Form.Subject) (n : jsstring) (chs : list NotesRoute.Form.Chapter)
    (ch : NotesRoute.Form.Chapter) :
  NotesRoute.post_exam req <> [] ->
  NotesRoute.post_subjects req = NotesRoute.Form.Array l ->
  l !! i = Some s ->
  NotesRoute.Form.name s = Some n -> trim n <> [] ->
  NotesRoute.Form.chapters s = Some chs -> chs !! j = Some ch ->
  NotesRoute.post_file req i j = true ->
  NotesRoute.uploadToCloudinary env i j = Rejected ->
  NotesRoute.POST env req db = (respond 500 "Error saving exam", db).
Proof.
  intros He Hl Hi Hn Ht Hc Hj Hf Hu.
  assert (Hch : exists e, NotesRoute.processChapter env req i j ch = Throw e).
  { unfold NotesRoute.processChapter. rewrite Hf, Hu. simpl. eauto. }
  destruct Hch as [e1 Hch].
  assert (Hs : exists e, NotesRoute.processSubject env req i s = Throw e).
  { unfold NotesRoute.processSubject. rewrite Hn, Hc, (is_nil_false _ Ht).
    assert (Hne : chs <> []) by (intros ->; discriminate).
    rewrite (is_nil_false _ Hne). simpl.
    destruct (all_results_throws (NotesRoute.processChapter env req i) chs j ch e1 Hj Hch)
      as [e' ->]. simpl. eauto. }
  destruct Hs as [e2 Hs].
  unfold NotesRoute.POST, NotesRoute.POST_try. rewrite Hl, (is_nil_false _ He).
  destruct (all_results_throws (NotesRoute.processSubject env req) l i s e2 Hi Hs)
    as [e' ->]. reflexivity.
Qed.

Lemma POST_upload_failure_witness :
  NotesRoute.POST Scenario.offline MoreScenario.create_jee Scenario.db
  = (respond 500 "Error saving exam", Scenario.db).
Proof.
  apply (POST_upload_failure Scenario.offline MoreScenario.create_jee Scenario.db
           _ 0 0 _ (str "Maths") _ {| NotesRoute.Form.chapterNumber := 1 |}
           ltac:(discriminate) eq_refl eq_refl eq_refl ltac:(discriminate)
           eq_refl eq_refl eq_refl eq_refl).
Defined.

(** ** Reading exams and quizzes (GET) *)

Lemma find_exams_In (e : jsstring) (docs : list Exam.t) (d : Exam.t) :
  In d (NotesRead.find_exams e docs) <-> In d docs /\ (e = [] \/ Exam.exam d = e).
Proof.
  unfold NotesRead.find_exams. destruct e as [|c e]; simpl.
  - tauto.
  - rewrite filter_In. split.
    + intros [Hin Hd]. apply bool_decide_eq_true in Hd. auto.
    + intros [Hin [Hd|Hd]]; [discriminate|].
      split; [exact Hin|]. apply bool_decide_eq_true. exact Hd.
Qed.

Lemma select_chapters_In (w : option (option Z)) (l : list Exam.Chapter) (c : Exam.Chapter) :
  In c (NotesRead.select_chapters w l) <->
  In c l /\ match w with None => True | Some n => Some (Exam.chapterNumber c) = n end.
Proof.
  unfold NotesRead.select_chapters. destruct w as [n|]; [|tauto].
  rewrite filter_In. rewrite bool_decide_eq_true. tauto.
Qed.

(** X11: with [quizOnly=true] and a subject name, the answer lists
    exactly the chapters that have a non-empty quiz, belong to the first
    subject of that name of an exam selected by the [exam] parameter (every
    exam when it is empty), and have the requested chapter number when one
    is given; each with the exam name, subject name, number, quiz and
    summary of its chapter. A chapter with an empty quiz is never
    listed. *)
Theorem GET_quiz_listing (req : NotesRead.GetRequest) (db : DB) :
  NotesRead.get_quizOnly req = str "true" ->
  NotesRead.get_subject req <> [] ->
  exists l,
    NotesRead.GET req db
    = {| status := 200; message := []; payload := Some (NotesRead.Quizzes l) |}
    /\ forall q,
         In q l <->
         exists d i s c,
           In d (exams db)
           /\ (NotesRead.get_exam req = [] \/ Exam.exam d = NotesRead.get_exam req)
           /\ NotesRoute.find_subject (NotesRead.get_subject req) (Exam.subjects d)
              = Some (i, s)
           /\ In c (Exam.chapters s)
           /\ match NotesRead.get_chapterNumber req with
              | None => True
              | Some n => Some (Exam.chapterNumber c) = n
              end
           /\ Exam.quiz c <> []
           /\ q = {| NotesRead.listing_exam := Exam.exam d;
                     NotesRead.listing_subjectName := Exam.name s;
                     NotesRead.listing_chapterNumber := Exam.chapterNumber c;
                     NotesRead.listing_quiz := Exam.quiz c;
                     NotesRead.listing_summary := Exam.summary c |}.
Proof.
  intros Hq Hs. unfold NotesRead.GET.
  rewrite bool_decide_eq_true_2 by exact Hq. rewrite (is_nil_false _ Hs). simpl.
  eexists. split; [reflexivity|].
  intros q. rewrite in_flat_map. split.
  - intros (d & Hd & Hin). apply find_exams_In in Hd as [Hd He].
    unfold NotesRead.quizzes_of in Hin.
    destruct (NotesRoute.find_subject (NotesRead.get_subject req) (Exam.subjects d))
      as [[i s]|] eqn:Hf; [|destruct Hin].
    apply in_map_iff in Hin as (c & <- & Hc).
    apply filter_In in Hc as [Hc Hne]. apply select_chapters_In in Hc as [Hc Hn].
    exists d, i, s, c. repeat split; auto.
    intros E. rewrite E in Hne. discriminate.
  - intros (d & i & s & c & Hd & He & Hf & Hc & Hn & Hne & ->).
    exists d. split; [apply find_exams_In; auto|].
    unfold NotesRead.quizzes_of. rewrite Hf.
    apply in_map_iff. exists c. split; [reflexivity|].
    apply filter_In. split; [apply select_chapters_In; auto|].
    rewrite (is_nil_false _ Hne). reflexivity.
Qed.

Lemma GET_quiz_listing_witness :
  exists l,
    NotesRead.GET ReadScenario.physics_quizzes Scenario.db
    = {| status := 200; message := []; payload := Some (NotesRead.Quizzes l) |}
    /\ forall q,
         In q l <->
         exists d i s c,
           In d (exams Scenario.db)
           /\ (NotesRead.get_exam ReadScenario.physics_quizzes = []
               \/ Exam.exam d = NotesRead.get_exam ReadScenario.physics_quizzes)
           /\ NotesRoute.find_subject (NotesRead.get_subject ReadScenario.physics_quizzes)
                (Exam.subjects d) = Some (i, s)
           /\ In c (Exam.chapters s)
           /\ match NotesRead.get_chapterNumber ReadScenario.physics_quizzes with
              | None => True
              | Some n => Some (Exam.chapterNumber c) = n
              end
           /\ Exam.quiz c <> []
           /\ q = {| NotesRead.listing_exam := Exam.exam d;
                     NotesRead.listing_subjectName := Exam.name s;
                     NotesRead.listing_chapterNumber := Exam.chapterNumber c;
                     NotesRead.listing_quiz := Exam.quiz c;
                     NotesRead.listing_summary := Exam.summary c |}.
Proof.
  apply (GET_quiz_listing ReadScenario.physics_quizzes Scenario.db);
    [reflexivity | discriminate].
Defined.

(** ** Updating a chapter, continued *)

Lemma update_notes_number (env : NotesRoute.Env) (req : NotesRoute.PutRequest)
    (c c1 : Exam.Chapter) :
  NotesRoute.update_notes env req c = Ok c1 ->
  Exam.chapterNumber c1 = Exam.chapterNumber c.
Proof.
  unfold NotesRoute.update_notes.
  destruct (negb (NotesRoute.put_notesFile req)); [intros [= <-]; reflexivity|].
  destruct (NotesRoute.uploadToCloudinary env 0 0) as [[r|]|]; try discriminate.
  destruct (is_nil (NotesRoute.url r) || is_nil (NotesRoute.public_id r));
    [discriminate|].
  intros [= <-]. reflexivity.
Qed.

Lemma update_quiz_number (quizString : jsstring) (c1 c2 : Exam.Chapter) :
  NotesRoute.update_quiz quizString c1 = inl c2 ->
  Exam.chapterNumber c2 = Exam.chapterNumber c1.
Proof.
  unfold NotesRoute.update_quiz.
  destruct (is_nil quizString); [intros [= <-]; reflexivity|].
  destruct (JSON_parse quizString) as [v|e]; simpl; [|discriminate].
  destruct v; try (intros [= <-]; reflexivity).
  destruct (filterM valid_quiz_item l) as [kept|e]; simpl; [|discriminate].
  intros [= <-]. reflexivity.
Qed.

Lemma skeleton_save (docs : list Exam.t) (k i j : nat) (d : Exam.t) (s : Exam.Subject)
    (c c' : Exam.Chapter) :
  docs !! k = Some d -> Exam.subjects d !! i = Some s -> Exam.chapters s !! j = Some c ->
  Exam.chapterNumber c' = Exam.chapterNumber c ->
  Keys.skeleton
    (<[ k := {| Exam.exam := Exam.exam d;
                Exam.subjects :=
                  <[ i := {| Exam.name := Exam.name s;
                             Exam.chapters := <[ j := c' ]> (Exam.chapters s) |} ]>
                    (Exam.subjects d) |} ]> docs)
  = Keys.skeleton docs.
Proof.
  intros Hk Hi Hj Hc. unfold Keys.skeleton, Keys.subject_keys.
  rewrite map_list_insert. simpl. rewrite map_list_insert. simpl.
  rewrite map_list_insert. rewrite Hc.
  rewrite (list_insert_id (List.map Exam.chapterNumber (Exam.chapters s)) j)
    by (apply map_list_lookup; exact Hj).
  rewrite (list_insert_id _ i)
    by (exact (map_list_lookup
                 (fun s0 => (Exam.name s0, List.map Exam.chapterNumber (Exam.chapters s0)))
                 _ _ _ Hi)).
  apply list_insert_id.
  exact (map_list_lookup
           (fun d0 => (Exam.exam d0,
                       List.map (fun s0 => (Exam.name s0,
                                            List.map Exam.chapterNumber (Exam.chapters s0)))
                                (Exam.subjects d0))) _ _ _ Hk).
Qed.

(** X12: whatever the request and the external services do, [PUT] answers
    200, 400, 404 or 500, never touches the activity log, never changes the
    name of an exam or of a subject nor the number or the position of a
    chapter, and leaves the database exactly as it was unless it answers
    200. *)
Theorem PUT_status_and_atomicity (env : NotesRoute.Env) (req : NotesRoute.PutRequest)
    (db : DB) :
  In (status (fst (NotesRoute.PUT env req db))) [200; 400; 404; 500]%Z
  /\ activities (snd (NotesRoute.PUT env req db)) = activities db
  /\ Keys.skeleton (exams (snd (NotesRoute.PUT env req db))) = Keys.skeleton (exams db)
  /\ (status (fst (NotesRoute.PUT env req db)) <> 200%Z ->
      snd (NotesRoute.PUT env req db) = db).
Proof.
  unfold NotesRoute.PUT, NotesRoute.PUT_try.
  destruct (NotesRoute.put_chapterNumber req) as [n|]; simpl;
    [|repeat split; auto; tauto].
  destruct (is_nil (NotesRoute.put_exam req) || is_nil (NotesRoute.put_subject req)); simpl;
    [repeat split; auto; tauto|].
  destruct (NotesRoute.findOne (NotesRoute.put_exam req) (exams db)) as [[k d]|] eqn:Hk;
    simpl; [|repeat split; auto; tauto].
  destruct (NotesRoute.find_subject (NotesRoute.put_subject req) (Exam.subjects d))
    as [[i s]|] eqn:Hi; simpl; [|repeat split; auto; tauto].
  destruct (NotesRoute.find_chapter n (Exam.chapters s)) as [[j c]|] eqn:Hj;
    simpl; [|repeat split; auto; tauto].
  destruct (NotesRoute.update_notes env req c) as [c1|e] eqn:H1; simpl;
    [|repeat split; auto; tauto].
  destruct (NotesRoute.update_quiz (NotesRoute.put_quiz req) c1) as [c2|bad] eqn:H2; simpl.
  - repeat split; auto; try congruence.
    apply list_find_Some in Hk as (Hk & _). apply list_find_Some in Hi as (Hi & _).
    apply list_find_Some in Hj as (Hj & _).
    apply (skeleton_save _ _ _ _ _ _ c c2 Hk Hi Hj).
    rewrite (update_quiz_number _ _ _ H2). exact (update_notes_number _ _ _ _ H1).
  - unfold NotesRoute.update_quiz in H2.
    destruct (is_nil (NotesRoute.put_quiz req)); [discriminate|].
    destruct (bind (JSON_parse (NotesRoute.put_quiz req)) _); [discriminate|].
    injection H2 as <-. simpl. repeat split; auto; tauto.
Qed.




(** ** Deleting a chapter, continued *)

Lemma filter_sublist {A} (p : A -> bool) (l : list A) : List.filter p l `sublist_of` l.
Proof.
  induction l as [|x r IH]; simpl; [constructor|].
  destruct (p x); [apply sublist_skip | apply sublist_cons]; exact IH.
Qed.

(** X14: whatever the request, the external services and the store do,
    [DELETE] answers 200, 400, 404 or 500. The exam documents are changed
    only under the answer 200, and the list of exam names never changes.
    Under the answers 400 and 404 the whole database is as it was. The
    activity log afterwards holds a selection of the records it held, in
    their order; records are missing only when their deletion succeeded,
    which the answer 200 follows or, when the save then fails, the answer
    500: in that case the chapter is still stored and its records are
    gone. *)
Theorem DELETE_status_and_atomicity (env : NotesRoute.Env) (saved : outcome unit)
    (req : Json NotesRoute.DeleteRequest) (db : DB) :
  In (status (fst (NotesRoute.DELETE env saved req db))) [200; 400; 404; 500]%Z
  /\ (status (fst (NotesRoute.DELETE env saved req db)) <> 200%Z ->
      exams (snd (NotesRoute.DELETE env saved req db)) = exams db)
  /\ (status (fst (NotesRoute.DELETE env saved req db)) = 400%Z
      \/ status (fst (NotesRoute.DELETE env saved req db)) = 404%Z ->
      snd (NotesRoute.DELETE env saved req db) = db)
  /\ List.map Exam.exam (exams (snd (NotesRoute.DELETE env saved req db)))
     = List.map Exam.exam (exams db)
  /\ activities (snd (NotesRoute.DELETE env saved req db)) `sublist_of` activities db
  /\ (activities (snd (NotesRoute.DELETE env saved req db)) <> activities db ->
      NotesRoute.deleteMany env <> Rejected
      /\ (status (fst (NotesRoute.DELETE env saved req db)) = 200%Z
          \/ (status (fst (NotesRoute.DELETE env saved req db)) = 500%Z
              /\ saved = Rejected))).
Proof.
  assert (Hsame : forall (p : Response unit * DB),
            snd p = db ->
            In (status (fst p)) [400; 404; 500]%Z ->
            In (status (fst p)) [200; 400; 404; 500]%Z
            /\ (status (fst p) <> 200%Z -> exams (snd p) = exams db)
            /\ (status (fst p) = 400%Z \/ status (fst p) = 404%Z -> snd p = db)
            /\ List.map Exam.exam (exams (snd p)) = List.map Exam.exam (exams db)
            /\ activities (snd p) `sublist_of` activities db
            /\ (activities (snd p) <> activities db ->
                NotesRoute.deleteMany env <> Rejected
                /\ (status (fst p) = 200%Z
                    \/ (status (fst p) = 500%Z /\ saved = Rejected)))).
  { intros p -> Hr. split; [simpl in *; tauto|]. repeat split; auto; congruence. }
  unfold NotesRoute.DELETE.
  destruct req as [|body]; [apply Hsame; [reflexivity | simpl; tauto]|].
  destruct (NotesRoute.Number (NotesRoute.del_chapterNumber body)) as [n|];
    [|apply Hsame; [reflexivity | simpl; tauto]].
  destruct (is_nil (NotesRoute.del_exam body) || is_nil (NotesRoute.del_subject body));
    [apply Hsame; [reflexivity | simpl; tauto]|].
  destruct (NotesRoute.findOne (NotesRoute.del_exam body) (exams db)) as [[k d]|] eqn:Hk;
    [|apply Hsame; [reflexivity | simpl; tauto]].
  destruct (NotesRoute.find_subject (NotesRoute.del_subject body) (Exam.subjects d))
    as [[i s]|] eqn:Hi; [|apply Hsame; [reflexivity | simpl; tauto]].
  destruct (NotesRoute.find_chapter n (Exam.chapters s)) as [[j c]|] eqn:Hj;
    [|apply Hsame; [reflexivity | simpl; tauto]].
  assert (Hsub : match NotesRoute.deleteMany env with
                 | Resolved _ =>
                     NotesRoute.after_deleteMany (NotesRoute.del_exam body)
                       (NotesRoute.del_subject body) (NotesRoute.del_chapterNumber body)
                       (activities db)
                 | Rejected => activities db
                 end `sublist_of` activities db).
  { destruct (NotesRoute.deleteMany env); [|reflexivity].
    unfold NotesRoute.after_deleteMany.
    destruct (NotesRoute.del_chapterNumber body); try reflexivity.
    apply filter_sublist. }
  assert (Hchanged : match NotesRoute.deleteMany env with
                     | Resolved _ =>
                         NotesRoute.after_deleteMany (NotesRoute.del_exam body)
                           (NotesRoute.del_subject body) (NotesRoute.del_chapterNumber body)
                           (activities db)
                     | Rejected => activities db
                     end <> activities db ->
                     NotesRoute.deleteMany env <> Rejected).
  { intros Hne Hrej. rewrite Hrej in Hne. congruence. }
  destruct saved as [u|]; simpl.
  - split; [tauto|]. split; [congruence|]. split; [intros [?|?]; discriminate|].
    split.
    + rewrite map_list_insert. simpl. apply list_insert_id.
      apply list_find_Some in Hk as (Hk & _). apply map_list_lookup. exact Hk.
    + split; [exact Hsub|]. intros Hne. split; [exact (Hchanged Hne) | left; reflexivity].
  - split; [tauto|]. split; [reflexivity|]. split; [intros [?|?]; discriminate|].
    split; [reflexivity|]. split; [exact Hsub|].
    intros Hne. split; [exact (Hchanged Hne) | right; split; reflexivity].
Qed.

Lemma list_find_insert_same {A} (P : A -> Prop) `{!forall x, Decision (P x)}
    (l : list A) (k : nat) (x y : A) :
  list_find P l = Some (k, x) -> P y -> list_find P (<[ k := y ]> l) = Some (k, y).
Proof.
  intros Hfind Hy. apply list_find_Some in Hfind as (Hk & _ & Hfirst).
  apply list_find_Some. split; [|split; [exact Hy|]].
  - apply list_lookup_insert_eq. eapply lookup_lt_Some; exact Hk.
  - intros k' z Hz Hlt. rewrite list_lookup_insert_ne in Hz by lia. eauto.
Qed.

Lemma find_chapter_deleted (n : Z) (chs : list Exam.Chapter) (j : nat) (c : Exam.Chapter) :
  NotesRoute.find_chapter n chs = Some (j, c) ->
  NoDup (List.map Exam.chapterNumber chs) ->
  NotesRoute.find_chapter n (delete j chs) = None.
Proof.
  intros H Hnd. unfold NotesRoute.find_chapter in *.
  apply list_find_Some in H as (Hj & Hc & _).
  apply list_find_None. apply Forall_lookup. intros j' c' Hj' Hc'.
  rewrite list_lookup_delete in Hj'.
  assert (Hsame : (if decide (j' < j)%nat then j' else S j') = j).
  { eapply (NoDup_lookup _ _ _ n Hnd).
    - erewrite map_list_lookup by exact Hj'. congruence.
    - erewrite map_list_lookup by exact Hj. congruence. }
  destruct (decide (j' < j)%nat); lia.
Qed.

(** X15: when the chapter numbers of the subject are unique, a chapter
    that was deleted is gone: the same request, sent again after a
    successful deletion, is answered by 404 and changes nothing, whatever
    the external services and the store then do. The first deletion is
    successful when its save is. *)
Theorem DELETE_twice (env env' : NotesRoute.Env) (saved saved' : outcome unit)
    (req : NotesRoute.DeleteRequest)
    (db : DB) (n : Z) (k i j : nat) (d : Exam.t) (s : Exam.Subject) (c : Exam.Chapter) :
  NotesRoute.Number (NotesRoute.del_chapterNumber req) = Some n ->
  NotesRoute.del_exam req <> [] ->
  NotesRoute.del_subject req <> [] ->
  Located.locate (NotesRoute.del_exam req) (NotesRoute.del_subject req) n (exams db)
  = Some (k, d, (i, s), (j, c)) ->
  Keys.unique_chapters s ->
  (saved = Resolved tt ->
   status (fst (NotesRoute.DELETE env saved (Fields req) db)) = 200%Z)
  /\ (status (fst (NotesRoute.DELETE env saved (Fields req) db)) = 200%Z ->
      status (fst (NotesRoute.DELETE env' saved' (Fields req)
                     (snd (NotesRoute.DELETE env saved (Fields req) db)))) = 404%Z
      /\ snd (NotesRoute.DELETE env' saved' (Fields req)
                (snd (NotesRoute.DELETE env saved (Fields req) db)))
         = snd (NotesRoute.DELETE env saved (Fields req) db)).
Proof.
  intros Hn He Hs Hloc Hu.
  rewrite (DELETE_located env saved req db n k i j d s c Hn He Hs Hloc).
  split; [intros ->; reflexivity|].
  destruct saved as [u|]; [|discriminate]. intros _.
  apply DELETE_not_located with (n := n); try assumption.
  unfold Located.locate in *. simpl.
  destruct (NotesRoute.findOne (NotesRoute.del_exam req) (exams db)) as [[k0 d0]|] eqn:Hk;
    [|discriminate].
  destruct (NotesRoute.find_subject (NotesRoute.del_subject req) (Exam.subjects d0))
    as [[i0 s0]|] eqn:Hi; [|discriminate].
  destruct (NotesRoute.find_chapter n (Exam.chapters s0)) as [[j0 c0]|] eqn:Hj;
    [|discriminate].
  injection Hloc as -> -> -> -> -> ->.
  assert (Hk' := Hk). assert (Hi' := Hi).
  apply list_find_Some in Hk' as (_ & Hek & _).
  apply list_find_Some in Hi' as (_ & Hni & _).
  unfold NotesRoute.findOne in *.
  rewrite (list_find_insert_same _ _ _ _ _ Hk) by exact Hek. simpl.
  unfold NotesRoute.find_subject in *.
  rewrite (list_find_insert_same _ _ _ _ _ Hi) by exact Hni. simpl.
  rewrite (find_chapter_deleted n _ j c Hj Hu). reflexivity.
Qed.

Lemma DELETE_twice_witness :
  status (fst (NotesRoute.DELETE PostScenario.uploads_only Rejected
                 (Fields ReadScenario.delete_chapter1)
                 (snd (NotesRoute.DELETE Scenario.offline (Resolved tt)
                         (Fields ReadScenario.delete_chapter1) Scenario.db)))) = 404%Z
  /\ snd (NotesRoute.DELETE PostScenario.uploads_only Rejected
            (Fields ReadScenario.delete_chapter1)
            (snd (NotesRoute.DELETE Scenario.offline (Resolved tt)
                    (Fields ReadScenario.delete_chapter1) Scenario.db)))
     = snd (NotesRoute.DELETE Scenario.offline (Resolved tt)
              (Fields ReadScenario.delete_chapter1) Scenario.db).
Proof.
  refine (proj2 (DELETE_twice Scenario.offline PostScenario.uploads_only
                   (Resolved tt) Rejected
                   ReadScenario.delete_chapter1 Scenario.db 1%Z 0 0 0 Scenario.gate
                   {| Exam.name := str "Physics";
                      Exam.chapters := [Scenario.chapter1; Scenario.chapter2] |}
                   Scenario.chapter1 eq_refl ltac:(discriminate) ltac:(discriminate)
                   ltac:(vm_compute; reflexivity) _) _).
  - unfold Keys.unique_chapters. apply (bool_decide_unpack _). vm_compute. exact I.
  - vm_compute. reflexivity.
Defined.

(** ** The activity log, continued *)

(** X16: appending is append-only and can be read back. Every record
    already stored is kept, in place, by any [POST], whatever its body and
    whether the store keeps or refuses the new record; and after a [POST]
    answered by 201, the record it returns is found both in the list the
    query returns for its user and in the list it returns for an
    administrator, with the user, the scope, the kind and the time stamp
    of the request. *)
Theorem POST_activity_then_GET (created : outcome unit) (now : Z)
    (req : Json ActivityRoute.Body) (db : list StudentActivity.t) :
  db `prefix_of` snd (ActivityRoute.POST created now req db)
  /\ (status (fst (ActivityRoute.POST created now req db)) = 201%Z ->
      exists body a,
        req = Fields body
        /\ payload (fst (ActivityRoute.POST created now req db)) = Some a
        /\ StudentActivity.userId a = ActivityRoute.userId body
        /\ StudentActivity.exam a = ActivityRoute.exam body
        /\ StudentActivity.subject a = ActivityRoute.subject body
        /\ Some (StudentActivity.chapterNumber a) = ActivityRoute.chapterNumber body
        /\ StudentActivity.activityType a = ActivityRoute.activityType body
        /\ StudentActivity.timestamp a = now
        /\ (forall isAdminParam, exists l,
              payload (ActivityRoute.GET (Some (ActivityRoute.userId body)) isAdminParam
                         (snd (ActivityRoute.POST created now req db))) = Some l
              /\ In a l)).
Proof.
  unfold ActivityRoute.POST.
  destruct req as [|body]; simpl; [split; [reflexivity|discriminate]|].
  destruct (ActivityRoute.chapterNumber body) as [n|] eqn:Hn; simpl;
    [|split; [reflexivity|discriminate]].
  destruct (is_nil (ActivityRoute.userId body)) eqn:Hu; simpl;
    [split; [reflexivity|discriminate]|].
  destruct (is_nil (ActivityRoute.userName body) || is_nil (ActivityRoute.exam body)
            || is_nil (ActivityRoute.subject body)
            || is_nil (ActivityRoute.activityType body));
    simpl; [split; [reflexivity|discriminate]|].
  destruct (negb (bool_decide (ActivityRoute.activityType body ∈ ActivityRoute.activity_types)));
    simpl; [split; [reflexivity|discriminate]|].
  destruct created as [u|]; simpl; [|split; [reflexivity|discriminate]].
  split; [apply prefix_app_r; reflexivity|].
  intros _. exists body. eexists. split; [reflexivity|]. split; [reflexivity|]. simpl.
  rewrite Hn. repeat split.
  intros isAdminParam. unfold ActivityRoute.GET. rewrite Hu. simpl.
  rewrite andb_false_r. eexists. split; [reflexivity|].
  match goal with
  | |- In ?a (ActivityRoute.find_sorted ?q ?l) =>
      destruct (find_sorted_spec q l) as [Hperm _];
      apply (Permutation_in a (Permutation_sym Hperm))
  end.
  apply filter_In. split; [apply in_or_app; right; left; reflexivity|].
  destruct (bool_decide (isAdminParam = Some (str "true"))); simpl;
    [reflexivity | apply bool_decide_eq_true; reflexivity].
Qed.

Lemma POST_activity_then_GET_witness :
  exists body a,
    Fields LogScenario.full_submission = Fields body
    /\ payload (fst (ActivityRoute.POST (Resolved tt) 100
                      (Fields LogScenario.full_submission) [])) = Some a
    /\ StudentActivity.userId a = ActivityRoute.userId body
    /\ StudentActivity.exam a = ActivityRoute.exam body
    /\ StudentActivity.subject a = ActivityRoute.subject body
    /\ Some (StudentActivity.chapterNumber a) = ActivityRoute.chapterNumber body
    /\ StudentActivity.activityType a = ActivityRoute.activityType body
    /\ StudentActivity.timestamp a = 100%Z
    /\ (forall isAdminParam, exists l,
          payload (ActivityRoute.GET (Some (ActivityRoute.userId body)) isAdminParam
                     (snd (ActivityRoute.POST (Resolved tt) 100
                             (Fields LogScenario.full_submission) [])))
          = Some l
          /\ In a l).
Proof.
  apply (proj2 (POST_activity_then_GET (Resolved tt) 100
                  (Fields LogScenario.full_submission) [])).
  reflexivity.
Defined.

(** ** The pages: scoring and logging *)

Lemma filter_seq_count (ua : gmap jsstring jsstring) (l : list Courses.Question) :
  Courses.reduce
    (fun acc question index =>
       if Courses.answered ua (Courses.toString index) (Courses.answer question)
       then (acc + 1)%Z else acc) l 0%Z
  = Z.of_nat (length (List.filter
      (fun i => match l !! i with
                | Some q => Courses.answered ua (Courses.toString i) (Courses.answer q)
                | None => false
                end) (seq 0 (length l)))).
Proof.
  unfold Courses.reduce. rewrite reduce_from_score, Z.add_0_l.
  do 2 f_equal. apply filter_ext. intros i. rewrite Nat.sub_0_r. reflexivity.
Qed.

Lemma filter_length_all {A} (p : A -> bool) (l : list A) :
  length (List.filter p l) = length l <-> forall x, In x l -> p x = true.
Proof.
  induction l as [|x r IH]; simpl; [tauto|].
  pose proof (filter_length_le p r) as Hle.
  destruct (p x) eqn:Hx; simpl.
  - split.
    + intros H y [<-|Hy]; [exact Hx|]. apply IH; [lia|exact Hy].
    + intros H. f_equal. apply IH. auto.
  - split; [lia|]. intros H. rewrite (H x) in Hx by auto. discriminate.
Qed.

(** X17: the score lies between 0 and the number of questions, and is the
    number of questions exactly when every question is answered
    correctly; answers recorded under keys that are not indices of the
    quiz play no role: two states with the same quiz whose answers agree
    on the indices of the quiz have the same score. *)
Theorem score_bounds (st : Courses.State) :
  (0 <= Courses.score st <= Z.of_nat (length (Courses.quiz st)))%Z
  /\ (Courses.score st = Z.of_nat (length (Courses.quiz st)) <->
      forall i, (i < length (Courses.quiz st))%nat -> CoursesEdit.correct st i = true)
  /\ (forall st',
        Courses.quiz st' = Courses.quiz st ->
        (forall i, (i < length (Courses.quiz st))%nat ->
                   Courses.userAnswers st' !! Courses.toString i
                   = Courses.userAnswers st !! Courses.toString i) ->
        Courses.score st' = Courses.score st).
Proof.
  split; [|split].
  - unfold Courses.score. rewrite filter_seq_count.
    match goal with
    | |- context [List.filter ?p ?l] => pose proof (filter_length_le p l) as Hle
    end.
    rewrite length_seq in Hle. lia.
  - unfold Courses.score. rewrite filter_seq_count.
    match goal with
    | |- context [List.filter ?p ?l] => pose proof (filter_length_all p l) as Hall
    end.
    rewrite length_seq in Hall. split.
    + intros H i Hi. apply Nat2Z.inj in H. apply (proj1 Hall H).
      apply in_seq. lia.
    + intros H. f_equal. apply (proj2 Hall). intros i Hi. apply in_seq in Hi.
      apply H. lia.
  - intros st' Hq Hagree. unfold Courses.score. rewrite !filter_seq_count, Hq.
    do 2 f_equal. apply filter_ext_in. intros i Hi. apply in_seq in Hi.
    destruct (Courses.quiz st !! i) as [q|]; [|reflexivity].
    unfold Courses.answered. rewrite (Hagree i) by lia. reflexivity.
Qed.

Lemma ascii_codes_inj (a b : list ascii) :
  List.map N_of_ascii a = List.map N_of_ascii b -> a = b.
Proof.
  revert b. induction a as [|x r IH]; intros [|y s]; simpl; try discriminate;
    [reflexivity|].
  intros [= Hx Hr]. f_equal; [|apply IH; exact Hr].
  rewrite <- (ascii_N_embedding x), <- (ascii_N_embedding y), Hx. reflexivity.
Qed.

Lemma to_uint_nonnil (n : nat) : Nat.to_uint n <> Decimal.Nil.
Proof.
  intros H. pose proof (DecimalNat.Unsigned.to_of (Nat.to_uint n)) as E.
  rewrite DecimalNat.Unsigned.of_to, H in E. discriminate.
Qed.

(** Distinct indices have distinct keys. *)
Lemma toString_inj (i j : nat) : Courses.toString i = Courses.toString j -> i = j.
Proof.
  unfold Courses.toString, str. intros H. apply ascii_codes_inj in H.
  assert (Hs : NilZero.string_of_uint (Nat.to_uint i)
               = NilZero.string_of_uint (Nat.to_uint j)).
  { rewrite <- (string_of_list_ascii_of_string (NilZero.string_of_uint (Nat.to_uint i))),
            <- (string_of_list_ascii_of_string (NilZero.string_of_uint (Nat.to_uint j))), H.
    reflexivity. }
  assert (Hu : Nat.to_uint i = Nat.to_uint j).
  { pose proof (NilZero.usu (Nat.to_uint i) (to_uint_nonnil i)) as Hi.
    pose proof (NilZero.usu (Nat.to_uint j) (to_uint_nonnil j)) as Hj.
    rewrite Hs in Hi. congruence. }
  rewrite <- (DecimalNat.Unsigned.of_to i), <- (DecimalNat.Unsigned.of_to j), Hu.
  reflexivity.
Qed.

Lemma filter_count_change {A} (p p' : A -> bool) (l : list A) (i : A) :
  NoDup l -> In i l ->
  (forall x, In x l -> x <> i -> p' x = p x) ->
  Z.of_nat (length (List.filter p' l))
  = (Z.of_nat (length (List.filter p l)) - Z.b2z (p i) + Z.b2z (p' i))%Z.
Proof.
  induction 1 as [|x r Hx Hr IH]; [intros []|].
  intros [-> | Hin] Hext; simpl.
  - assert (E : List.filter p' r = List.filter p r).
    { apply filter_ext_in. intros y Hy. apply Hext; [right; exact Hy|].
      intros ->. apply Hx. apply list_elem_of_In. exact Hy. }
    rewrite E. destruct (p i), (p' i); simpl length; simpl Z.b2z; lia.
  - assert (Hne : x <> i).
    { intros ->. apply Hx. apply list_elem_of_In. exact Hin. }
    rewrite (Hext x (or_introl eq_refl) Hne).
    specialize (IH Hin (fun y Hy => Hext y (or_intror Hy))).
    destruct (p x); simpl length; lia.
Qed.

(** X18: recording an answer for question [i] changes the score by that
    question alone: the new score is the old one, minus one if the
    question was answered correctly before, plus one if the new answer is
    the right one. The other questions keep their answers. *)
Theorem handleAnswerChange_score (st : Courses.State) (i : nat) (a : jsstring)
    (q : Courses.Question) :
  Courses.quiz st !! i = Some q ->
  Courses.score (CoursesEdit.handleAnswerChange (Courses.toString i) a st)
  = (Courses.score st - Z.b2z (CoursesEdit.correct st i)
     + Z.b2z (bool_decide (a = Courses.answer q)))%Z.
Proof.
  intros Hq. unfold Courses.score. rewrite !filter_seq_count. simpl.
  match goal with
  | |- Z.of_nat (length (List.filter ?p' ?l)) = (Z.of_nat (length (List.filter ?p ?l)) - _ + _)%Z =>
      rewrite (filter_count_change p p' l i)
  end.
  - unfold CoursesEdit.correct. rewrite Hq. unfold Courses.answered.
    rewrite lookup_insert_eq.
    replace (bool_decide (Some a = Some (Courses.answer q)))
      with (bool_decide (a = Courses.answer q))
      by (apply bool_decide_ext; split; congruence).
    reflexivity.
  - apply NoDup_ListNoDup, seq_NoDup.
  - apply in_seq. apply lookup_lt_Some in Hq. lia.
  - intros x _ Hx. destruct (Courses.quiz st !! x) as [qx|]; [|reflexivity].
    unfold Courses.answered. rewrite lookup_insert_ne; [reflexivity|].
    intros E. apply toString_inj in E. congruence.
Qed.

Lemma handleAnswerChange_score_witness :
  Courses.score (CoursesEdit.handleAnswerChange (Courses.toString 1) (str "Madrid") capitals)
  = (Courses.score capitals - Z.b2z (CoursesEdit.correct capitals 1)
     + Z.b2z (bool_decide (str "Madrid" = str "Madrid")))%Z.
Proof.
  apply (handleAnswerChange_score capitals 1 (str "Madrid")
           {| Courses.question := str "Capital of Spain?";
              Courses.options := [str "Berlin"; str "Madrid"];
              Courses.answer := str "Madrid" |}).
  reflexivity.
Defined.

Lemma digit_codes (d : Decimal.uint) :
  Forall (fun c => 48 <= c <= 57) (str (NilEmpty.string_of_uint d)).
Proof.
  induction d; simpl; constructor; try assumption; simpl; lia.
Qed.

Lemma digits_fold_uint (d : Decimal.uint) (a : N) :
  fold_left (fun acc c => acc * 10 + (c - 48)) (str (NilEmpty.string_of_uint d)) a
  = N.of_nat (Nat.of_uint_acc d (N.to_nat a)).
Proof.
  revert a. induction d; intros a; simpl;
    try (rewrite IHd; f_equal; f_equal; rewrite Nat.tail_mul_spec; lia).
  lia.
Qed.

Lemma digits_prefix_digits (s : jsstring) (a : N) :
  Forall (fun c => 48 <= c <= 57) s ->
  ExamPage.digits_prefix 10 s (Some a)
  = Some (fold_left (fun acc c => acc * 10 + (c - 48)) s a).
Proof.
  intros H. revert a. induction H as [|c r Hc _ IH]; intros a; simpl; [reflexivity|].
  unfold ExamPage.hex_digit, hex_val, is_digit.
  replace (48 <=? c) with true by (symmetry; apply N.leb_le; lia).
  replace (c <=? 57) with true by (symmetry; apply N.leb_le; lia).
  simpl. replace (c - 48 <? 10) with true by (symmetry; apply N.ltb_lt; lia).
  apply IH.
Qed.

Lemma digit_not_space (c : N) : 48 <= c <= 57 -> is_js_space c = false.
Proof.
  intros H. unfold is_js_space.
  repeat match goal with
         | |- context [N.eqb c ?k] => rewrite (proj2 (N.eqb_neq c k)) by lia
         end.
  rewrite (proj2 (N.leb_gt 8192 c)) by lia. reflexivity.
Qed.

Lemma parseInt_digits (c : N) (r : jsstring) :
  Forall (fun c => 48 <= c <= 57) (c :: r) ->
  ExamPage.parseInt (c :: r)
  = Some (Z.of_N (fold_left (fun acc c => acc * 10 + (c - 48)) (c :: r) 0)).
Proof.
  intros H. inversion H as [|? ? Hc Hr]; subst.
  unfold ExamPage.parseInt. simpl trim_start. rewrite (digit_not_space c Hc).
  rewrite (proj2 (N.eqb_neq c 45)) by lia. rewrite (proj2 (N.eqb_neq c 43)) by lia.
  cbv beta iota.
  assert (Hfirst : forall s3,
    ExamPage.digits_prefix 10 (c :: s3) None
    = ExamPage.digits_prefix 10 s3 (Some (c - 48))).
  { intros s3. simpl. unfold ExamPage.hex_digit, hex_val, is_digit.
    replace (48 <=? c) with true by (symmetry; apply N.leb_le; lia).
    replace (c <=? 57) with true by (symmetry; apply N.leb_le; lia).
    simpl. replace (c - 48 <? 10) with true by (symmetry; apply N.ltb_lt; lia).
    reflexivity. }
  destruct r as [|x r0].
  - cbv beta iota. rewrite Hfirst. reflexivity.
  - inversion Hr as [|? ? Hx _]; subst.
    rewrite (proj2 (N.eqb_neq x 120)) by lia. rewrite (proj2 (N.eqb_neq x 88)) by lia.
    rewrite andb_false_r. cbv beta iota.
    rewrite Hfirst, (digits_prefix_digits (x :: r0) _ Hr). reflexivity.
Qed.

(** Reading back the decimal text of a number gives the number:
    [parseInt(n.toString())] is [n] for every natural number [n]; the
    empty text, and a text that starts with a character that is neither
    white space, a sign nor a digit or letter a to f, is not a number. *)
Theorem parseInt_toString (n : nat) :
  ExamPage.parseInt (Courses.toString n) = Some (Z.of_nat n)
  /\ ExamPage.parseInt [] = None
  /\ (forall c r, hex_val c = None -> c <> 45 -> c <> 43 -> is_js_space c = false ->
                  ExamPage.parseInt (c :: r) = None).
Proof.
  split; [|split; [reflexivity|]].
  - unfold Courses.toString.
    pose proof (to_uint_nonnil n) as Hn.
    pose proof (digit_codes (Nat.to_uint n)) as Hd.
    pose proof (digits_fold_uint (Nat.to_uint n) 0) as Hf.
    assert (Hs : NilZero.string_of_uint (Nat.to_uint n)
                 = NilEmpty.string_of_uint (Nat.to_uint n))
      by (destruct (Nat.to_uint n); [congruence | reflexivity ..]).
    rewrite Hs.
    destruct (str (NilEmpty.string_of_uint (Nat.to_uint n))) as [|c r] eqn:E.
    { destruct (Nat.to_uint n); [congruence | discriminate ..]. }
    rewrite (parseInt_digits c r Hd), Hf.
    change (Nat.of_uint_acc (Nat.to_uint n) (N.to_nat 0))
      with (Nat.of_uint (Nat.to_uint n)).
    rewrite DecimalNat.Unsigned.of_to. f_equal. lia.
  - intros c r Hh H45 H43 Hsp. unfold ExamPage.parseInt. simpl trim_start. rewrite Hsp.
    rewrite (proj2 (N.eqb_neq c 45)) by exact H45.
    rewrite (proj2 (N.eqb_neq c 43)) by exact H43.
    assert (H48 : c <> 48) by (intros ->; discriminate).
    destruct r as [|x r0]; simpl; unfold ExamPage.hex_digit; rewrite ?Hh; try reflexivity.
    rewrite (proj2 (N.eqb_neq c 48)) by exact H48. simpl.
    unfold ExamPage.hex_digit. rewrite Hh. reflexivity.
Qed.

Lemma parseInt_toString_witness : ExamPage.parseInt (str "x12") = None.
Proof.
  apply (proj2 (proj2 (parseInt_toString 0)) 120 (str "12"));
    [reflexivity | discriminate | discriminate | reflexivity].
Defined.

Lemma userName_nonempty (st : ExamPage.State) : is_nil (ExamPage.userName st) = false.
Proof. unfold ExamPage.userName. destruct (ExamPage.fullName st) as [[|c n]|]; reflexivity. Qed.

Lemma selection_Some (st : ExamPage.State) (u : jsstring) (n : Z) :
  ExamPage.selection st = Some (u, n) ->
  ExamPage.userId st = Some u /\ is_nil u = false
  /\ is_nil (ExamPage.selectedExam st) = false
  /\ is_nil (ExamPage.selectedSubject st) = false
  /\ ExamPage.parseInt (ExamPage.selectedChapter st) = Some n.
Proof.
  unfold ExamPage.selection.
  destruct (ExamPage.userId st) as [[|c u0]|]; try discriminate.
  destruct (is_nil (ExamPage.selectedExam st)); [discriminate|].
  destruct (is_nil (ExamPage.selectedSubject st)); [discriminate|].
  destruct (is_nil (ExamPage.selectedChapter st)); [discriminate|]. simpl.
  destruct (ExamPage.parseInt (ExamPage.selectedChapter st)) as [m|]; [|discriminate].
  intros [= <- <-]. auto.
Qed.

(** X20: for a chosen chapter that reads as a safe integer, no request the
    exam page sends to the activity log is turned down: the answer is 201
    and the record is stored when the store keeps it, and 500 with nothing
    stored when the store refuses it, never 400. A quiz submission is
    stored with kind [quiz_submission] and a result whose score is between
    0 and the total, the total being the number of questions; a notes
    access is stored with kind [notes_access] and no result; both under the
    signed-in user, the chosen exam and subject, and the chapter number read
    from the chosen chapter. When nobody is signed in, or the exam,
    subject or chapter is not chosen, or the chapter is not a number,
    nothing is sent and submitting leaves the page state as it is. *)
Theorem ExamPage_requests_accepted (st : ExamPage.State) (created : outcome unit)
    (now : Z) (db : list StudentActivity.t) :
  safe_chapter st ->
  (forall body,
     ExamPage.submission st = Some body ->
     exists a,
       ActivityRoute.POST created now (Fields body) db
       = match created with
         | Resolved _ => (respond_with 201 "Activity logged successfully" a, db ++ [a])
         | Rejected => (respond 500 "Error logging activity", db)
         end
       /\ Some (StudentActivity.userId a) = ExamPage.userId st
       /\ StudentActivity.exam a = ExamPage.selectedExam st
       /\ StudentActivity.subject a = ExamPage.selectedSubject st
       /\ Some (StudentActivity.chapterNumber a)
          = ExamPage.parseInt (ExamPage.selectedChapter st)
       /\ (Z.abs (StudentActivity.chapterNumber a) <= MAX_SAFE_INTEGER)%Z
       /\ StudentActivity.activityType a = str "quiz_submission"
       /\ exists r,
            StudentActivity.quizResult a = Some r
            /\ StudentActivity.totalQuestions r = Z.of_nat (length (ExamPage.quiz st))
            /\ (0 <= StudentActivity.score r <= StudentActivity.totalQuestions r)%Z
            /\ StudentActivity.answers r = ExamPage.userAnswers st)
  /\ (forall body,
        ExamPage.logNotesAccess st = Some body ->
        exists a,
          ActivityRoute.POST created now (Fields body) db
          = match created with
            | Resolved _ => (respond_with 201 "Activity logged successfully" a, db ++ [a])
            | Rejected => (respond 500 "Error logging activity", db)
            end
          /\ Some (StudentActivity.userId a) = ExamPage.userId st
          /\ StudentActivity.exam a = ExamPage.selectedExam st
          /\ StudentActivity.subject a = ExamPage.selectedSubject st
          /\ Some (StudentActivity.chapterNumber a)
             = ExamPage.parseInt (ExamPage.selectedChapter st)
          /\ (Z.abs (StudentActivity.chapterNumber a) <= MAX_SAFE_INTEGER)%Z
          /\ StudentActivity.activityType a = str "notes_access"
          /\ StudentActivity.quizResult a = None)
  /\ (ExamPage.selection st = None ->
      ExamPage.submission st = None /\ ExamPage.logNotesAccess st = None
      /\ forall ok, ExamPage.handleSubmitQuiz ok st = st).
Proof.
  intros Hsafe. split; [|split].
  - intros body. unfold ExamPage.submission.
    destruct (ExamPage.selection st) as [[u n]|] eqn:Hsel; [|discriminate].
    apply selection_Some in Hsel as (Hu & Hun & He & Hs & Hn).
    intros [= <-]. unfold ActivityRoute.POST. simpl.
    rewrite Hun, (userName_nonempty st), He, Hs. simpl.
    eexists. split; [destruct created; reflexivity|]. simpl. rewrite Hu, Hn.
    repeat split; [exact (Hsafe n Hn) .. |].
    eexists. split; [reflexivity|]. simpl. repeat split.
    + unfold ExamPage.score. rewrite filter_seq_count. lia.
    + unfold ExamPage.score. rewrite filter_seq_count.
      match goal with
      | |- context [List.filter ?p ?l] => pose proof (filter_length_le p l) as Hle
      end.
      rewrite length_seq in Hle. lia.
  - intros body. unfold ExamPage.logNotesAccess.
    destruct (ExamPage.selection st) as [[u n]|] eqn:Hsel; [|discriminate].
    apply selection_Some in Hsel as (Hu & Hun & He & Hs & Hn).
    intros [= <-]. unfold ActivityRoute.POST. simpl.
    rewrite Hun, (userName_nonempty st), He, Hs. simpl.
    eexists. split; [destruct created; reflexivity|]. simpl. rewrite Hu, Hn.
    repeat split; exact (Hsafe n Hn).
  - intros Hsel. unfold ExamPage.submission, ExamPage.logNotesAccess,
      ExamPage.handleSubmitQuiz, ExamPage.submission. rewrite Hsel. auto.
Qed.

Lemma ExamPage_requests_accepted_witness :
  exists a,
    ActivityRoute.POST (Resolved tt) 100
      (Fields {| ActivityRoute.userId := str "u1";
                 ActivityRoute.userName := str "Unknown User";
                 ActivityRoute.exam := str "GATE";
                 ActivityRoute.subject := str "Physics";
                 ActivityRoute.chapterNumber := Some 2%Z;
                 ActivityRoute.activityType := str "notes_access";
                 ActivityRoute.quizResult := None |}) []
    = (respond_with 201 "Activity logged successfully" a, [] ++ [a])
    /\ Some (StudentActivity.userId a) = ExamPage.userId PageScenario.ready
    /\ StudentActivity.exam a = ExamPage.selectedExam PageScenario.ready
    /\ StudentActivity.subject a = ExamPage.selectedSubject PageScenario.ready
    /\ Some (StudentActivity.chapterNumber a)
       = ExamPage.parseInt (ExamPage.selectedChapter PageScenario.ready)
    /\ (Z.abs (StudentActivity.chapterNumber a) <= MAX_SAFE_INTEGER)%Z
    /\ StudentActivity.activityType a = str "notes_access"
    /\ StudentActivity.quizResult a = None.
Proof.
  refine (proj1 (proj2 (ExamPage_requests_accepted PageScenario.ready (Resolved tt) 100 []
                          _)) _ _).
  - intros z Hz. vm_compute in Hz. injection Hz as <-. vm_compute. discriminate.
  - vm_compute. reflexivity.
Defined.

(** ** The list of subjects shown by the pages *)

Section UniqueSubjects.
Import Exam ExamPage.

Lemma Map_set_In {V} (k : jsstring) (v : V) (entries : list (jsstring * V))
    (k' : jsstring) (v' : V) :
  NoDup (List.map fst entries) ->
  (In (k', v') (Map_set k v entries) <->
   (k' = k /\ v' = v) \/ (k' <> k /\ In (k', v') entries)).
Proof.
  induction entries as [|[k0 v0] r IH]; simpl; intros Hnd.
  - split.
    + intros [[= <- <-]|[]]. left. auto.
    + intros [[-> ->]|[_ []]]. left. reflexivity.
  - apply NoDup_cons in Hnd as [Hk0 Hnd]. specialize (IH Hnd).
    destruct (decide (k = k0)) as [<-|Hne]; simpl.
    + split.
      * intros [[= <- <-]|Hin]; [left; auto|].
        right. split; [|right; exact Hin].
        intros ->. apply Hk0. apply list_elem_of_In.
        apply in_map_iff. exists (k, v'). auto.
      * intros [[-> ->]|[Hk [[= -> ->]|Hin]]]; [left; reflexivity|congruence|].
        right. exact Hin.
    + rewrite IH. split.
      * intros [[= <- <-]|[H|[Hk Hin]]]; [right; split; auto|left; exact H|].
        right. split; [exact Hk|right; exact Hin].
      * intros [H|[Hk [[= -> ->]|Hin]]]; [right; left; exact H|left; reflexivity|].
        right. right. auto.
Qed.

Lemma Map_set_NoDup {V} (k : jsstring) (v : V) (entries : list (jsstring * V)) :
  NoDup (List.map fst entries) -> NoDup (List.map fst (Map_set k v entries)).
Proof.
  induction entries as [|[k0 v0] r IH]; simpl; intros Hnd.
  - apply NoDup_singleton.
  - apply NoDup_cons in Hnd as [Hk0 Hnd].
    destruct (decide (k = k0)) as [<-|Hne]; simpl.
    + apply NoDup_cons. auto.
    + apply NoDup_cons. split; [|apply IH; exact Hnd].
      intros Hin. apply list_elem_of_In in Hin. apply in_map_iff in Hin as ([k1 v1] & E & Hin).
      simpl in E. subst k1. apply (Map_set_In k v r k0 v1 Hnd) in Hin.
      destruct Hin as [[E _]|[_ Hin]]; [congruence|].
      apply Hk0. apply list_elem_of_In. apply in_map_iff. exists (k0, v1). auto.
Qed.

Lemma fold_Map_set (l pre : list Subject) (entries : list (jsstring * Subject)) :
  NoDup (List.map fst entries) ->
  (forall k s, In (k, s) entries <-> last_of_name pre k s) ->
  NoDup (List.map fst (fold_left (fun e s => Map_set (name s) s e) l entries))
  /\ forall k s, In (k, s) (fold_left (fun e s => Map_set (name s) s e) l entries)
                 <-> last_of_name (pre ++ l) k s.
Proof.
  revert pre entries. induction l as [|x r IH]; intros pre entries Hnd Hinv; simpl.
  - rewrite app_nil_r. auto.
  - replace (pre ++ x :: r) with ((pre ++ [x]) ++ r) by (rewrite <- app_assoc; reflexivity).
    apply IH; [apply Map_set_NoDup; exact Hnd|].
    intros k s. rewrite (Map_set_In _ _ _ _ _ Hnd). rewrite Hinv. split.
    + intros [[-> ->]|[Hk (l1 & l2 & -> & Hn & Hl2)]].
      * exists pre, []. simpl. auto.
      * exists l1, (l2 ++ [x]). split; [rewrite <- app_assoc; reflexivity|].
        split; [exact Hn|]. rewrite map_app, in_app_iff. simpl. intuition congruence.
    + intros (l1 & l2 & E & Hn & Hl2).
      destruct l2 as [|y l2' _] using rev_ind.
      * apply app_inj_tail in E as [-> ->]. left. auto.
      * right. rewrite app_comm_cons, app_assoc in E.
        apply app_inj_tail in E as [-> ->].
        rewrite map_app, in_app_iff in Hl2. simpl in Hl2.
        split; [intros ->; apply Hl2; right; left; reflexivity|].
        exists l1, l2'. intuition.
Qed.

End UniqueSubjects.

(** X21: the list of subjects the pages show has no two subjects of the
    same name, and consists exactly of the subjects that are the last of
    their name among those fetched: a name fetched twice is shown once,
    with the data of its last occurrence. *)
Theorem uniqueSubjects_last_wins (allSubjects : list Exam.Subject) :
  NoDup (List.map Exam.name (ExamPage.uniqueSubjects allSubjects))
  /\ forall s,
       In s (ExamPage.uniqueSubjects allSubjects) <->
       exists l1 l2, allSubjects = l1 ++ s :: l2
                     /\ ~ In (Exam.name s) (List.map Exam.name l2).
Proof.
  destruct (fold_Map_set allSubjects [] []) as [Hnd Hin].
  { constructor. }
  { intros k s. split; [intros []|]. intros (l1 & l2 & E & _).
    destruct l1; discriminate. }
  simpl in Hin. unfold ExamPage.uniqueSubjects.
  set (entries := fold_left (fun e s => ExamPage.Map_set (Exam.name s) s e) allSubjects [])
    in *.
  assert (Hname : List.map Exam.name (List.map snd entries) = List.map fst entries).
  { rewrite List.map_map. apply map_ext_in. intros [k s] Hks.
    apply Hin in Hks as (_ & _ & _ & Hn & _). exact Hn. }
  split; [rewrite Hname; exact Hnd|].
  intros s. rewrite in_map_iff. split.
  - intros ([k s'] & E & Hks). simpl in E. subst s'.
    apply Hin in Hks as (l1 & l2 & E & Hn & Hl2).
    exists l1, l2. rewrite Hn. auto.
  - intros (l1 & l2 & E & Hl2). exists (Exam.name s, s). split; [reflexivity|].
    apply Hin. exists l1, l2. auto.
Qed.

(** ** Subjects as [POST] builds them *)

Lemma trim_start_suffix (s : jsstring) : exists p, s = p ++ trim_start s.
Proof.
  induction s as [|c r [p IH]]; simpl; [exists []; reflexivity|].
  destruct (is_js_space c); [|exists []; reflexivity].
  exists (c :: p). simpl. f_equal. exact IH.
Qed.

Lemma trim_start_head (s : jsstring) (c : N) (r : jsstring) :
  trim_start s = c :: r -> is_js_space c = false.
Proof.
  induction s as [|x t IH]; simpl; [discriminate|].
  destruct (is_js_space x) eqn:Hx; [exact IH|].
  intros [= <- _]. exact Hx.
Qed.

Lemma trim_trimmed (s : jsstring) : trimmed (trim s).
Proof.
  unfold trim, trimmed.
  destruct (trim_start_suffix (rev (trim_start s))) as [p Hp].
  destruct (trim_start (rev (trim_start s))) as [|u us] eqn:Hu; [exact I|].
  assert (Hlast : is_js_space u = false) by (eapply trim_start_head; exact Hu).
  assert (Ht : trim_start s = rev (u :: us) ++ rev p).
  { rewrite <- rev_app_distr, <- Hp, rev_involutive. reflexivity. }
  destruct (rev (u :: us)) as [|c r] eqn:Hr.
  { apply (f_equal (@rev N)) in Hr. rewrite rev_involutive in Hr. discriminate. }
  split.
  - eapply trim_start_head. exact Ht.
  - assert (E : c :: r = rev us ++ [u]) by (rewrite <- Hr; reflexivity).
    destruct (rev us) as [|y ys]; simpl in E.
    + injection E as -> ->. exact Hlast.
    + injection E as -> ->. rewrite last_last. exact Hlast.
Qed.

Lemma all_results_numbers {A} (f : nat -> A -> result (option Exam.Chapter))
    (g : nat -> A -> option Z) (P : Exam.Chapter -> Prop) (l : list A)
    (ps : list (option Exam.Chapter)) :
  (forall j x p, l !! j = Some x -> f j x = Ok p ->
                 option_map Exam.chapterNumber p = g j x
                 /\ match p with Some c => P c | None => True end) ->
  all_results (imap f l) = Ok ps ->
  List.map Exam.chapterNumber (NotesRoute.non_null ps) = NotesRoute.non_null (imap g l)
  /\ Forall P (NotesRoute.non_null ps).
Proof.
  revert f g ps. induction l as [|x r IH]; intros f g ps H; simpl.
  - intros [= <-]. split; [reflexivity|constructor].
  - destruct (f 0%nat x) as [p|e] eqn:Hp; simpl; [|discriminate].
    destruct (all_results (imap (f ∘ S) r)) as [ps'|e] eqn:Hps; simpl; [|discriminate].
    intros [= <-].
    destruct (IH (f ∘ S) (g ∘ S) ps') as [IH1 IH2];
      [intros j y q Hj Hq; exact (H (S j) y q Hj Hq) | exact Hps |].
    destruct (H 0%nat x p eq_refl Hp) as [Hg HP].
    unfold NotesRoute.non_null in *. rewrite <- Hg.
    destruct p as [c|]; simpl; [|auto].
    split; [f_equal; exact IH1 | constructor; assumption].
Qed.

(** X22: a subject that [POST] keeps has the trimmed name of the form,
    which is not empty and has no white space at either end, and at least
    one chapter; its chapters are exactly the chapters of the form that
    came with a file, in the order of the form, none dropped and none
    added; and each has a file reference and quiz entries of the checked
    shape. *)
Theorem processSubject_result (env : NotesRoute.Env) (req : NotesRoute.PostRequest)
    (i : nat) (subject : NotesRoute.Form.Subject) (s : Exam.Subject) :
  NotesRoute.processSubject env req i subject = Ok (Some s) ->
  exists n chs,
    NotesRoute.Form.name subject = Some n
    /\ NotesRoute.Form.chapters subject = Some chs
    /\ Exam.name s = trim n
    /\ Exam.name s <> [] /\ trimmed (Exam.name s)
    /\ Exam.chapters s <> []
    /\ List.map Exam.chapterNumber (Exam.chapters s) = numbers_with_file req i chs
    /\ Forall built_chapter (Exam.chapters s).
Proof.
  unfold NotesRoute.processSubject.
  destruct (NotesRoute.Form.name subject) as [n|]; [|discriminate].
  destruct (NotesRoute.Form.chapters subject) as [chs|]; [|discriminate].
  destruct (is_nil (trim n)) eqn:Hn; [discriminate|].
  destruct (is_nil chs); [discriminate|]. simpl.
  destruct (all_results (imap (NotesRoute.processChapter env req i) chs)) as [ps|e] eqn:Hps;
    simpl; [|discriminate].
  destruct (is_nil (NotesRoute.non_null ps)) eqn:Hv; [discriminate|].
  intros [= <-]. simpl. exists n, chs.
  destruct (all_results_numbers (NotesRoute.processChapter env req i)
              (fun j ch => if NotesRoute.post_file req i j
                           then Some (NotesRoute.Form.chapterNumber ch) else None)
              built_chapter chs ps) as [Hnum Hbuilt]; [|exact Hps|].
  { intros j ch p _. unfold NotesRoute.processChapter.
    destruct (NotesRoute.post_file req i j); simpl; [|intros [= <-]; auto].
    destruct (NotesRoute.uploadToCloudinary env i j) as [[r|]|]; simpl; try discriminate.
    destruct (is_nil (NotesRoute.url r)) eqn:Hu; [discriminate|].
    destruct (is_nil (NotesRoute.public_id r)) eqn:Hp; [discriminate|]. simpl.
    intros [= <-]. simpl. split; [reflexivity|].
    unfold built_chapter. simpl. split; [intros E; rewrite E in Hu; discriminate|].
    split; [intros E; rewrite E in Hp; discriminate|].
    apply parseQuizData_all_shaped. }
  repeat split; auto.
  - intros E. rewrite E in Hn. discriminate.
  - apply trim_trimmed.
  - intros E. rewrite E in Hv. discriminate.
Qed.

Lemma processSubject_result_witness :
  exists n chs,
    NotesRoute.Form.name
      {| NotesRoute.Form.name := Some (str " Maths ");
         NotesRoute.Form.chapters := Some [ {| NotesRoute.Form.chapterNumber := 1 |} ] |}
    = Some n
    /\ NotesRoute.Form.chapters
         {| NotesRoute.Form.name := Some (str " Maths ");
            NotesRoute.Form.chapters := Some [ {| NotesRoute.Form.chapterNumber := 1 |} ] |}
       = Some chs
    /\ Exam.name {| Exam.name := str "Maths";
                    Exam.chapters := [PostScenario.new_chapter 1] |} = trim n
    /\ Exam.name {| Exam.name := str "Maths";
                    Exam.chapters := [PostScenario.new_chapter 1] |} <> []
    /\ trimmed (Exam.name {| Exam.name := str "Maths";
                             Exam.chapters := [PostScenario.new_chapter 1] |})
    /\ Exam.chapters {| Exam.name := str "Maths";
                        Exam.chapters := [PostScenario.new_chapter 1] |} <> []
    /\ List.map Exam.chapterNumber
         (Exam.chapters {| Exam.name := str "Maths";
                           Exam.chapters := [PostScenario.new_chapter 1] |})
       = numbers_with_file MoreScenario.create_jee 0 chs
    /\ Forall built_chapter
         (Exam.chapters {| Exam.name := str "Maths";
                           Exam.chapters := [PostScenario.new_chapter 1] |}).
Proof.
  apply (processSubject_result PostScenario.uploads_only MoreScenario.create_jee 0).
  vm_compute. reflexivity.
Defined.

(** ** The activity log: validation *)

Lemma complete_dec (body : ActivityRoute.Body) (n : Z) :
  ActivityRoute.chapterNumber body = Some n ->
  (is_nil (ActivityRoute.userId body) || is_nil (ActivityRoute.userName body)
   || is_nil (ActivityRoute.exam body) || is_nil (ActivityRoute.subject body)
   || is_nil (ActivityRoute.activityType body)
   || negb (bool_decide (ActivityRoute.activityType body ∈ ActivityRoute.activity_types))
   = false) <-> complete body.
Proof.
  intros Hn. unfold complete. rewrite Hn.
  destruct (ActivityRoute.userId body) as [|c1 u]; simpl;
    [split; [discriminate|tauto]|].
  destruct (ActivityRoute.userName body) as [|c2 un]; simpl;
    [split; [discriminate|tauto]|].
  destruct (ActivityRoute.exam body) as [|c3 e]; simpl;
    [split; [discriminate|tauto]|].
  destruct (ActivityRoute.subject body) as [|c4 s]; simpl;
    [split; [discriminate|tauto]|].
  destruct (ActivityRoute.activityType body) as [|c5 t] eqn:Ht; simpl;
    [split; [discriminate|intros (_ & _ & _ & _ & _ & [H|H]); discriminate]|].
  case_bool_decide as Hin; simpl.
  - split; [|reflexivity]. intros _.
    repeat split; try discriminate.
    unfold ActivityRoute.activity_types in Hin.
    apply list_elem_of_In in Hin. destruct Hin as [<-|[<-|[]]]; auto.
  - split; [discriminate|].
    intros (_ & _ & _ & _ & _ & H). exfalso. apply Hin.
    unfold ActivityRoute.activity_types. apply list_elem_of_In.
    destruct H as [->| ->]; simpl; auto.
Qed.

(** X23: the append operation answers 201, 400 or 500. It answers 400
    exactly when the body can be read and is not complete: the user
    identifier, user name, exam, subject or kind is empty, no chapter
    number is given (zero counts as given), or the kind is neither
    [notes_access] nor [quiz_submission]. It answers 201 exactly when the
    body is complete and the store keeps the record, and 500 exactly when
    the body cannot be read, or is complete and the store refuses the
    record. *)
Theorem POST_activity_validation (created : outcome unit) (now : Z)
    (req : Json ActivityRoute.Body) (db : list StudentActivity.t) :
  In (status (fst (ActivityRoute.POST created now req db))) [201; 400; 500]%Z
  /\ (status (fst (ActivityRoute.POST created now req db)) = 400%Z <->
      exists body, req = Fields body /\ ~ complete body)
  /\ (status (fst (ActivityRoute.POST created now req db)) = 201%Z <->
      exists body, req = Fields body /\ complete body /\ created = Resolved tt)
  /\ (status (fst (ActivityRoute.POST created now req db)) = 500%Z <->
      req = Unreadable
      \/ exists body, req = Fields body /\ complete body /\ created = Rejected).
Proof.
  unfold ActivityRoute.POST.
  destruct req as [|body].
  { simpl. split; [tauto|]. split; [|split].
    - split; [discriminate|]. intros (b & Hb & _). discriminate.
    - split; [discriminate|]. intros (b & Hb & _). discriminate.
    - split; [left; reflexivity | reflexivity]. }
  destruct (ActivityRoute.chapterNumber body) as [n|] eqn:Hn.
  2:{ assert (Hc : ~ complete body).
      { unfold complete. rewrite Hn. tauto. }
      simpl. split; [tauto|]. split; [|split].
      - split; [intros _; exists body; auto | reflexivity].
      - split; [discriminate|]. intros (b & [= <-] & Hb & _). tauto.
      - split; [discriminate|].
        intros [H | (b & [= <-] & Hb & _)]; [discriminate | tauto]. }
  pose proof (complete_dec body n Hn) as Hdec.
  destruct (is_nil (ActivityRoute.userId body) || is_nil (ActivityRoute.userName body)
            || is_nil (ActivityRoute.exam body) || is_nil (ActivityRoute.subject body)
            || is_nil (ActivityRoute.activityType body)) eqn:Hmiss.
  { assert (Hc : ~ complete body) by (intros Hc; apply Hdec in Hc; discriminate).
    simpl. split; [tauto|]. split; [|split].
    - split; [intros _; exists body; auto | reflexivity].
    - split; [discriminate|]. intros (b & [= <-] & Hb & _). tauto.
    - split; [discriminate|].
      intros [H | (b & [= <-] & Hb & _)]; [discriminate | tauto]. }
  simpl in Hdec.
  destruct (negb (bool_decide (ActivityRoute.activityType body ∈ ActivityRoute.activity_types))).
  { assert (Hc : ~ complete body) by (intros Hc; apply Hdec in Hc; discriminate).
    simpl. split; [tauto|]. split; [|split].
    - split; [intros _; exists body; auto | reflexivity].
    - split; [discriminate|]. intros (b & [= <-] & Hb & _). tauto.
    - split; [discriminate|].
      intros [H | (b & [= <-] & Hb & _)]; [discriminate | tauto]. }
  assert (Hc : complete body) by (apply Hdec; reflexivity).
  destruct created as [[]|]; simpl.
  - split; [tauto|]. split; [|split].
    + split; [discriminate|]. intros (b & [= <-] & Hb). tauto.
    + split; [intros _; exists body; auto | reflexivity].
    + split; [discriminate|].
      intros [H | (b & _ & _ & H)]; discriminate.
  - split; [tauto|]. split; [|split].
    + split; [discriminate|]. intros (b & [= <-] & Hb). tauto.
    + split; [discriminate|]. intros (b & _ & _ & H). discriminate.
    + split; [intros _; right; exists body; auto | reflexivity].
Qed.

(** ** Updating a chapter: what is sent is what changes *)

(** X24: when an update is answered by 200, the chapter it returns keeps
    the number of the stored chapter; it keeps its file reference and
    summary unless a file was sent, and its quiz unless a quiz was
    sent. *)
Theorem PUT_changes_what_is_sent (env : NotesRoute.Env) (req : NotesRoute.PutRequest)
    (db : DB) (n : Z) (k i j : nat) (d : Exam.t) (s : Exam.Subject) (c : Exam.Chapter) :
  NotesRoute.put_chapterNumber req = Some n ->
  Located.locate (NotesRoute.put_exam req) (NotesRoute.put_subject req) n (exams db)
  = Some (k, d, (i, s), (j, c)) ->
  status (fst (NotesRoute.PUT env req db)) = 200%Z ->
  exists c2,
    payload (fst (NotesRoute.PUT env req db)) = Some c2
    /\ snd (NotesRoute.PUT env req db) = NotesRoute.save_chapter k i j d s c2 db
    /\ Exam.chapterNumber c2 = Exam.chapterNumber c
    /\ (NotesRoute.put_notesFile req = false ->
        Exam.notesFileUrl c2 = Exam.notesFileUrl c
        /\ Exam.publicId c2 = Exam.publicId c
        /\ Exam.summary c2 = Exam.summary c)
    /\ (NotesRoute.put_quiz req = [] -> Exam.quiz c2 = Exam.quiz c).
Proof.
  intros Hn Hloc. unfold Located.locate in Hloc.
  unfold NotesRoute.PUT, NotesRoute.PUT_try. rewrite Hn.
  destruct (is_nil (NotesRoute.put_exam req) || is_nil (NotesRoute.put_subject req));
    [discriminate|].
  destruct (NotesRoute.findOne (NotesRoute.put_exam req) (exams db)) as [[k0 d0]|];
    [|discriminate].
  destruct (NotesRoute.find_subject (NotesRoute.put_subject req) (Exam.subjects d0))
    as [[i0 s0]|]; [|discriminate].
  destruct (NotesRoute.find_chapter n (Exam.chapters s0)) as [[j0 c0]|]; [|discriminate].
  injection Hloc as -> -> -> -> -> ->. simpl.
  destruct (NotesRoute.update_notes env req c) as [c1|e] eqn:H1; simpl; [|discriminate].
  destruct (NotesRoute.update_quiz (NotesRoute.put_quiz req) c1) as [c2|bad] eqn:H2; simpl.
  - intros _. exists c2. split; [reflexivity|]. split; [reflexivity|].
    split; [rewrite (update_quiz_number _ _ _ H2); exact (update_notes_number _ _ _ _ H1)|].
    split.
    + intros Hfile. unfold NotesRoute.update_notes in H1. rewrite Hfile in H1.
      simpl in H1. injection H1 as <-.
      unfold NotesRoute.update_quiz in H2.
      destruct (is_nil (NotesRoute.put_quiz req)); [injection H2 as <-; auto|].
      destruct (JSON_parse (NotesRoute.put_quiz req)) as [v|e]; simpl in H2;
        [|discriminate].
      destruct v; try (injection H2 as <-; auto).
      destruct (filterM valid_quiz_item l) as [kept|e]; simpl in H2; [|discriminate].
      injection H2 as <-. auto.
    + intros Hquiz. unfold NotesRoute.update_quiz in H2. rewrite Hquiz in H2.
      simpl in H2. injection H2 as <-.
      unfold NotesRoute.update_notes in H1.
      destruct (negb (NotesRoute.put_notesFile req)); [injection H1 as <-; reflexivity|].
      destruct (NotesRoute.uploadToCloudinary env 0 0) as [[r|]|]; try discriminate.
      destruct (is_nil (NotesRoute.url r) || is_nil (NotesRoute.public_id r));
        [discriminate|].
      injection H1 as <-. reflexivity.
  - unfold NotesRoute.update_quiz in H2.
    destruct (is_nil (NotesRoute.put_quiz req)); [discriminate|].
    destruct (bind (JSON_parse (NotesRoute.put_quiz req)) _); [discriminate|].
    injection H2 as <-. discriminate.
Qed.

Lemma PUT_changes_what_is_sent_witness :
  exists c2,
    payload (fst (NotesRoute.PUT Scenario.offline Scenario.put_mixed_quiz Scenario.db))
    = Some c2
    /\ snd (NotesRoute.PUT Scenario.offline Scenario.put_mixed_quiz Scenario.db)
       = NotesRoute.save_chapter 0 0 1 Scenario.gate
           {| Exam.name := str "Physics";
              Exam.chapters := [Scenario.chapter1; Scenario.chapter2] |} c2 Scenario.db
    /\ Exam.chapterNumber c2 = Exam.chapterNumber Scenario.chapter2
    /\ (NotesRoute.put_notesFile Scenario.put_mixed_quiz = false ->
        Exam.notesFileUrl c2 = Exam.notesFileUrl Scenario.chapter2
        /\ Exam.publicId c2 = Exam.publicId Scenario.chapter2
        /\ Exam.summary c2 = Exam.summary Scenario.chapter2)
    /\ (NotesRoute.put_quiz Scenario.put_mixed_quiz = [] ->
        Exam.quiz c2 = Exam.quiz Scenario.chapter2).
Proof.
  apply (PUT_changes_what_is_sent Scenario.offline Scenario.put_mixed_quiz Scenario.db
           2%Z 0 0 1 Scenario.gate
           {| Exam.name := str "Physics";
              Exam.chapters := [Scenario.chapter1; Scenario.chapter2] |}
           Scenario.chapter2 eq_refl);
    vm_compute; reflexivity.
Defined.

(** ** The chapter chosen is the chapter logged *)

(** X19: when a student is signed in and has chosen an exam, a subject and
    a chapter, the chosen chapter being given, as the selector does, by the
    decimal text of its number [n], both logging functions send a request,
    and the request carries the chapter number [n]. *)
Theorem ExamPage_logs_selected_chapter (st : ExamPage.State) (n : nat) (c : N)
    (u : jsstring) :
  ExamPage.userId st = Some (c :: u) ->
  ExamPage.selectedExam st <> [] ->
  ExamPage.selectedSubject st <> [] ->
  ExamPage.selectedChapter st = Courses.toString n ->
  (exists body, ExamPage.logNotesAccess st = Some body
                /\ ActivityRoute.chapterNumber body = Some (Z.of_nat n)
                /\ ActivityRoute.userId body = c :: u)
  /\ (exists body, ExamPage.submission st = Some body
                   /\ ActivityRoute.chapterNumber body = Some (Z.of_nat n)
                   /\ ActivityRoute.userId body = c :: u).
Proof.
  intros Hu He Hs Hc.
  assert (Hsel : ExamPage.selection st = Some (c :: u, Z.of_nat n)).
  { unfold ExamPage.selection. rewrite Hu, (is_nil_false _ He), (is_nil_false _ Hs), Hc.
    rewrite (proj1 (parseInt_toString n)).
    assert (Hne : is_nil (Courses.toString n) = false).
    { destruct (Courses.toString n) eqn:E; [|reflexivity].
      pose proof (proj1 (parseInt_toString n)) as Hp. rewrite E in Hp. discriminate. }
    rewrite Hne. reflexivity. }
  unfold ExamPage.logNotesAccess, ExamPage.submission. rewrite Hsel.
  split; eexists; (split; [reflexivity|]); simpl; auto.
Qed.

Lemma ExamPage_logs_selected_chapter_witness :
  (exists body, ExamPage.logNotesAccess PageScenario.ready = Some body
                /\ ActivityRoute.chapterNumber body = Some (Z.of_nat 2)
                /\ ActivityRoute.userId body = str "u1")
  /\ (exists body, ExamPage.submission PageScenario.ready = Some body
                   /\ ActivityRoute.chapterNumber body = Some (Z.of_nat 2)
                   /\ ActivityRoute.userId body = str "u1").
Proof.
  apply (ExamPage_logs_selected_chapter PageScenario.ready 2 117 (str "1"));
    [reflexivity | discriminate | discriminate | reflexivity].
Defined.

(** ** Instances of the statements above *)

Lemma POST_status_and_atomicity_witness :
  snd (NotesRoute.POST Scenario.offline MoreScenario.create_jee Scenario.db) = Scenario.db.
Proof.
  apply (proj2 (proj2 (proj2 (proj2 (POST_status_and_atomicity Scenario.offline
                                       MoreScenario.create_jee Scenario.db)))));
    vm_compute; discriminate.
Defined.

Lemma PUT_status_and_atomicity_witness :
  snd (NotesRoute.PUT Scenario.offline Scenario.put_broken_quiz Scenario.db) = Scenario.db.
Proof.
  apply (proj2 (proj2 (proj2 (PUT_status_and_atomicity Scenario.offline
                                Scenario.put_broken_quiz Scenario.db)))).
  vm_compute. discriminate.
Defined.

Lemma DELETE_status_and_atomicity_witness :
  status (fst (NotesRoute.DELETE PostScenario.uploads_only Rejected
                 (Fields ReadScenario.delete_chapter1) Scenario.db)) = 500%Z
  /\ exams (snd (NotesRoute.DELETE PostScenario.uploads_only Rejected
                   (Fields ReadScenario.delete_chapter1) Scenario.db))
     = exams Scenario.db
  /\ activities (snd (NotesRoute.DELETE PostScenario.uploads_only Rejected
                        (Fields ReadScenario.delete_chapter1) Scenario.db))
     = [Scenario.view "u2" 2 20].
Proof.
  split; [reflexivity|]. split; [|reflexivity].
  apply (proj1 (proj2 (DELETE_status_and_atomicity PostScenario.uploads_only Rejected
                         (Fields ReadScenario.delete_chapter1) Scenario.db))).
  vm_compute. discriminate.
Defined.

(** An answer recorded under a key that is no index of the quiz leaves
    the score as it is. *)
Lemma score_bounds_witness :
  Courses.score (CoursesEdit.handleAnswerChange (str "7") (str "Paris") capitals)
  = Courses.score capitals.
Proof.
  apply (proj2 (proj2 (score_bounds capitals))
           (CoursesEdit.handleAnswerChange (str "7") (str "Paris") capitals) eq_refl).
  intros i Hi. simpl. apply lookup_insert_ne.
  change (str "7") with (Courses.toString 7).
  intros E. apply toString_inj in E. simpl in Hi. lia.
Defined.

Lemma uniqueSubjects_last_wins_witness :
  In {| Exam.name := str "Physics"; Exam.chapters := [Scenario.chapter2] |}
     (ExamPage.uniqueSubjects
        [ {| Exam.name := str "Physics"; Exam.chapters := [Scenario.chapter1] |};
          {| Exam.name := str "Physics"; Exam.chapters := [Scenario.chapter2] |} ]).
Proof.
  apply (proj2 (uniqueSubjects_last_wins _)).
  exists [ {| Exam.name := str "Physics"; Exam.chapters := [Scenario.chapter1] |} ], [].
  split; [reflexivity | intros []].
Defined.

(** A complete body whose record the store refuses is answered by 500. *)
Lemma POST_activity_validation_witness :
  status (fst (ActivityRoute.POST Rejected 100 (Fields LogScenario.bare_submission) []))
  = 500%Z.
Proof.
  apply (proj2 (proj2 (proj2 (proj2
           (POST_activity_validation Rejected 100 (Fields LogScenario.bare_submission) []))))).
  right. exists LogScenario.bare_submission. split; [reflexivity|].
  split; [|reflexivity].
  repeat split; try discriminate. right. reflexivity.
Defined.
